(** * SmartLesson: the TOS allocation and slot-assignment pipeline

    A shallow embedding of

    - [services/tos_service.py]  (apportionment engine),
    - [services/question_type_service.py]  (question-type ledger),
    - [services/tos_slot_assignment_service.py]  (slot expansion, soft-preference
      assignment, integrity verifier),

    followed by the properties of the specification, each stated on these
    definitions.

    Conventions of the embedding.
    - Python [int] is [Z]; Python [float] is the kernel's binary64 [float]
      (the same IEEE 754 format and rounding as CPython's), so a value that is
      either is a [pynum].
    - A [dict] is an association list in insertion order ([dict_get],
      [dict_set]); that its keys are pairwise distinct is the invariant
      [dict_wf].
    - A function that can raise returns a [result]: [inl] of the exception or
      [inr] of the value.
    - The identity of an object ([id(x)]) is a field of its record where the
      code looks at it.
    - The hours and weights of the outcomes, and the raw shares computed from
      them, are exact rationals ([Q]); the rounding of these products is
      outside the model, and the lemmas on the allocation say how much of it
      they tolerate.
    - [random.shuffle] takes the numbers its generator will draw as an
      argument.
    - A dictionary with a fixed set of keys (a slot, a summary, the result of
      [generate_tos]) is a record of its values.
    - A function that updates its argument in place returns the updated
      argument with its result ([generate_tos] and the weights of the
      outcomes). *)

From Stdlib Require Import ZArith List String Ascii Bool Lia Arith.
From Stdlib Require Import QArith Qround Qabs.
From Stdlib Require Import Permutation Sorted.
From Stdlib Require Import PrimFloat SpecFloat FloatOps.
From Stdlib Require Import DecimalString.
Import ListNotations.

Set Implicit Arguments.
Open Scope string_scope.
Open Scope list_scope.
Open Scope Z_scope.

(** ** Python runtime: exceptions *)

Module Py.

Inductive exception : Type :=
| ValueError (msg : string)
| ZeroDivisionError (msg : string)
| OverflowError (msg : string)
| KeyError (key : string).

Definition result (A : Type) : Type := (exception + A)%type.

Definition ret {A} (a : A) : result A := inr a.
Definition raise {A} (e : exception) : result A := inl e.

Definition bind {A B} (c : result A) (k : A -> result B) : result B :=
  match c with
  | inl e => inl e
  | inr a => k a
  end.

Definition returns {A} (c : result A) : bool :=
  match c with inl _ => false | inr _ => true end.

End Py.

Notation "x <- c ;; k" := (Py.bind c (fun x => k))
  (at level 61, c at next level, right associativity).
Notation "' pat <- c ;; k" := (Py.bind c (fun x => match x with pat => k end))
  (at level 61, pat pattern, c at next level, right associativity).

(** ** Python runtime: [str(n)] for integers *)

Definition str_of_Z (z : Z) : string := NilZero.string_of_int (Z.to_int z).
Definition str_of_nat (n : nat) : string := str_of_Z (Z.of_nat n).

(** ** Python runtime: dictionaries *)

Class EqKey (K : Type) := {
  key_eqb : K -> K -> bool;
  key_eqb_spec : forall a b, reflect (a = b) (key_eqb a b)
}.

#[export] Instance EqKey_string : EqKey string :=
  {| key_eqb := String.eqb; key_eqb_spec := String.eqb_spec |}.

#[export] Instance EqKey_Z : EqKey Z :=
  {| key_eqb := Z.eqb; key_eqb_spec := Z.eqb_spec |}.

Section Dict.
Context {K V : Type} `{EqKey K}.

Definition dict : Type := list (K * V).

(** [d.get(k)]: [None] when the key is absent. *)
Fixpoint dict_get (d : dict) (k : K) : option V :=
  match d with
  | [] => None
  | (k', v) :: d' => if key_eqb k' k then Some v else dict_get d' k
  end.

(** [d.get(k, default)] *)
Definition dict_get_default (d : dict) (k : K) (default : V) : V :=
  match dict_get d k with
  | Some v => v
  | None => default
  end.

(** [d[k] = v]: an existing key keeps its position, a new key goes last. *)
Fixpoint dict_set (d : dict) (k : K) (v : V) : dict :=
  match d with
  | [] => [(k, v)]
  | (k', v') :: d' =>
      if key_eqb k' k then (k', v) :: d' else (k', v') :: dict_set d' k v
  end.

Definition dict_keys (d : dict) : list K := map fst d.
Definition dict_values (d : dict) : list V := map snd d.

(** What every Python dictionary satisfies: no key occurs twice. *)
Definition dict_wf (d : dict) : Prop := NoDup (dict_keys d).
End Dict.

Arguments dict : clear implicits.

(** ** Python runtime: numbers

    [int] and [float] with the mixed arithmetic of the interpreter: an
    operation on two ints is exact, any other converts the int operand to
    binary64 (round to nearest, ties to even) and works there; comparisons
    between an int and a float compare the exact values. *)

Inductive pynum : Type :=
| PyInt (z : Z)
| PyFloat (f : float).

Definition float_of_Z (z : Z) : float :=
  SF2Prim (binary_normalize prec emax z 0 false).

Definition to_float (x : pynum) : float :=
  match x with
  | PyInt z => float_of_Z z
  | PyFloat f => f
  end.

Definition py_add (a b : pynum) : pynum :=
  match a, b with
  | PyInt x, PyInt y => PyInt (x + y)
  | _, _ => PyFloat (to_float a + to_float b)
  end.

Definition py_mul (a b : pynum) : pynum :=
  match a, b with
  | PyInt x, PyInt y => PyInt (x * y)
  | _, _ => PyFloat (to_float a * to_float b)
  end.

(** The exact order between an integer and a float; [None] for NaN. *)
Definition Z_float_compare (z : Z) (f : float) : option comparison :=
  match Prim2SF f with
  | S754_nan => None
  | S754_infinity s => Some (if s then Gt else Lt)
  | S754_zero _ => Some (z ?= 0)
  | S754_finite s m e =>
      let n := if s then Z.neg m else Z.pos m in
      Some (if 0 <=? e then z ?= n * 2 ^ e else z * 2 ^ (- e) ?= n)
  end.

(** [a == b] *)
Definition py_eqb (a b : pynum) : bool :=
  match a, b with
  | PyInt x, PyInt y => x =? y
  | PyFloat f, PyFloat g => PrimFloat.eqb f g
  | PyInt x, PyFloat g =>
      match Z_float_compare x g with Some Eq => true | _ => false end
  | PyFloat f, PyInt y =>
      match Z_float_compare y f with Some Eq => true | _ => false end
  end.

(** [a <= b] *)
Definition py_leb (a b : pynum) : bool :=
  match a, b with
  | PyInt x, PyInt y => x <=? y
  | PyFloat f, PyFloat g => PrimFloat.leb f g
  | PyInt x, PyFloat g =>
      match Z_float_compare x g with Some Lt | Some Eq => true | _ => false end
  | PyFloat f, PyInt y =>
      match Z_float_compare y f with Some Gt | Some Eq => true | _ => false end
  end.

(** [a < b] *)
Definition py_ltb (a b : pynum) : bool :=
  match a, b with
  | PyInt x, PyInt y => x <? y
  | PyFloat f, PyFloat g => PrimFloat.ltb f g
  | PyInt x, PyFloat g =>
      match Z_float_compare x g with Some Lt => true | _ => false end
  | PyFloat f, PyInt y =>
      match Z_float_compare y f with Some Gt => true | _ => false end
  end.

(** [int(f)] for a float: truncation towards zero; NaN and the infinities
    raise. *)
Definition py_int (f : float) : Py.result Z :=
  match Prim2SF f with
  | S754_nan => Py.raise (Py.ValueError "cannot convert float NaN to integer")
  | S754_infinity _ =>
      Py.raise (Py.OverflowError "cannot convert float infinity to integer")
  | S754_zero _ => Py.ret 0
  | S754_finite s m e =>
      let a := if 0 <=? e then Z.pos m * 2 ^ e else Z.pos m / 2 ^ (- e) in
      Py.ret (if s then - a else a)
  end.

(** [a / b] on two ints (true division): the quotient as a float. Both
    operands are converted first, which gives the correctly rounded quotient
    whenever they are below 2^53 in magnitude. *)
Definition py_truediv_int (a b : Z) : Py.result float :=
  if b =? 0 then Py.raise (Py.ZeroDivisionError "division by zero")
  else Py.ret (float_of_Z a / float_of_Z b)%float.

(** [sum(l)] over ints: a left fold from 0. *)
Definition py_sum (l : list Z) : Z := fold_left Z.add l 0.

(** [sum(l)] over numbers: the items added to the int 0 from left to right.
    On ints this is exact. (On floats an interpreter from 3.12 on also
    carries a correction term for the rounding errors; the statements on
    this sum are on ints, or compare two sums of the same numbers.) *)
Definition py_sum_num (l : list pynum) : pynum := fold_left py_add l (PyInt 0).

(** [l[:k]]: the first [k] elements, or all but the last [-k] when [k] is
    negative. *)
Definition py_slice_to {A} (l : list A) (k : Z) : list A :=
  if k <? 0 then firstn (List.length l - Z.to_nat (- k)) l
  else firstn (Z.to_nat k) l.

(** [l.pop(idx)] (the list that remains), for an index in range. *)
Fixpoint list_pop {A} (l : list A) (idx : nat) : list A :=
  match l, idx with
  | [], _ => []
  | _ :: l', O => l'
  | x :: l', S i => x :: list_pop l' i
  end.

(** [sorted(l, key=key, reverse=True)]: descending by key and stable, so
    elements with equal keys stay in their input order. *)
Fixpoint insert_desc {A} (key : A -> Q) (x : A) (l : list A) : list A :=
  match l with
  | [] => [x]
  | y :: l' =>
      if Qle_bool (key y) (key x) then x :: y :: l'
      else y :: insert_desc key x l'
  end.

Definition py_sorted_desc {A} (key : A -> Q) (l : list A) : list A :=
  fold_right (insert_desc key) [] l.

(** ** [services/tos_service.py] *)

(** A learning outcome, [{"id": int, "text": str, "hours": float}], with the
    ["weight"] that [compute_outcome_weights] adds. Hours and weights are kept
    as exact rationals: the allocation below is stated on the real-number
    shares, without the rounding of binary64. *)
Record Outcome : Type := {
  o_id : Z;
  o_text : string;
  o_hours : Q;
  o_weight : Q
}.

Module TosService.

Definition BLOOM_LEVELS : list string :=
  ["Remember"; "Understand"; "Apply"; "Analyze"; "Evaluate"; "Create"].

(** The loop of [compute_bloom_item_totals] over [BLOOM_LEVELS[:-1]], on the
    pair of [bloom_items] and [remainder]:
    [count = int(total_items * (bloom_weights[bloom] / 100))]. *)
Fixpoint bloom_totals_loop (bloom_weights : dict string Z) (total_items : Z)
    (levels : list string) (bloom_items : dict string Z) (remainder : Z)
    : Py.result (dict string Z * Z) :=
  match levels with
  | [] => Py.ret (bloom_items, remainder)
  | bloom :: levels' =>
      match dict_get bloom_weights bloom with
      | None => Py.raise (Py.KeyError bloom)
      | Some w =>
          share <- py_truediv_int w 100 ;;
          count <- py_int (float_of_Z total_items * share)%float ;;
          bloom_totals_loop bloom_weights total_items levels'
            (dict_set bloom_items bloom count) (remainder - count)
      end
  end.

Definition compute_bloom_item_totals (bloom_weights : dict string Z)
    (total_items : Z) : Py.result (dict string Z) :=
  '(bloom_items, remainder) <-
     bloom_totals_loop bloom_weights total_items (removelast BLOOM_LEVELS)
       [] total_items ;;
  Py.ret (dict_set bloom_items (last BLOOM_LEVELS "") remainder).


(** [raw]: the pairs [(o["id"], total_bloom_items * o["weight"])]. *)
Definition raw_shares (outcomes : list Outcome) (total_bloom_items : Z)
    : list (Z * Q) :=
  map (fun o => (o_id o, inject_Z total_bloom_items * o_weight o)%Q) outcomes.

(** [{oid: math.floor(v) for oid, v in raw}] *)
Definition floor_allocation (raw : list (Z * Q)) : dict Z Z :=
  fold_left (fun allocated '(oid, v) => dict_set allocated oid (Qfloor v))
    raw [].

(** The sort key [x[1] - math.floor(x[1])]. *)
Definition remainder_key (x : Z * Q) : Q := (snd x - inject_Z (Qfloor (snd x)))%Q.

(** [for oid, _ in top: allocated[oid] += 1] *)
Fixpoint award (allocated : dict Z Z) (top : list (Z * Q))
    : Py.result (dict Z Z) :=
  match top with
  | [] => Py.ret allocated
  | (oid, _) :: top' =>
      match dict_get allocated oid with
      | None => Py.raise (Py.KeyError (str_of_Z oid))
      | Some c => award (dict_set allocated oid (c + 1)) top'
      end
  end.

(** The body of the loop of [allocate_items_largest_remainder] for one level,
    from the raw shares on. *)
Definition allocate_from_raw (raw : list (Z * Q)) (total_bloom_items : Z)
    : Py.result (dict Z Z) :=
  let allocated := floor_allocation raw in
  let used := py_sum (dict_values allocated) in
  let remaining := total_bloom_items - used in
  let remainders := py_sorted_desc remainder_key raw in
  award allocated (py_slice_to remainders remaining).

Definition allocate_level (outcomes : list Outcome) (total_bloom_items : Z)
    : Py.result (dict Z Z) :=
  allocate_from_raw (raw_shares outcomes total_bloom_items) total_bloom_items.

Fixpoint allocate_loop (outcomes : list Outcome) (items : list (string * Z))
    (tos_matrix : dict string (dict Z Z)) : Py.result (dict string (dict Z Z)) :=
  match items with
  | [] => Py.ret tos_matrix
  | (bloom, total_bloom_items) :: items' =>
      allocated <- allocate_level outcomes total_bloom_items ;;
      allocate_loop outcomes items' (dict_set tos_matrix bloom allocated)
  end.

Definition allocate_items_largest_remainder (outcomes : list Outcome)
    (bloom_items : dict string Z) : Py.result (dict string (dict Z Z)) :=
  allocate_loop outcomes bloom_items [].

(** The dictionary that [generate_tos] returns. *)
Module TosResult.
Record t : Type := make {
  bloom_totals : dict string Z;
  tos_matrix : dict string (dict Z Z)
}.
End TosResult.


(** A slot as [generate_tos_from_assigned_slots] reads it:
    [{"outcome_id": int, "outcome_text": str, "bloom": str, "type": str,
      "points": float}]. *)
Module SlotDict.
Record t : Type := make {
  outcome_id : Z;
  outcome_text : string;
  bloom : string;
  type : string;
  points : pynum
}.
End SlotDict.






(** The tuple that [compute_tos_totals] returns. *)
Module TosTotals.
Record t : Type := make {
  total_items : Z;
  total_points : pynum;
  items_by_bloom : dict string Z;
  points_by_bloom : dict string pynum
}.
End TosTotals.



End TosService.

(** ** [services/question_type_service.py] *)

Module QuestionType.
(** The dataclass [QuestionType]. *)
Record t : Type := make {
  type : string;
  items : Z;
  points_per_item : pynum;
  id : string
}.

(** [total_points]: [self.items * self.points_per_item] *)
Definition total_points (qt : t) : pynum :=
  py_mul (PyInt (items qt)) (points_per_item qt).
End QuestionType.

Module QuestionTypeService.

(** The entries of the error list of [validate_question_type_distribution],
    each with the values its message shows. *)
Inductive validation_error : Type :=
| NoQuestionType
| ItemSumMismatch (total_items total_test_items : Z)
| ItemsNotPositive (type : string) (items : Z)
| PointsNotPositive (type : string) (points_per_item : pynum)
| DuplicateTypes (duplicates : list string).

(** [type_names.count(name)] *)
Definition count_name (type_names : list string) (name : string) : nat :=
  List.length (filter (String.eqb name) type_names).

(** The errors of the loop over the entries, in order. *)
Definition positive_errors (qt : QuestionType.t) : list validation_error :=
  (if QuestionType.items qt <=? 0
   then [ItemsNotPositive (QuestionType.type qt) (QuestionType.items qt)]
   else [])
  ++
  (if py_leb (QuestionType.points_per_item qt) (PyInt 0)
   then [PointsNotPositive (QuestionType.type qt)
           (QuestionType.points_per_item qt)]
   else []).

Definition validate_question_type_distribution
    (question_types : list QuestionType.t) (total_test_items : Z)
    : bool * list validation_error :=
  match question_types with
  | [] => (false, [NoQuestionType])
  | _ :: _ =>
      let total_items := py_sum (map QuestionType.items question_types) in
      let errors1 :=
        if negb (total_items =? total_test_items)
        then [ItemSumMismatch total_items total_test_items] else [] in
      let errors2 := flat_map positive_errors question_types in
      let type_names := map QuestionType.type question_types in
      let duplicates :=
        filter (fun name => (1 <? count_name type_names name)%nat) type_names in
      let errors3 :=
        match duplicates with
        | [] => []
        | _ :: _ => [DuplicateTypes duplicates]
        end in
      let errors := errors1 ++ errors2 ++ errors3 in
      (Nat.eqb (List.length errors) 0, errors)
  end.

(** [sum(qt.total_points() for qt in question_types)] *)
Definition compute_total_points (question_types : list QuestionType.t)
    : pynum :=
  py_sum_num (map QuestionType.total_points question_types).

Definition compute_question_type_totals (question_types : list QuestionType.t)
    : Z * pynum :=
  let total_items := py_sum (map QuestionType.items question_types) in
  let total_points :=
    py_sum_num (map QuestionType.total_points question_types) in
  (total_items, total_points).




(** A row of the table of [format_question_types_for_display]; the column
    "Points Per Item" holds a number, or the string "-" in the summary row. *)
Module DisplayRow.
Inductive points_cell : Type :=
| Points (points_per_item : pynum)
| Dash.
Record t : Type := make {
  question_type : string;
  no_of_items : Z;
  points_per_item : points_cell;
  total_points : pynum
}.
End DisplayRow.


End QuestionTypeService.

(** ** [random.shuffle]

    The in-place Fisher-Yates shuffle of the standard library:
    [for i in reversed(range(1, len(x))): j = randbelow(i + 1);
     x[i], x[j] = x[j], x[i]].
    The generator is the sequence [rng] of the numbers it will draw; the
    [k]-th call of [randbelow(n)] returns [rng k mod n]. *)

Fixpoint list_set {A} (l : list A) (i : nat) (x : A) : list A :=
  match l, i with
  | [], _ => []
  | _ :: l', O => x :: l'
  | y :: l', S i' => y :: list_set l' i' x
  end.

Definition list_swap {A} (l : list A) (i j : nat) : list A :=
  match nth_error l i, nth_error l j with
  | Some a, Some b => list_set (list_set l i b) j a
  | _, _ => l
  end.

Fixpoint shuffle_loop {A} (rng : nat -> nat) (k i : nat) (x : list A)
    : list A :=
  match i with
  | O => x
  | S i' => shuffle_loop rng (S k) i' (list_swap x i (rng k mod S i)%nat)
  end.

Definition random_shuffle {A} (rng : nat -> nat) (x : list A) : list A :=
  shuffle_loop rng 0 (List.length x - 1) x.

(** ** [services/tos_slot_assignment_service.py] *)

Module BloomSlot.
Record t : Type := make {
  outcome_id : Z;
  outcome_text : string;
  bloom_level : string
}.
End BloomSlot.

Module TypeSlot.
Record t : Type := make {
  question_type : string;
  points_per_item : pynum
}.
End TypeSlot.

Module AssignedSlot.
(** [object_id] is the identity of the object, the value of [id(slot)]. *)
Record t : Type := make {
  object_id : nat;
  outcome_id : Z;
  outcome_text : string;
  bloom_level : string;
  question_type : string;
  points : pynum
}.
End AssignedSlot.

Module SlotAssignment.

(** The string literal that opens the dictionary display of
    [PREFERRED_TYPES], before the literal ["Remember"]. *)
Definition PREFERRED_TYPES_note : string :=
"
    WHY THIS MAPPING?
    
    This mapping aligns cognitive complexity with assessment format:
    
    Remember:
    - Recall facts → MCQ (quick check) or Identification (match)
    - Prefers: MCQ (fastest verification), Identification (pattern matching)
    
    Understand:
    - Explain concepts → MCQ (comprehension check) or Short Answer
    - Prefers: MCQ (concept verification), Short Answer (explain reasoning)
    
    Apply:
    - Use knowledge in context → MCQ (simulated scenario) or Problem Solving
    - Prefers: MCQ (scenario-based), Problem Solving (hands-on application)
    
    Analyze:
    - Break down components → Short Answer (explain) or Problem Solving
    - Prefers: Short Answer (written analysis), Problem Solving (complex steps)
    
    Evaluate:
    - Judge and justify → Essay (deep argument) or Problem Solving (critical thinking)
    - Prefers: Essay (extended argument), Problem Solving (judgment with evidence)
    
    Create:
    - Produce original work → Essay (written composition) or Drawing (visual design)
    - Prefers: Essay (new composition), Drawing (design/visualization)
    ".

(** [PREFERRED_TYPES]. In the source the display starts with the literal
    above immediately followed by ["Remember"]; adjacent string literals are
    one literal, so the first key is their concatenation. *)
Definition PREFERRED_TYPES : dict string (list string) :=
  [ (String.append PREFERRED_TYPES_note "Remember", ["MCQ"; "Identification"]);
    ("Understand", ["MCQ"; "Short Answer"]);
    ("Apply", ["MCQ"; "Problem Solving"]);
    ("Analyze", ["Short Answer"; "Problem Solving"]);
    ("Evaluate", ["Essay"; "Problem Solving"]);
    ("Create", ["Essay"; "Drawing/Diagram"]) ].

(** A TOS matrix, [{bloom_level: {outcome_id: item_count}}]. *)
Definition TOSMatrix : Type := dict string (dict Z Z).

(** [next((o["text"] for o in outcomes if o["id"] == outcome_id),
          f"Outcome {outcome_id}")] *)
Fixpoint find_outcome_text (outcomes : list Outcome) (outcome_id : Z)
    : option string :=
  match outcomes with
  | [] => None
  | o :: outcomes' =>
      if o_id o =? outcome_id then Some (o_text o)
      else find_outcome_text outcomes' outcome_id
  end.

Definition outcome_text_for (outcomes : list Outcome) (outcome_id : Z)
    : string :=
  match find_outcome_text outcomes outcome_id with
  | Some text => text
  | None => String.append "Outcome " (str_of_Z outcome_id)
  end.

(** The slots of one cell: [range(item_count)] is empty for a count below 1. *)
Definition expand_cell (outcomes : list Outcome) (bloom_level : string)
    (cell : Z * Z) : list BloomSlot.t :=
  let '(outcome_id, item_count) := cell in
  repeat (BloomSlot.make outcome_id (outcome_text_for outcomes outcome_id)
            bloom_level)
         (Z.to_nat item_count).

Definition expand_bloom_slots (tos_matrix : TOSMatrix)
    (outcomes : list Outcome) : list BloomSlot.t :=
  flat_map (fun '(bloom_level, row) =>
              flat_map (expand_cell outcomes bloom_level) row)
           tos_matrix.

Definition expand_type_slots (question_types_list : list QuestionType.t)
    : list TypeSlot.t :=
  flat_map (fun qt =>
              repeat (TypeSlot.make (QuestionType.type qt)
                        (QuestionType.points_per_item qt))
                     (Z.to_nat (QuestionType.items qt)))
           question_types_list.

(** The state of the assignment loop. *)
Record assign_state : Type := {
  available_types : list TypeSlot.t;
  assigned : list AssignedSlot.t;
  preferred_matches : Z;
  fallback_matches : Z
}.

(** [for idx, type_slot in enumerate(available_types):
       if type_slot.question_type == pref_type: ... break] *)
Fixpoint find_type (pref_type : string) (available : list TypeSlot.t)
    (idx : nat) : option (nat * TypeSlot.t) :=
  match available with
  | [] => None
  | type_slot :: rest =>
      if String.eqb (TypeSlot.question_type type_slot) pref_type
      then Some (idx, type_slot)
      else find_type pref_type rest (S idx)
  end.

(** [for pref_type in preferred: ...; if assigned_type is not None: break] *)
Fixpoint find_preferred (preferred : list string)
    (available : list TypeSlot.t) : option (nat * TypeSlot.t) :=
  match preferred with
  | [] => None
  | pref_type :: preferred' =>
      match find_type pref_type available 0 with
      | Some found => Some found
      | None => find_preferred preferred' available
      end
  end.

Definition logic_error_message : string :=
  "No available question types to assign (logic error)".

(** The fusion of a Bloom slot and a type slot; the new object is the
    [n]-th that the call creates. *)
Definition make_assigned (n : nat) (bloom_slot : BloomSlot.t)
    (assigned_type : TypeSlot.t) : AssignedSlot.t :=
  AssignedSlot.make n
    (BloomSlot.outcome_id bloom_slot)
    (BloomSlot.outcome_text bloom_slot)
    (BloomSlot.bloom_level bloom_slot)
    (TypeSlot.question_type assigned_type)
    (TypeSlot.points_per_item assigned_type).

(** One iteration of [for bloom_slot in bloom_slots]. *)
Definition assign_step (st : assign_state) (bloom_slot : BloomSlot.t)
    : Py.result assign_state :=
  let bloom_level := BloomSlot.bloom_level bloom_slot in
  let preferred := dict_get_default PREFERRED_TYPES bloom_level [] in
  match find_preferred preferred (available_types st) with
  | Some (assigned_idx, assigned_type) =>
      Py.ret {|
        available_types := list_pop (available_types st) assigned_idx;
        assigned := assigned st ++
          [make_assigned (List.length (assigned st)) bloom_slot assigned_type];
        preferred_matches := preferred_matches st + 1;
        fallback_matches := fallback_matches st |}
  | None =>
      match available_types st with
      | assigned_type :: _ =>
          Py.ret {|
            available_types := list_pop (available_types st) 0;
            assigned := assigned st ++
              [make_assigned (List.length (assigned st)) bloom_slot
                 assigned_type];
            preferred_matches := preferred_matches st;
            fallback_matches := fallback_matches st + 1 |}
      | [] => Py.raise (Py.ValueError logic_error_message)
      end
  end.

Fixpoint assign_loop (bloom_slots : list BloomSlot.t) (st : assign_state)
    : Py.result assign_state :=
  match bloom_slots with
  | [] => Py.ret st
  | bloom_slot :: bloom_slots' =>
      st' <- assign_step st bloom_slot ;;
      assign_loop bloom_slots' st'
  end.

Definition integrity_violation_message (total_bloom_items total_type_items : Z)
    : string :=
  String.append "Integrity violation: Bloom distribution ("
 (String.append (str_of_Z total_bloom_items)
 (String.append " items) does not match question type distribution ("
 (String.append (str_of_Z total_type_items)
    " items). This indicates misconfiguration in TOS or question types."))).

Record IntegrityCheck : Type := {
  bloom_slots_expanded : Z;
  type_slots_expanded : Z;
  slots_assigned : Z;
  all_types_used : bool;
  valid : bool
}.

(** The metadata dictionary. [coverage_quality] holds the number
    [preferred_matches / len(assigned) * 100] that the source then formats
    with one decimal. *)
Record Metadata : Type := {
  total_slots : Z;
  md_preferred_matches : Z;
  md_fallback_matches : Z;
  coverage_quality : float;
  integrity_check : IntegrityCheck
}.

Definition assign_question_types_to_bloom_slots (tos_matrix : TOSMatrix)
    (outcomes : list Outcome) (question_types_list : list QuestionType.t)
    (shuffle : bool) (rng : nat -> nat)
    : Py.result (list AssignedSlot.t * Metadata) :=
  let bloom_slots := expand_bloom_slots tos_matrix outcomes in
  let total_bloom_items := Z.of_nat (List.length bloom_slots) in
  let type_slots := expand_type_slots question_types_list in
  let total_type_items := Z.of_nat (List.length type_slots) in
  if negb (total_bloom_items =? total_type_items) then
    Py.raise (Py.ValueError
                (integrity_violation_message total_bloom_items
                   total_type_items))
  else
    st <- assign_loop bloom_slots
            {| available_types := type_slots; assigned := [];
               preferred_matches := 0; fallback_matches := 0 |} ;;
    let assigned :=
      if shuffle then random_shuffle rng (assigned st) else assigned st in
    let len_assigned := Z.of_nat (List.length assigned) in
    ratio <- py_truediv_int (preferred_matches st) len_assigned ;;
    Py.ret (assigned,
            {| total_slots := len_assigned;
               md_preferred_matches := preferred_matches st;
               md_fallback_matches := fallback_matches st;
               coverage_quality := (ratio * float_of_Z 100)%float;
               integrity_check :=
                 {| bloom_slots_expanded := total_bloom_items;
                    type_slots_expanded := total_type_items;
                    slots_assigned := len_assigned;
                    all_types_used :=
                      Nat.eqb (List.length (available_types st)) 0;
                    valid := (total_bloom_items =? total_type_items)
                             && (total_type_items =? len_assigned) |} |}).

(** The entries of the error list of [verify_assignment_integrity], each
    with the values its message shows. *)
Inductive integrity_error : Type :=
| BloomCountMismatch (bloom_level : string) (expected_count actual_count : Z)
| TypeCountMismatch (type : string) (expected_count actual_count : Z)
| TypePointsMismatch (type : string) (expected_points actual_points : pynum)
| DuplicateAssignments.

(** [for slot in assigned_slots:
       bloom_counts[slot.bloom_level] = bloom_counts.get(slot.bloom_level, 0) + 1] *)
Definition count_by (key : AssignedSlot.t -> string)
    (assigned_slots : list AssignedSlot.t) : dict string Z :=
  fold_left (fun counts slot =>
               dict_set counts (key slot)
                 (dict_get_default counts (key slot) 0 + 1))
            assigned_slots [].

(** [type_points_sum[pts_key] = type_points_sum.get(pts_key, 0) + slot.points] *)
Definition points_by_type (assigned_slots : list AssignedSlot.t)
    : dict string pynum :=
  fold_left (fun sums slot =>
               dict_set sums (AssignedSlot.question_type slot)
                 (py_add
                    (dict_get_default sums (AssignedSlot.question_type slot)
                       (PyInt 0))
                    (AssignedSlot.points slot)))
            assigned_slots [].

Definition bloom_errors (tos_matrix : TOSMatrix) (bloom_counts : dict string Z)
    : list integrity_error :=
  flat_map (fun '(bloom_level, row) =>
              let expected_count := py_sum (dict_values row) in
              let actual_count := dict_get_default bloom_counts bloom_level 0 in
              if negb (expected_count =? actual_count)
              then [BloomCountMismatch bloom_level expected_count actual_count]
              else [])
           tos_matrix.

Definition type_errors (type_counts : dict string Z)
    (type_points_sum : dict string pynum) (qt : QuestionType.t)
    : list integrity_error :=
  let expected_count := QuestionType.items qt in
  let actual_count := dict_get_default type_counts (QuestionType.type qt) 0 in
  let expected_points :=
    py_mul (PyInt (QuestionType.items qt)) (QuestionType.points_per_item qt) in
  let actual_points :=
    dict_get_default type_points_sum (QuestionType.type qt) (PyInt 0) in
  (if negb (expected_count =? actual_count)
   then [TypeCountMismatch (QuestionType.type qt) expected_count actual_count]
   else [])
  ++
  (if negb (py_eqb expected_points actual_points)
   then [TypePointsMismatch (QuestionType.type qt) expected_points
           actual_points]
   else []).

(** [len(assigned_slots) != len(set(id(slot) for slot in assigned_slots))] *)
Definition duplicate_errors (assigned_slots : list AssignedSlot.t)
    : list integrity_error :=
  let ids := map AssignedSlot.object_id assigned_slots in
  if negb (Nat.eqb (List.length assigned_slots)
             (List.length (nodup Nat.eq_dec ids)))
  then [DuplicateAssignments] else [].

Definition verify_assignment_integrity (assigned_slots : list AssignedSlot.t)
    (tos_matrix : TOSMatrix) (question_types_list : list QuestionType.t)
    : bool * list integrity_error :=
  let bloom_counts := count_by AssignedSlot.bloom_level assigned_slots in
  let errors1 := bloom_errors tos_matrix bloom_counts in
  let type_counts := count_by AssignedSlot.question_type assigned_slots in
  let type_points_sum := points_by_type assigned_slots in
  let errors2 :=
    flat_map (type_errors type_counts type_points_sum) question_types_list in
  let errors3 := duplicate_errors assigned_slots in
  let errors := errors1 ++ errors2 ++ errors3 in
  (Nat.eqb (List.length errors) 0, errors).

(** The dictionaries of [get_assignment_summary]:
    [{"items": int, "points": number}] for a level or a type, and the
    summary itself. *)
Module SummaryStats.
Record t : Type := make {
  items : Z;
  points : pynum
}.
End SummaryStats.

Module Summary.
Record t : Type := make {
  by_bloom : dict string SummaryStats.t;
  by_type : dict string SummaryStats.t;
  total_items : Z;
  total_points : pynum
}.
End Summary.

(** [if key not in d: d[key] = {"items": 0, "points": 0}]
    [d[key]["items"] += 1]
    [d[key]["points"] += slot.points] *)
Definition summary_add (d : dict string SummaryStats.t) (key : string)
    (slot_points : pynum) : Py.result (dict string SummaryStats.t) :=
  let d :=
    match dict_get d key with
    | None => dict_set d key (SummaryStats.make 0 (PyInt 0))
    | Some _ => d
    end in
  match dict_get d key with
  | None => Py.raise (Py.KeyError key)
  | Some stats =>
      let d :=
        dict_set d key
          (SummaryStats.make (SummaryStats.items stats + 1)
             (SummaryStats.points stats)) in
      match dict_get d key with
      | None => Py.raise (Py.KeyError key)
      | Some stats =>
          Py.ret (dict_set d key
                    (SummaryStats.make (SummaryStats.items stats)
                       (py_add (SummaryStats.points stats) slot_points)))
      end
  end.

(** One iteration of [for slot in assigned_slots]. *)
Definition summary_step (summary : Summary.t) (slot : AssignedSlot.t)
    : Py.result Summary.t :=
  by_bloom <- summary_add (Summary.by_bloom summary)
                (AssignedSlot.bloom_level slot) (AssignedSlot.points slot) ;;
  by_type <- summary_add (Summary.by_type summary)
               (AssignedSlot.question_type slot) (AssignedSlot.points slot) ;;
  Py.ret (Summary.make by_bloom by_type (Summary.total_items summary)
            (py_add (Summary.total_points summary) (AssignedSlot.points slot))).

Fixpoint summary_loop (assigned_slots : list AssignedSlot.t)
    (summary : Summary.t) : Py.result Summary.t :=
  match assigned_slots with
  | [] => Py.ret summary
  | slot :: assigned_slots' =>
      summary' <- summary_step summary slot ;;
      summary_loop assigned_slots' summary'
  end.

Definition get_assignment_summary (assigned_slots : list AssignedSlot.t)
    : Py.result Summary.t :=
  summary_loop assigned_slots
    (Summary.make [] [] (Z.of_nat (List.length assigned_slots)) (PyInt 0)).

End SlotAssignment.

(** ** Vocabulary of the statements *)

Section Vocabulary.
Import SlotAssignment.

(** A TOS matrix of the data model: a dictionary of dictionaries (no key
    twice, on either level) whose item counts are not negative. *)
Definition row_wf (row : dict Z Z) : Prop :=
  dict_wf row /\ Forall (fun c => 0 <= snd c) row.

Definition tos_matrix_wf (tos_matrix : TOSMatrix) : Prop :=
  dict_wf tos_matrix /\ Forall (fun r => row_wf (snd r)) tos_matrix.

(** The sum of all cells of a matrix. *)
Definition matrix_total (tos_matrix : TOSMatrix) : Z :=
  py_sum (map (fun r => py_sum (dict_values (snd r))) tos_matrix).

(** The cell of a matrix at a level and an outcome, 0 where there is none. *)
Definition matrix_cell (tos_matrix : TOSMatrix) (bloom_level : string)
    (outcome_id : Z) : Z :=
  match dict_get tos_matrix bloom_level with
  | Some row => dict_get_default row outcome_id 0
  | None => 0
  end.

(** The size of the group of Bloom slots with a level and an outcome. *)
Definition slot_group_size (slots : list BloomSlot.t) (bloom_level : string)
    (outcome_id : Z) : Z :=
  Z.of_nat (List.length
    (filter (fun s => String.eqb (BloomSlot.bloom_level s) bloom_level
                      && (BloomSlot.outcome_id s =? outcome_id)) slots)).

(** The sum of the item counts of a distribution. *)
Definition distribution_total (question_types_list : list QuestionType.t) : Z :=
  py_sum (map QuestionType.items question_types_list).

(** [points_per_item] added up [items] times from 0, as the verifier
    accumulates it. *)
Definition accumulated_points (qt : QuestionType.t) : pynum :=
  fold_left py_add
    (repeat (QuestionType.points_per_item qt) (Z.to_nat (QuestionType.items qt)))
    (PyInt 0).

(** The accumulated points of an entry compare equal to
    [items * points_per_item]. It holds for every int, and for a float when
    none of the additions rounds. *)
Definition points_exact (qt : QuestionType.t) : bool :=
  py_eqb (py_mul (PyInt (QuestionType.items qt)) (QuestionType.points_per_item qt))
         (accumulated_points qt).

(** The sum of rationals, and of the weights of the outcomes. *)
Definition Qsum (l : list Q) : Q := fold_right Qplus 0%Q l.


(** The floors of the raw shares, in input order. *)
Definition floors (raw : list (Z * Q)) : list Z :=
  map (fun x => Qfloor (snd x)) raw.

(** An outcome id is among the entries that get the extra unit. *)
Definition awarded (top : list (Z * Q)) (oid : Z) : bool :=
  existsb (Z.eqb oid) (map fst top).

(** The number of assigned slots with a given level, or a given type. *)
Definition count_key (key : AssignedSlot.t -> string)
    (slots : list AssignedSlot.t) (k : string) : Z :=
  Z.of_nat (List.length (filter (fun s => String.eqb (key s) k) slots)).

(** The points of the assigned slots of a type, added up from 0 in the order
    of the list. *)
Definition type_points (slots : list AssignedSlot.t) (type : string) : pynum :=
  fold_left py_add
    (map AssignedSlot.points
       (filter (fun s => String.eqb (AssignedSlot.question_type s) type) slots))
    (PyInt 0).

(** A number that is the float NaN. *)
Definition py_is_nan (a : pynum) : bool :=
  match a with
  | PyInt _ => false
  | PyFloat f => match Prim2SF f with S754_nan => true | _ => false end
  end.

(** The assigned slots that pair the Bloom slots with type slots in order,
    the first of them being the [n]-th object created. *)
Fixpoint fuse (n : nat) (bloom_slots : list BloomSlot.t)
    (picked : list TypeSlot.t) : list AssignedSlot.t :=
  match bloom_slots, picked with
  | b :: bloom_slots', ts :: picked' =>
      make_assigned n b ts :: fuse (S n) bloom_slots' picked'
  | _, _ => []
  end.

(** The type slot that an assigned slot carries. *)
Definition type_slot_of (slot : AssignedSlot.t) : TypeSlot.t :=
  TypeSlot.make (AssignedSlot.question_type slot) (AssignedSlot.points slot).

(** The Bloom slot that an assigned slot carries. *)
Definition bloom_slot_of (slot : AssignedSlot.t) : BloomSlot.t :=
  BloomSlot.make (AssignedSlot.outcome_id slot) (AssignedSlot.outcome_text slot)
    (AssignedSlot.bloom_level slot).

(** ** Sample data *)

(** The scenario of the specification and of [verify_softmapping_algo.py]. *)
Definition sample_outcomes : list Outcome :=
  [ {| o_id := 0; o_text := "Understand core concepts"; o_hours := 1;
       o_weight := 1 |} ].

Definition sample_matrix : TOSMatrix :=
  [("Remember", [(0, 12)]); ("Apply", [(0, 8)])].

Definition sample_types : list QuestionType.t :=
  [ QuestionType.make "MCQ" 12 (PyInt 1) "qt-1";
    QuestionType.make "Problem Solving" 8 (PyInt 2) "qt-2" ].

Definition no_draws : nat -> nat := fun _ => 0%nat.

(** Ten items at a tenth of a point: 0.1 is the double 0x1.999999999999ap-4. *)
Definition tenth_matrix : TOSMatrix := [("Remember", [(0, 10)])].

Definition tenth_types : list QuestionType.t :=
  [QuestionType.make "MCQ" 10 (PyFloat 0x1.999999999999ap-4) "qt-1"].

Definition percent_29_71 : dict string Z :=
  [("Remember", 29); ("Understand", 71); ("Apply", 0); ("Analyze", 0);
   ("Evaluate", 0); ("Create", 0)].

(** The share of a level as the code computes it, in binary64. *)
Definition level_count (total_items w : Z) : Py.result Z :=
  share <- py_truediv_int w 100 ;;
  py_int (float_of_Z total_items * share)%float.

(** The count of a level against the floor of the exact share. *)
Definition count_is_floor (total_items w : Z) : bool :=
  match level_count total_items w with
  | inr c => c =? total_items * w / 100
  | inl _ => false
  end.

Definition count_is_one_below (total_items w : Z) : bool :=
  match level_count total_items w with
  | inr c => c =? total_items * w / 100 - 1
  | inl _ => false
  end.

Definition two_outcomes : list Outcome :=
  [ {| o_id := 0; o_text := "Define key concepts"; o_hours := 3;
       o_weight := 3 # 4 |};
    {| o_id := 1; o_text := "Classify entities"; o_hours := 1;
       o_weight := 1 # 4 |} ].

End Vocabulary.

(** ** Vocabulary of the further statements *)

Section SummaryVocabulary.
Import SlotAssignment.



(** An entry after one more slot with [p] points. *)
Definition stats_bump (entry : option SummaryStats.t) (p : pynum)
    : SummaryStats.t :=
  match entry with
  | Some stats =>
      SummaryStats.make (SummaryStats.items stats + 1)
        (py_add (SummaryStats.points stats) p)
  | None => SummaryStats.make (0 + 1) (py_add (PyInt 0) p)
  end.

(** One of the two dictionaries of the summary after the slots. *)
Definition tally (key : AssignedSlot.t -> string)
    (slots : list AssignedSlot.t) (d : dict string SummaryStats.t)
    : dict string SummaryStats.t :=
  fold_left (fun d s =>
               dict_set d (key s)
                 (stats_bump (dict_get d (key s)) (AssignedSlot.points s)))
            slots d.

(** All points of a list of slots, added up from 0 in list order. *)
Definition slot_points_total (slots : list AssignedSlot.t) : pynum :=
  fold_left py_add (map AssignedSlot.points slots) (PyInt 0).

(** A distribution whose point values are ints. *)
Definition int_points (question_types_list : list QuestionType.t) : Prop :=
  Forall (fun qt => exists p, QuestionType.points_per_item qt = PyInt p)
    question_types_list.

End SummaryVocabulary.

Section TosVocabulary.
Import TosService.


(** Percentages for the five levels that get a share of their own: each
    between 0 and 100, and not more than 100 together. *)
Definition weights_in_range (bloom_weights : dict string Z) : Prop :=
  Forall (fun bloom =>
            exists w, dict_get bloom_weights bloom = Some w /\ 0 <= w <= 100)
         (removelast BLOOM_LEVELS)
  /\ py_sum (map (fun bloom => dict_get_default bloom_weights bloom 0)
               (removelast BLOOM_LEVELS)) <= 100.

(** A count of a level with percentage [w] that is not negative and not
    above the exact share. *)
Definition count_in_share (total_items w : Z) : bool :=
  match level_count total_items w with
  | inr c => (0 <=? c) && (c <=? total_items * w / 100)
  | inl _ => false
  end.

Definition sixty_forty : dict string Z :=
  [("Remember", 60); ("Understand", 0); ("Apply", 40); ("Analyze", 0);
   ("Evaluate", 0); ("Create", 0)].

End TosVocabulary.

Section PreferenceVocabulary.
Import SlotAssignment.

(** The type names that occur in the preference table. *)
Definition listed_types : list string :=
  List.concat (dict_values PREFERRED_TYPES).

(** A distribution none of whose labels is in the preference table. *)
Definition unlisted (question_types_list : list QuestionType.t) : Prop :=
  Forall (fun qt => ~ In (QuestionType.type qt) listed_types)
    question_types_list.

(** The labels that the question type form starts with, with item counts
    for a test of 20 items. *)
Definition default_labels_20 : list QuestionType.t :=
  [ QuestionType.make "Multiple Choice (MCQ)" 12 (PyInt 1) "qt-1";
    QuestionType.make "True or False" 8 (PyInt 2) "qt-2" ].

End PreferenceVocabulary.

Section PointsVocabulary.

(** The point value [k / 2] as the form passes it on: a float. *)
Definition half_points (k : Z) : pynum := PyFloat (float_of_Z k / 2)%float.

Definition half_points_exact (items k : Z) : bool :=
  points_exact (QuestionType.make "" items (half_points k) "").

End PointsVocabulary.

Section RegenerateVocabulary.
Import TosService.




(** A cell of a matrix, [None] where the matrix has none. *)
Definition cell {V} (m : dict string (dict Z V)) (bloom : string)
    (outcome_id : Z) : option V :=
  match dict_get m bloom with
  | Some row => dict_get row outcome_id
  | None => None
  end.






End RegenerateVocabulary.

Section RegenerateVocabulary2.




End RegenerateVocabulary2.

Section RegenerateVocabulary3.
Import TosService.




End RegenerateVocabulary3.

(** * Properties *)

(** ** Dictionaries *)

Section DictFacts.
Context {K V : Type} `{EqKey K}.

Lemma key_eqb_refl (k : K) : key_eqb k k = true.
Proof. destruct (key_eqb_spec k k); congruence. Qed.

Lemma key_eqb_neq (k k' : K) : k <> k' -> key_eqb k k' = false.
Proof. destruct (key_eqb_spec k k'); congruence. Qed.

Lemma dict_get_set_eq (d : dict K V) k v :
  dict_get (dict_set d k v) k = Some v.
Proof.
  induction d as [|[k' v'] d IH]; simpl.
  - now rewrite key_eqb_refl.
  - destruct (key_eqb_spec k' k) as [->|Hne]; simpl.
    + now rewrite key_eqb_refl.
    + now rewrite key_eqb_neq.
Qed.

Lemma dict_get_set_neq (d : dict K V) k k' v :
  k <> k' -> dict_get (dict_set d k v) k' = dict_get d k'.
Proof.
  intros Hne. induction d as [|[k0 v0] d IH]; simpl.
  - now rewrite key_eqb_neq.
  - destruct (key_eqb_spec k0 k) as [->|Hne0]; simpl.
    + now rewrite key_eqb_neq.
    + now rewrite IH.
Qed.


Lemma dict_get_in (d : dict K V) k v :
  dict_wf d -> In (k, v) d -> dict_get d k = Some v.
Proof.
  unfold dict_wf. induction d as [|[k' v'] d IH]; simpl; [tauto|].
  intros Hnd [Heq|Hin]; inversion Hnd; subst.
  - inversion Heq; subst. now rewrite key_eqb_refl.
  - rewrite key_eqb_neq; [now apply IH|].
    intros ->. apply H2. apply (in_map fst) in Hin. exact Hin.
Qed.

Lemma dict_get_some_in (d : dict K V) k v :
  dict_get d k = Some v -> In (k, v) d.
Proof.
  induction d as [|[k' v'] d IH]; simpl; [discriminate|].
  destruct (key_eqb_spec k' k) as [->|Hne]; intros Hg.
  - inversion Hg; subst. now left.
  - right. now apply IH.
Qed.

(** Setting a key that is absent appends the binding. *)
Lemma dict_set_fresh (d : dict K V) k v :
  ~ In k (dict_keys d) -> dict_set d k v = d ++ [(k, v)].
Proof.
  induction d as [|[k' v'] d IH]; simpl; intros Hn; [reflexivity|].
  rewrite key_eqb_neq by tauto. f_equal. apply IH. tauto.
Qed.

(** Setting a key never changes the keys that were there. *)
Lemma dict_keys_set_present (d : dict K V) k v :
  In k (dict_keys d) -> dict_keys (dict_set d k v) = dict_keys d.
Proof.
  induction d as [|[k' v'] d IH]; simpl; [tauto|].
  intros Hin. destruct (key_eqb_spec k' k) as [->|Hne]; simpl.
  - reflexivity.
  - f_equal. apply IH. destruct Hin; congruence.
Qed.
End DictFacts.

(** ** Lists *)

Lemma py_sum_from (l : list Z) (a : Z) : fold_left Z.add l a = a + py_sum l.
Proof.
  unfold py_sum. revert a. induction l as [|x l IH]; intros a; simpl.
  - lia.
  - rewrite IH, (IH x). lia.
Qed.

Lemma py_sum_cons (x : Z) (l : list Z) : py_sum (x :: l) = x + py_sum l.
Proof. unfold py_sum at 1. simpl. apply py_sum_from. Qed.

Lemma py_sum_app (l1 l2 : list Z) : py_sum (l1 ++ l2) = py_sum l1 + py_sum l2.
Proof.
  induction l1 as [|x l1 IH]; simpl; [reflexivity|].
  rewrite !py_sum_cons, IH. lia.
Qed.

Lemma list_pop_length {A} (l : list A) (i : nat) :
  (i < List.length l)%nat -> List.length (list_pop l i) = (List.length l - 1)%nat.
Proof.
  revert i. induction l as [|x l IH]; intros [|i] Hi; simpl in *; try lia.
  rewrite IH by lia. lia.
Qed.

Lemma list_pop_permutation {A} (l : list A) (i : nat) (x : A) :
  nth_error l i = Some x -> Permutation l (x :: list_pop l i).
Proof.
  revert i. induction l as [|y l IH]; intros [|i] Hn; simpl in *; try discriminate.
  - inversion Hn; subst. reflexivity.
  - rewrite (IH _ Hn) at 1. apply perm_swap.
Qed.

Lemma list_set_length {A} (l : list A) (i : nat) (x : A) :
  List.length (list_set l i x) = List.length l.
Proof.
  revert i. induction l as [|y l IH]; intros [|i]; simpl; auto.
Qed.

Lemma list_set_permutation {A} (l : list A) (j : nat) (b x : A) :
  nth_error l j = Some b -> Permutation (b :: list_set l j x) (x :: l).
Proof.
  revert j. induction l as [|y l IH]; intros [|j] Hn; simpl in *; try discriminate.
  - inversion Hn; subst. apply perm_swap.
  - rewrite perm_swap, (IH _ Hn). apply perm_swap.
Qed.

Lemma list_swap_permutation {A} (l : list A) (i j : nat) :
  Permutation (list_swap l i j) l.
Proof.
  unfold list_swap.
  destruct (nth_error l i) as [a|] eqn:Hi; [|reflexivity].
  destruct (nth_error l j) as [b|] eqn:Hj; [|reflexivity].
  revert i j Hi Hj.
  induction l as [|y l IH]; intros [|i] [|j] Hi Hj; simpl in *; try discriminate.
  - inversion Hi; inversion Hj; subst. reflexivity.
  - inversion Hi; subst. now apply list_set_permutation.
  - inversion Hj; subst. now apply list_set_permutation.
  - apply perm_skip. now apply IH.
Qed.

Lemma shuffle_loop_permutation {A} (rng : nat -> nat) (i k : nat) (x : list A) :
  Permutation (shuffle_loop rng k i x) x.
Proof.
  revert k x. induction i as [|i IH]; intros k x; simpl; [reflexivity|].
  rewrite IH. apply list_swap_permutation.
Qed.

(** [random.shuffle] rearranges and neither drops nor repeats an element,
    whatever the generator draws. *)
Lemma random_shuffle_permutation {A} (rng : nat -> nat) (x : list A) :
  Permutation (random_shuffle rng x) x.
Proof. apply shuffle_loop_permutation. Qed.

Lemma random_shuffle_length {A} (rng : nat -> nat) (x : list A) :
  List.length (random_shuffle rng x) = List.length x.
Proof. apply Permutation_length, random_shuffle_permutation. Qed.

Lemma filter_nil_iff {A} (f : A -> bool) (l : list A) :
  filter f l = [] <-> forall x, In x l -> f x = false.
Proof.
  induction l as [|a l IH]; simpl; [tauto|].
  destruct (f a) eqn:Hfa; split.
  - discriminate.
  - intros Hall. specialize (Hall a (or_introl eq_refl)). congruence.
  - intros Hf x [<-|Hin]; [exact Hfa|]. now apply IH.
  - intros Hall. apply IH. intros x Hin. apply Hall. now right.
Qed.

Lemma flat_map_nil_iff {A B} (f : A -> list B) (l : list A) :
  flat_map f l = [] <-> forall x, In x l -> f x = [].
Proof.
  induction l as [|a l IH]; simpl; [tauto|]. split.
  - intros Happ. apply app_eq_nil in Happ. destruct Happ as [Ha Hl].
    intros x [<-|Hin]; [exact Ha|]. now apply IH.
  - intros Hall. rewrite (Hall a) by now left.
    apply IH. intros x Hin. apply Hall. now right.
Qed.

Lemma length_zero_eqb {A} (l : list A) :
  Nat.eqb (List.length l) 0 = true <-> l = [].
Proof. destruct l; simpl; split; congruence. Qed.


Lemma filter_map_length {A B} (f : A -> B) (p : B -> bool) (l : list A) :
  List.length (filter p (map f l)) = List.length (filter (fun a => p (f a)) l).
Proof.
  induction l as [|a l IH]; simpl; [reflexivity|].
  destruct (p (f a)); simpl; now rewrite IH.
Qed.

Lemma filter_map_comm {A B} (f : A -> B) (p : B -> bool) (l : list A) :
  filter p (map f l) = map f (filter (fun a => p (f a)) l).
Proof.
  induction l as [|a l IH]; simpl; [reflexivity|].
  destruct (p (f a)); simpl; now rewrite IH.
Qed.

Lemma filter_repeat {A} (p : A -> bool) (x : A) (n : nat) :
  filter p (repeat x n) = if p x then repeat x n else [].
Proof.
  induction n as [|n IH]; simpl; [now destruct (p x)|].
  rewrite IH. now destruct (p x).
Qed.

Lemma Permutation_filter {A} (p : A -> bool) (l l' : list A) :
  Permutation l l' -> Permutation (filter p l) (filter p l').
Proof.
  induction 1 as [|x l l' _ IH|x y l|l l' l'' _ IH1 _ IH2]; simpl.
  - constructor.
  - destruct (p x); [now constructor|exact IH].
  - destruct (p x), (p y); try reflexivity. apply perm_swap.
  - now transitivity (filter p l').
Qed.

Lemma In_firstn {B} (l : list B) (n : nat) (x : B) :
  In x (firstn n l) -> In x l.
Proof.
  intros Hin. rewrite <- (firstn_skipn n l). apply in_or_app. now left.
Qed.

Lemma NoDup_firstn {B} (l : list B) (n : nat) :
  NoDup l -> NoDup (firstn n l).
Proof.
  intros Hnd. rewrite <- (firstn_skipn n l) in Hnd.
  now apply NoDup_app_remove_r in Hnd.
Qed.

Lemma repeat_nil_iff {A} (x : A) (n : nat) : repeat x n = [] <-> n = 0%nat.
Proof. destruct n; simpl; split; congruence. Qed.


(** ** The assignment loop *)

Section AssignLoop.
Import SlotAssignment.

Lemma find_type_some pref_type available i0 idx ts :
  find_type pref_type available i0 = Some (idx, ts) ->
  (i0 <= idx)%nat /\ nth_error available (idx - i0) = Some ts
  /\ TypeSlot.question_type ts = pref_type.
Proof.
  revert i0. induction available as [|x l IH]; intros i0; simpl; [discriminate|].
  destruct (String.eqb_spec (TypeSlot.question_type x) pref_type) as [He|He].
  - intros Hs. inversion Hs; subst. rewrite Nat.sub_diag. simpl. auto.
  - intros Hs. destruct (IH _ Hs) as (Hle & Hn & Ht).
    split; [lia|]. split; [|exact Ht].
    replace (idx - i0)%nat with (S (idx - S i0)) by lia. exact Hn.
Qed.

Lemma find_type_none pref_type available i0 :
  find_type pref_type available i0 = None ->
  forall ts, In ts available -> TypeSlot.question_type ts <> pref_type.
Proof.
  revert i0. induction available as [|x l IH]; intros i0; simpl; [tauto|].
  destruct (String.eqb_spec (TypeSlot.question_type x) pref_type) as [He|He];
    [discriminate|].
  intros Hn ts [<-|Hin]; [exact He|]. eapply IH; eauto.
Qed.

Lemma find_preferred_some preferred available idx ts :
  find_preferred preferred available = Some (idx, ts) ->
  nth_error available idx = Some ts /\ In (TypeSlot.question_type ts) preferred.
Proof.
  induction preferred as [|p ps IH]; simpl; [discriminate|].
  destruct (find_type p available 0) as [[i t]|] eqn:Hf.
  - intros Hs. inversion Hs; subst.
    destruct (find_type_some _ _ _ Hf) as (_ & Hn & Ht).
    rewrite Nat.sub_0_r in Hn. auto.
  - intros Hs. destruct (IH Hs). auto.
Qed.

(** An iteration on a pool that is not empty takes one type slot out of it
    and appends one assigned slot; it counts as one match of either kind. *)
Lemma assign_step_takes_one st bloom_slot :
  available_types st <> [] ->
  exists idx ts st',
    assign_step st bloom_slot = inr st'
    /\ nth_error (available_types st) idx = Some ts
    /\ available_types st' = list_pop (available_types st) idx
    /\ assigned st' =
         assigned st ++ [make_assigned (List.length (assigned st)) bloom_slot ts]
    /\ preferred_matches st' + fallback_matches st'
       = preferred_matches st + fallback_matches st + 1.
Proof.
  intros Hne. unfold assign_step.
  destruct (find_preferred _ (available_types st)) as [[idx ts]|] eqn:Hf.
  - destruct (find_preferred_some _ _ Hf) as [Hn _].
    eexists idx, ts, _. split; [reflexivity|]. simpl. repeat split; auto; lia.
  - destruct (available_types st) as [|ts rest] eqn:Ha; [congruence|].
    eexists 0%nat, ts, _. split; [reflexivity|]. simpl. repeat split; auto; lia.
Qed.

(** The loop on a pool with at least as many type slots as there are Bloom
    slots: it returns, every Bloom slot gets one type slot of the pool, in
    order, and what it took and what it left make up the pool. *)
Lemma assign_loop_spec bloom_slots :
  forall st,
    (List.length bloom_slots <= List.length (available_types st))%nat ->
    exists st' picked,
      assign_loop bloom_slots st = inr st'
      /\ List.length picked = List.length bloom_slots
      /\ Permutation (available_types st) (picked ++ available_types st')
      /\ assigned st' =
           assigned st ++ fuse (List.length (assigned st)) bloom_slots picked
      /\ preferred_matches st' + fallback_matches st'
         = preferred_matches st + fallback_matches st
           + Z.of_nat (List.length bloom_slots).
Proof.
  induction bloom_slots as [|b bs IH]; intros st Hlen.
  - exists st, []. simpl. rewrite app_nil_r. repeat split; auto. lia.
  - simpl in Hlen.
    destruct (assign_step_takes_one st b) as (idx & ts & st1 & Hs & Hn & Ha & Has & Hc).
    { intros He. rewrite He in Hlen. simpl in Hlen. lia. }
    assert (Hidx : (idx < List.length (available_types st))%nat)
      by (apply nth_error_Some; congruence).
    destruct (IH st1) as (st' & picked & Hl & Hp & Hperm & Hass & Hcnt).
    { rewrite Ha, list_pop_length by exact Hidx. lia. }
    exists st', (ts :: picked). simpl. rewrite Hs. simpl.
    split; [exact Hl|]. split; [now rewrite Hp|]. split.
    { rewrite (list_pop_permutation _ _ Hn). apply perm_skip.
      rewrite <- Ha. exact Hperm. }
    split.
    { rewrite Hass, Has, <- app_assoc, length_app. simpl.
      now rewrite Nat.add_1_r. }
    rewrite Hcnt, Hc. lia.
Qed.

Lemma fuse_length n bloom_slots picked :
  List.length picked = List.length bloom_slots ->
  List.length (fuse n bloom_slots picked) = List.length bloom_slots.
Proof.
  revert n picked. induction bloom_slots as [|b bs IH]; intros n [|t ts] Hl;
    simpl in *; try lia. now rewrite IH by lia.
Qed.

Lemma fuse_bloom n bloom_slots picked :
  List.length picked = List.length bloom_slots ->
  map bloom_slot_of (fuse n bloom_slots picked) = bloom_slots.
Proof.
  revert n picked. induction bloom_slots as [|b bs IH]; intros n [|t ts] Hl;
    simpl in *; try lia; try reflexivity.
  rewrite IH by lia. now destruct b.
Qed.

Lemma fuse_types n bloom_slots picked :
  List.length picked = List.length bloom_slots ->
  map type_slot_of (fuse n bloom_slots picked) = picked.
Proof.
  revert n picked. induction bloom_slots as [|b bs IH]; intros n [|t ts] Hl;
    simpl in *; try lia; try reflexivity.
  rewrite IH by lia. now destruct t.
Qed.

Lemma fuse_object_ids n bloom_slots picked :
  List.length picked = List.length bloom_slots ->
  map AssignedSlot.object_id (fuse n bloom_slots picked)
  = seq n (List.length bloom_slots).
Proof.
  revert n picked. induction bloom_slots as [|b bs IH]; intros n [|t ts] Hl;
    simpl in *; try lia; try reflexivity.
  now rewrite IH by lia.
Qed.

(** With as many type slots as Bloom slots the loop returns with an empty
    pool, having used a rearrangement of the type slots. *)
Lemma assign_loop_balanced bloom_slots type_slots :
  List.length bloom_slots = List.length type_slots ->
  exists st picked,
    assign_loop bloom_slots
      {| available_types := type_slots; assigned := [];
         preferred_matches := 0; fallback_matches := 0 |} = inr st
    /\ List.length picked = List.length bloom_slots
    /\ Permutation type_slots picked
    /\ available_types st = []
    /\ assigned st = fuse 0 bloom_slots picked
    /\ preferred_matches st + fallback_matches st
       = Z.of_nat (List.length bloom_slots).
Proof.
  intros Hlen.
  destruct (assign_loop_spec bloom_slots
              {| available_types := type_slots; assigned := [];
                 preferred_matches := 0; fallback_matches := 0 |})
    as (st & picked & Hl & Hp & Hperm & Hass & Hcnt); [simpl; lia|].
  simpl in *. exists st, picked.
  assert (Hnil : available_types st = []).
  { apply Permutation_length in Hperm. rewrite length_app in Hperm.
    destruct (available_types st); [reflexivity|simpl in Hperm; lia]. }
  rewrite Hnil, app_nil_r in Hperm. repeat split; auto.
Qed.

End AssignLoop.

(** ** The assignment: errors, determinism *)

Section AssignResults.
Import SlotAssignment.

(** C9. When both axes expand to no slot at all, the equal-length check
    passes and the call ends in the division by zero of [coverage_quality]:
    [preferred_matches / len(assigned)] with an empty [assigned]. It returns
    no assignment, with or without the shuffle. *)
Theorem assign_no_slots_divides_by_zero :
  forall (tos_matrix : TOSMatrix) (outcomes : list Outcome)
         (question_types_list : list QuestionType.t)
         (shuffle : bool) (rng : nat -> nat),
    expand_bloom_slots tos_matrix outcomes = [] ->
    expand_type_slots question_types_list = [] ->
    assign_question_types_to_bloom_slots tos_matrix outcomes
      question_types_list shuffle rng
    = inl (Py.ZeroDivisionError "division by zero").
Proof.
  intros M outcomes D shuffle rng Hb Ht.
  unfold assign_question_types_to_bloom_slots.
  rewrite Hb, Ht. simpl. now destruct shuffle.
Qed.

Lemma assign_no_slots_divides_by_zero_witness :
  expand_bloom_slots [("Remember", [(0, 0)]); ("Apply", [])] sample_outcomes = []
  /\ expand_type_slots [QuestionType.make "MCQ" 0 (PyInt 1) "qt-1"] = []
  /\ assign_question_types_to_bloom_slots
       [("Remember", [(0, 0)]); ("Apply", [])] sample_outcomes
       [QuestionType.make "MCQ" 0 (PyInt 1) "qt-1"] true no_draws
     = inl (Py.ZeroDivisionError "division by zero").
Proof.
  split; [reflexivity|]. split; [reflexivity|].
  apply (assign_no_slots_divides_by_zero
           [("Remember", [(0, 0)]); ("Apply", [])] sample_outcomes
           [QuestionType.make "MCQ" 0 (PyInt 1) "qt-1"] true no_draws);
    reflexivity.
Defined.

(** The empty matrix with the empty distribution is the plainest such input. *)
Lemma assign_empty_inputs :
  assign_question_types_to_bloom_slots [] sample_outcomes [] false no_draws
  = inl (Py.ZeroDivisionError "division by zero").
Proof. reflexivity. Qed.



(** C6. Without the shuffle the result does not depend on the state of the
    random generator: two calls on the same inputs give the same list, slot
    by slot, and the same metadata. With the shuffle the call fails exactly
    as without, and otherwise returns the same metadata and a rearrangement
    of the list of the call without. *)
Theorem assign_shuffle_only_reorders :
  forall (tos_matrix : TOSMatrix) (outcomes : list Outcome)
         (question_types_list : list QuestionType.t) (rng1 rng2 : nat -> nat),
    assign_question_types_to_bloom_slots tos_matrix outcomes
      question_types_list false rng1
    = assign_question_types_to_bloom_slots tos_matrix outcomes
        question_types_list false rng2
    /\ match assign_question_types_to_bloom_slots tos_matrix outcomes
               question_types_list false rng1 with
       | inr (assigned, metadata) =>
           exists shuffled,
             assign_question_types_to_bloom_slots tos_matrix outcomes
               question_types_list true rng2 = inr (shuffled, metadata)
             /\ Permutation assigned shuffled
       | inl e =>
           assign_question_types_to_bloom_slots tos_matrix outcomes
             question_types_list true rng2 = inl e
       end.
Proof.
  intros M outcomes D rng1 rng2. split; [reflexivity|].
  unfold assign_question_types_to_bloom_slots.
  destruct (negb _); [reflexivity|].
  destruct (assign_loop _ _) as [e|st]; simpl; [reflexivity|].
  rewrite random_shuffle_length.
  destruct (py_truediv_int _ _) as [e|ratio]; simpl; [reflexivity|].
  eexists. split; [reflexivity|].
  symmetry. apply random_shuffle_permutation.
Qed.

(** The shuffled list of the scenario, for one sequence of draws: another
    order, the same slots. *)
Lemma assign_shuffle_example :
  match assign_question_types_to_bloom_slots sample_matrix sample_outcomes
          sample_types true (fun k => (7 * k + 3)%nat) with
  | inr (shuffled, _) =>
      map AssignedSlot.object_id shuffled
      = [18; 1; 2; 4; 6; 5; 9; 16; 14; 13; 12; 11; 0; 19; 8; 15; 7; 17; 10; 3]%nat
  | inl _ => False
  end.
Proof. vm_compute. reflexivity. Qed.

End AssignResults.

(** ** The preference table *)

Section Preferences.
Import SlotAssignment.

(** The table has six keys, and ["Remember"] is not one of them: the first
    key is the note followed by the word. *)
Lemma preferred_types_keys :
  dict_keys PREFERRED_TYPES
  = [String.append PREFERRED_TYPES_note "Remember"; "Understand"; "Apply";
     "Analyze"; "Evaluate"; "Create"]
  /\ dict_get PREFERRED_TYPES "Remember" = None
  /\ dict_get PREFERRED_TYPES "Understand" = Some ["MCQ"; "Short Answer"].
Proof. repeat split; reflexivity. Qed.

(** So a Remember slot never scans a preference list: with a pool that is not
    empty it takes the first type slot, whatever its type, as a fallback. *)
Lemma assign_step_remember st bloom_slot ts rest :
  BloomSlot.bloom_level bloom_slot = "Remember" ->
  available_types st = ts :: rest ->
  assign_step st bloom_slot
  = inr {| available_types := rest;
           assigned := assigned st ++
             [make_assigned (List.length (assigned st)) bloom_slot ts];
           preferred_matches := preferred_matches st;
           fallback_matches := fallback_matches st + 1 |}.
Proof.
  intros Hl Ha. unfold assign_step. rewrite Hl, Ha.
  change (dict_get_default PREFERRED_TYPES "Remember" []) with (@nil string).
  reflexivity.
Qed.

(** The other levels do scan their list, as here Understand: an MCQ slot
    further down the pool is found and counted as a preferred match. *)
Lemma assign_step_understand_prefers_mcq :
  forall st bloom_slot,
    BloomSlot.bloom_level bloom_slot = "Understand" ->
    available_types st
    = [TypeSlot.make "Essay" (PyInt 5); TypeSlot.make "MCQ" (PyInt 1)] ->
    assign_step st bloom_slot
    = inr {| available_types := [TypeSlot.make "Essay" (PyInt 5)];
             assigned := assigned st ++
               [make_assigned (List.length (assigned st)) bloom_slot
                  (TypeSlot.make "MCQ" (PyInt 1))];
             preferred_matches := preferred_matches st + 1;
             fallback_matches := fallback_matches st |}.
Proof.
  intros st b Hl Ha. unfold assign_step. rewrite Hl, Ha. reflexivity.
Qed.

(** C2, on the code. In the scenario of the specification the twelve Remember
    slots do get MCQ, but each as a fallback (MCQ is what the pool starts
    with): the metadata counts 8 preferred matches, those of Apply, and 12
    fallback matches. *)
Theorem assign_scenario_remember_is_fallback :
  exists assigned metadata,
    assign_question_types_to_bloom_slots sample_matrix sample_outcomes
      sample_types false no_draws = inr (assigned, metadata)
    /\ map (fun s => (AssignedSlot.bloom_level s, AssignedSlot.question_type s))
         assigned
       = repeat ("Remember", "MCQ") 12 ++ repeat ("Apply", "Problem Solving") 8
    /\ md_preferred_matches metadata = 8
    /\ md_fallback_matches metadata = 12.
Proof. eexists _, _. split; [vm_compute; reflexivity|]. repeat split. Qed.

(** With the pool in another order the assignment itself differs from the
    preference: Remember takes the Essay slot that comes first although an
    MCQ slot is there, and Create is left with the MCQ. *)
Lemma assign_remember_skips_available_mcq :
  exists assigned metadata,
    assign_question_types_to_bloom_slots
      [("Remember", [(0, 1)]); ("Create", [(0, 1)])] sample_outcomes
      [ QuestionType.make "Essay" 1 (PyInt 5) "qt-1";
        QuestionType.make "MCQ" 1 (PyInt 1) "qt-2" ] false no_draws
    = inr (assigned, metadata)
    /\ map (fun s => (AssignedSlot.bloom_level s, AssignedSlot.question_type s))
         assigned
       = [("Remember", "Essay"); ("Create", "MCQ")]
    /\ md_preferred_matches metadata = 0
    /\ md_fallback_matches metadata = 2.
Proof. eexists _, _. split; [vm_compute; reflexivity|]. repeat split. Qed.

End Preferences.

(** ** [compute_bloom_item_totals] *)

Section BloomTotals.
Import TosService.

(** C5, on the code. For 100 items at 29 percent the product
    [100 * (29 / 100)] is the double just below 29, and [int] truncates it:
    Remember gets 28 where [floor(100 * 29 / 100)] is 29. The item that is
    missing goes to Create, whose weight is 0. *)
Theorem compute_bloom_item_totals_rounds_below_floor :
  compute_bloom_item_totals percent_29_71 100
  = inr [("Remember", 28); ("Understand", 71); ("Apply", 0); ("Analyze", 0);
         ("Evaluate", 0); ("Create", 1)]
  /\ (100 * 29) / 100 = 29
  /\ Prim2SF (float_of_Z 100 * (float_of_Z 29 / float_of_Z 100))%float
     = S754_finite false 8162774324609023 (-48)
  /\ 8162774324609023 < 29 * 2 ^ 48.
Proof. repeat split; vm_compute; reflexivity. Qed.

(** One turn of the loop, in terms of [level_count]. *)
Lemma bloom_totals_loop_step bloom_weights total_items bloom levels bloom_items
    remainder w c :
  dict_get bloom_weights bloom = Some w ->
  level_count total_items w = inr c ->
  bloom_totals_loop bloom_weights total_items (bloom :: levels) bloom_items
    remainder
  = bloom_totals_loop bloom_weights total_items levels
      (dict_set bloom_items bloom c) (remainder - c).
Proof.
  intros G L. cbn [bloom_totals_loop]. rewrite G.
  change (py_truediv_int w 100)
    with (@Py.ret float (float_of_Z w / float_of_Z 100)%float) in *.
  unfold level_count in L.
  change (py_truediv_int w 100)
    with (@Py.ret float (float_of_Z w / float_of_Z 100)%float) in L.
  cbn [Py.bind Py.ret] in *. rewrite L. reflexivity.
Qed.

(** The result of the function, level by level: the five counts of the loop
    and for Create what remains. *)
Lemma compute_bloom_item_totals_unfold bloom_weights total_items w1 w2 w3 w4 w5
    c1 c2 c3 c4 c5 :
  dict_get bloom_weights "Remember" = Some w1 ->
  dict_get bloom_weights "Understand" = Some w2 ->
  dict_get bloom_weights "Apply" = Some w3 ->
  dict_get bloom_weights "Analyze" = Some w4 ->
  dict_get bloom_weights "Evaluate" = Some w5 ->
  level_count total_items w1 = inr c1 ->
  level_count total_items w2 = inr c2 ->
  level_count total_items w3 = inr c3 ->
  level_count total_items w4 = inr c4 ->
  level_count total_items w5 = inr c5 ->
  compute_bloom_item_totals bloom_weights total_items
  = inr [("Remember", c1); ("Understand", c2); ("Apply", c3); ("Analyze", c4);
         ("Evaluate", c5);
         ("Create", total_items - c1 - c2 - c3 - c4 - c5)].
Proof.
  intros G1 G2 G3 G4 G5 L1 L2 L3 L4 L5.
  unfold compute_bloom_item_totals.
  change (removelast BLOOM_LEVELS)
    with ["Remember"; "Understand"; "Apply"; "Analyze"; "Evaluate"].
  change (last BLOOM_LEVELS "") with "Create".
  rewrite (@bloom_totals_loop_step _ _ _ _ _ _ _ _ G1 L1),
          (@bloom_totals_loop_step _ _ _ _ _ _ _ _ G2 L2),
          (@bloom_totals_loop_step _ _ _ _ _ _ _ _ G3 L3),
          (@bloom_totals_loop_step _ _ _ _ _ _ _ _ G4 L4),
          (@bloom_totals_loop_step _ _ _ _ _ _ _ _ G5 L5).
  reflexivity.
Qed.


(** A percentage of no items is no items. *)
Lemma level_count_zero_items w :
  0 <= w <= 100 -> level_count 0 w = inr 0.
Proof.
  intros Hw.
  assert (Hall : forallb (fun n => match level_count 0 (Z.of_nat n) with
                                   | inr 0 => true | _ => false end)
                         (seq 0 101) = true) by (vm_compute; reflexivity).
  rewrite forallb_forall in Hall.
  specialize (Hall (Z.to_nat w)).
  rewrite Z2Nat.id in Hall by lia.
  destruct (level_count 0 w) as [e|[| |]]; try reflexivity;
    (exfalso; assert (Hin : In (Z.to_nat w) (seq 0 101)) by (apply in_seq; lia);
     specialize (Hall Hin); discriminate).
Qed.

(** With percentages between 0 and 100 and [total_items = 0] every level
    gets 0. *)
Lemma compute_bloom_item_totals_zero_items w1 w2 w3 w4 w5 w6 :
  0 <= w1 <= 100 -> 0 <= w2 <= 100 -> 0 <= w3 <= 100 -> 0 <= w4 <= 100 ->
  0 <= w5 <= 100 ->
  compute_bloom_item_totals
    [("Remember", w1); ("Understand", w2); ("Apply", w3); ("Analyze", w4);
     ("Evaluate", w5); ("Create", w6)] 0
  = inr [("Remember", 0); ("Understand", 0); ("Apply", 0); ("Analyze", 0);
         ("Evaluate", 0); ("Create", 0)].
Proof.
  intros H1 H2 H3 H4 H5.
  apply (@compute_bloom_item_totals_unfold _ 0 w1 w2 w3 w4 w5 0 0 0 0 0);
    try reflexivity; now apply level_count_zero_items.
Qed.

(** Over the percentages 0..100 and up to 300 items the count is the floor
    of the exact share or one below it, and it is one below for 16 of these
    pairs. *)
Lemma level_count_floor_or_one_below :
  forallb (fun t =>
    forallb (fun w =>
      count_is_floor (Z.of_nat t) (Z.of_nat w)
      || count_is_one_below (Z.of_nat t) (Z.of_nat w)) (seq 0 101))
    (seq 0 301) = true
  /\ List.length
       (filter (fun tw => count_is_one_below (Z.of_nat (fst tw)) (Z.of_nat (snd tw)))
          (list_prod (seq 0 301) (seq 0 101))) = 16%nat.
Proof. split; vm_compute; reflexivity. Qed.

(** The scenario of the specification: 50 and 50 percent of 10 items. *)
Lemma compute_bloom_item_totals_scenario :
  compute_bloom_item_totals
    [("Remember", 50); ("Understand", 50); ("Apply", 0); ("Analyze", 0);
     ("Evaluate", 0); ("Create", 0)] 10
  = inr [("Remember", 5); ("Understand", 5); ("Apply", 0); ("Analyze", 0);
         ("Evaluate", 0); ("Create", 0)].
Proof. vm_compute. reflexivity. Qed.

End BloomTotals.

(** ** [validate_question_type_distribution] *)

Section Validate.
Import QuestionTypeService.

Lemma count_name_count_occ type_names name :
  count_name type_names name = count_occ string_dec type_names name.
Proof.
  unfold count_name. induction type_names as [|x l IH]; simpl; [reflexivity|].
  destruct (string_dec x name) as [->|Hne].
  - rewrite String.eqb_refl. simpl. now rewrite IH.
  - destruct (String.eqb_spec name x) as [->|_]; [congruence|exact IH].
Qed.

(** The list [duplicates] of the source is empty exactly when no label
    occurs twice. *)
Lemma duplicates_nil_iff (type_names : list string) :
  filter (fun name => (1 <? count_name type_names name)%nat) type_names = []
  <-> NoDup type_names.
Proof.
  rewrite filter_nil_iff, (NoDup_count_occ string_dec). split.
  - intros Hf x.
    destruct (in_dec string_dec x type_names) as [Hin|Hnin].
    + specialize (Hf x Hin). apply Nat.ltb_ge in Hf.
      now rewrite <- count_name_count_occ.
    + apply (count_occ_not_In string_dec) in Hnin. lia.
  - intros Hc x _. apply Nat.ltb_ge.
    rewrite count_name_count_occ. apply Hc.
Qed.

(** For a number other than NaN, "not [<= 0]" is "[> 0]". *)
Lemma py_leb_zero_false_iff (p : pynum) :
  py_is_nan p = false ->
  (py_leb p (PyInt 0) = false <-> py_ltb (PyInt 0) p = true).
Proof.
  destruct p as [z|f]; simpl.
  - intros _. rewrite Z.leb_gt, Z.ltb_lt. tauto.
  - unfold Z_float_compare. destruct (Prim2SF f) as [s|s| |s m e].
    + intros _. simpl. split; discriminate.
    + intros _. destruct s; simpl; split; congruence.
    + discriminate.
    + intros _.
      destruct (if 0 <=? e then _ else _); split; congruence.
Qed.

Lemma positive_errors_nil_iff (qt : QuestionType.t) :
  positive_errors qt = []
  <-> 0 < QuestionType.items qt
      /\ py_leb (QuestionType.points_per_item qt) (PyInt 0) = false.
Proof.
  unfold positive_errors.
  destruct (Z.leb_spec (QuestionType.items qt) 0) as [Hi|Hi];
    destruct (py_leb _ _); simpl; split; intros Hq;
    try discriminate Hq; try reflexivity.
  - destruct Hq as [Hq _]. lia.
  - destruct Hq as [Hq _]. lia.
  - destruct Hq as [_ Hq]. discriminate Hq.
  - split; [lia|reflexivity].
Qed.

(** The result for a distribution that holds an entry: the three groups of
    errors, in the order of the checks. *)
Lemma validate_nonempty question_types total_test_items :
  question_types <> [] ->
  validate_question_type_distribution question_types total_test_items
  = let duplicates :=
      filter (fun name =>
                (1 <? count_name (map QuestionType.type question_types) name)%nat)
             (map QuestionType.type question_types) in
    let errors :=
      (if negb (distribution_total question_types =? total_test_items)
       then [ItemSumMismatch (distribution_total question_types)
               total_test_items]
       else [])
      ++ flat_map positive_errors question_types
      ++ match duplicates with
         | [] => []
         | _ :: _ => [DuplicateTypes duplicates]
         end in
    (Nat.eqb (List.length errors) 0, errors).
Proof. destruct question_types; [congruence|reflexivity]. Qed.

(** C8, as the code has it. The flag is true exactly when the error list is
    empty. For point values other than NaN, the result is [(True, [])]
    exactly when the list has an entry, the items add up to the total, every
    entry has [items > 0] and [points_per_item > 0], and no label occurs
    twice. A list that has an entry reports every rule that is broken: the
    sum, each entry with [items <= 0], each entry with
    [points_per_item <= 0], the duplicates. The empty list returns at once
    with the one error of the first rule, whatever the total is. *)
Theorem validate_question_type_distribution_spec :
  forall (question_types : list QuestionType.t) (total_test_items : Z),
    let result :=
      validate_question_type_distribution question_types total_test_items in
    (fst result = true <-> snd result = [])
    /\ (Forall (fun qt => py_is_nan (QuestionType.points_per_item qt) = false)
          question_types ->
        (result = (true, [])
         <-> question_types <> []
             /\ distribution_total question_types = total_test_items
             /\ Forall (fun qt =>
                          0 < QuestionType.items qt
                          /\ py_ltb (PyInt 0) (QuestionType.points_per_item qt)
                             = true) question_types
             /\ NoDup (map QuestionType.type question_types)))
    /\ (question_types <> [] ->
        (distribution_total question_types <> total_test_items ->
         In (ItemSumMismatch (distribution_total question_types)
               total_test_items) (snd result))
        /\ (forall qt, In qt question_types -> QuestionType.items qt <= 0 ->
            In (ItemsNotPositive (QuestionType.type qt) (QuestionType.items qt))
               (snd result))
        /\ (forall qt, In qt question_types ->
            py_leb (QuestionType.points_per_item qt) (PyInt 0) = true ->
            In (PointsNotPositive (QuestionType.type qt)
                  (QuestionType.points_per_item qt)) (snd result))
        /\ (~ NoDup (map QuestionType.type question_types) ->
            exists duplicates,
              duplicates <> [] /\ In (DuplicateTypes duplicates) (snd result)))
    /\ (question_types = [] -> result = (false, [NoQuestionType])).
Proof.
  intros D total result. subst result.
  destruct D as [|q D'] eqn:HeqD.
  { simpl. split; [split; discriminate|]. split; [|split].
    - intros _. split; [discriminate|]. intros [Hc _]. congruence.
    - congruence.
    - reflexivity. }
  rewrite <- HeqD. assert (HD : D <> []) by (rewrite HeqD; discriminate).
  clear q D' HeqD.
  rewrite (validate_nonempty total HD). cbv zeta.
  set (e1 := if negb _ then _ else _).
  set (e2 := flat_map positive_errors D).
  set (dups := filter _ (map QuestionType.type D)).
  set (e3 := match dups with [] => [] | _ :: _ => [DuplicateTypes dups] end).
  assert (He1 : e1 = [] <-> distribution_total D = total).
  { subst e1. destruct (Z.eqb_spec (distribution_total D) total); simpl;
      split; congruence. }
  assert (He2 : e2 = [] <-> forall qt, In qt D -> positive_errors qt = [])
    by apply flat_map_nil_iff.
  assert (He3 : e3 = [] <-> NoDup (map QuestionType.type D)).
  { rewrite <- duplicates_nil_iff. fold dups. subst e3.
    destruct dups; split; congruence. }
  assert (Hall : e1 ++ e2 ++ e3 = [] <-> e1 = [] /\ e2 = [] /\ e3 = []).
  { split.
    - intros Ha. apply app_eq_nil in Ha. destruct Ha as [H1 Ha].
      apply app_eq_nil in Ha. tauto.
    - intros (-> & -> & ->). reflexivity. }
  simpl fst. simpl snd.
  split; [apply length_zero_eqb|].
  split; [|split].
  - intros Hnan. split.
    + intros Heq. injection Heq as Hflag Herr.
      apply Hall in Herr. destruct Herr as (H1 & H2 & H3).
      split; [exact HD|]. split; [now apply He1|]. split; [|now apply He3].
      apply Forall_forall. intros qt Hin.
      rewrite Forall_forall in Hnan.
      apply (proj1 He2 H2) in Hin as Hp.
      apply positive_errors_nil_iff in Hp. destruct Hp as [Hi Hp].
      split; [exact Hi|].
      exact (proj1 (py_leb_zero_false_iff _ (Hnan qt Hin)) Hp).
    + intros (_ & Hs & Hpos & Hnd).
      assert (Herr : e1 ++ e2 ++ e3 = []).
      { apply Hall. split; [now apply He1|]. split; [|now apply He3].
        apply He2. intros qt Hin. apply positive_errors_nil_iff.
        rewrite Forall_forall in Hpos, Hnan.
        destruct (Hpos qt Hin) as [Hi Hp]. split; [exact Hi|].
        exact (proj2 (py_leb_zero_false_iff _ (Hnan qt Hin)) Hp). }
      now rewrite Herr.
  - intros _. split; [|split; [|split]].
    + intros Hs. apply in_or_app. left. subst e1.
      apply Z.eqb_neq in Hs. rewrite Hs. now left.
    + intros qt Hin Hi. apply in_or_app. right. apply in_or_app. left.
      apply in_flat_map. exists qt. split; [exact Hin|].
      unfold positive_errors. apply in_or_app. left.
      apply Z.leb_le in Hi. rewrite Hi. now left.
    + intros qt Hin Hp. apply in_or_app. right. apply in_or_app. left.
      apply in_flat_map. exists qt. split; [exact Hin|].
      unfold positive_errors. apply in_or_app. right.
      rewrite Hp. now left.
    + intros Hnd. exists dups. subst e3. destruct dups as [|d ds] eqn:Hd.
      * exfalso. apply Hnd. apply He3. reflexivity.
      * split; [discriminate|].
        apply in_or_app. right. apply in_or_app. right. now left.
  - intros ->. congruence.
Qed.

(** Two inputs on which the sentence of the specification fails. The empty
    distribution against a total of 5: the sum rule is broken as well (0 is
    not 5), and the one error returned is that of the first rule. An entry
    whose point value is NaN: it is accepted, and NaN is not above 0. *)
Lemma validate_counterexamples :
  (validate_question_type_distribution [] 5 = (false, [NoQuestionType])
   /\ distribution_total [] <> 5
   /\ ~ In (ItemSumMismatch (distribution_total []) 5)
          (snd (validate_question_type_distribution [] 5)))
  /\ (validate_question_type_distribution
        [QuestionType.make "MCQ" 1 (PyFloat nan) "qt-1"] 1 = (true, [])
      /\ py_ltb (PyInt 0) (PyFloat nan) = false).
Proof.
  split.
  - split; [reflexivity|]. split; [discriminate|].
    simpl. intros [H|[]]. discriminate H.
  - split; vm_compute; reflexivity.
Qed.

(** A list with several faults returns them all. *)
Lemma validate_reports_all_example :
  validate_question_type_distribution
    [ QuestionType.make "MCQ" 0 (PyFloat 0) "qt-1";
      QuestionType.make "MCQ" 2 (PyInt 10) "qt-2" ] 42
  = (false,
     [ ItemSumMismatch 2 42; ItemsNotPositive "MCQ" 0;
       PointsNotPositive "MCQ" (PyFloat 0); DuplicateTypes ["MCQ"; "MCQ"] ]).
Proof. vm_compute. reflexivity. Qed.

(** The example of the docstring. *)
Lemma validate_docstring_example :
  validate_question_type_distribution
    [ QuestionType.make "MCQ" 40 (PyInt 1) "qt-1";
      QuestionType.make "Essay" 2 (PyInt 10) "qt-2" ] 42 = (true, []).
Proof. vm_compute. reflexivity. Qed.

End Validate.

(** ** [verify_assignment_integrity] *)

Section Verify.
Import SlotAssignment.

(** The counting dictionary holds, for every key, the number of slots with
    that key. *)
Lemma count_by_fold key slots :
  forall (counts : dict string Z) (k : string),
    dict_get_default
      (fold_left (fun counts slot =>
                    dict_set counts (key slot)
                      (dict_get_default counts (key slot) 0 + 1))
                 slots counts) k 0
    = dict_get_default counts k 0 + count_key key slots k.
Proof.
  unfold count_key.
  induction slots as [|s slots IH]; intros counts k; simpl; [lia|].
  rewrite IH. unfold dict_get_default.
  destruct (String.eqb_spec (key s) k) as [<-|Hne].
  - rewrite dict_get_set_eq. simpl List.length. lia.
  - rewrite dict_get_set_neq by exact Hne. lia.
Qed.

Lemma count_by_get key slots k :
  dict_get_default (count_by key slots) k 0 = count_key key slots k.
Proof. unfold count_by. now rewrite count_by_fold. Qed.

Lemma points_by_type_fold slots :
  forall (sums : dict string pynum) (type : string),
    dict_get_default
      (fold_left (fun sums slot =>
                    dict_set sums (AssignedSlot.question_type slot)
                      (py_add
                         (dict_get_default sums
                            (AssignedSlot.question_type slot) (PyInt 0))
                         (AssignedSlot.points slot)))
                 slots sums) type (PyInt 0)
    = fold_left py_add
        (map AssignedSlot.points
           (filter (fun s => String.eqb (AssignedSlot.question_type s) type)
              slots))
        (dict_get_default sums type (PyInt 0)).
Proof.
  induction slots as [|s slots IH]; intros sums type; simpl; [reflexivity|].
  rewrite IH. unfold dict_get_default.
  destruct (String.eqb_spec (AssignedSlot.question_type s) type) as [<-|Hne].
  - rewrite dict_get_set_eq. reflexivity.
  - rewrite dict_get_set_neq by exact Hne. reflexivity.
Qed.

Lemma points_by_type_get slots type :
  dict_get_default (points_by_type slots) type (PyInt 0)
  = type_points slots type.
Proof. unfold points_by_type. now rewrite points_by_type_fold. Qed.

(** The verifier in terms of the counts and sums themselves. *)
Lemma verify_unfold assigned_slots (tos_matrix : TOSMatrix) question_types_list :
  verify_assignment_integrity assigned_slots tos_matrix question_types_list
  = let errors :=
      flat_map (fun r =>
                  if negb (py_sum (dict_values (snd r))
                           =? count_key AssignedSlot.bloom_level assigned_slots
                                (fst r))
                  then [BloomCountMismatch (fst r) (py_sum (dict_values (snd r)))
                          (count_key AssignedSlot.bloom_level assigned_slots
                             (fst r))]
                  else []) tos_matrix
      ++ flat_map (fun qt =>
           (if negb (QuestionType.items qt
                     =? count_key AssignedSlot.question_type assigned_slots
                          (QuestionType.type qt))
            then [TypeCountMismatch (QuestionType.type qt)
                    (QuestionType.items qt)
                    (count_key AssignedSlot.question_type assigned_slots
                       (QuestionType.type qt))]
            else [])
           ++
           (if negb (py_eqb
                       (py_mul (PyInt (QuestionType.items qt))
                          (QuestionType.points_per_item qt))
                       (type_points assigned_slots (QuestionType.type qt)))
            then [TypePointsMismatch (QuestionType.type qt)
                    (py_mul (PyInt (QuestionType.items qt))
                       (QuestionType.points_per_item qt))
                    (type_points assigned_slots (QuestionType.type qt))]
            else [])) question_types_list
      ++ duplicate_errors assigned_slots in
    (Nat.eqb (List.length errors) 0, errors).
Proof.
  unfold verify_assignment_integrity. cbv zeta.
  assert (H1 : bloom_errors tos_matrix
                 (count_by AssignedSlot.bloom_level assigned_slots)
               = flat_map (fun r =>
                  if negb (py_sum (dict_values (snd r))
                           =? count_key AssignedSlot.bloom_level assigned_slots
                                (fst r))
                  then [BloomCountMismatch (fst r) (py_sum (dict_values (snd r)))
                          (count_key AssignedSlot.bloom_level assigned_slots
                             (fst r))]
                  else []) tos_matrix).
  { unfold bloom_errors. apply flat_map_ext. intros [L row]. simpl.
    now rewrite count_by_get. }
  rewrite H1.
  assert (H2 : forall qt,
             type_errors (count_by AssignedSlot.question_type assigned_slots)
               (points_by_type assigned_slots) qt
             = (if negb (QuestionType.items qt
                     =? count_key AssignedSlot.question_type assigned_slots
                          (QuestionType.type qt))
            then [TypeCountMismatch (QuestionType.type qt)
                    (QuestionType.items qt)
                    (count_key AssignedSlot.question_type assigned_slots
                       (QuestionType.type qt))]
            else [])
           ++
           (if negb (py_eqb
                       (py_mul (PyInt (QuestionType.items qt))
                          (QuestionType.points_per_item qt))
                       (type_points assigned_slots (QuestionType.type qt)))
            then [TypePointsMismatch (QuestionType.type qt)
                    (py_mul (PyInt (QuestionType.items qt))
                       (QuestionType.points_per_item qt))
                    (type_points assigned_slots (QuestionType.type qt))]
            else [])).
  { intros qt. unfold type_errors. cbv zeta.
    now rewrite count_by_get, points_by_type_get. }
  rewrite (flat_map_ext _ _ H2). reflexivity.
Qed.





End Verify.

(** ** Slot expansion *)

Section Expand.
Import SlotAssignment.

Lemma expand_cell_length outcomes bloom_level cell :
  List.length (expand_cell outcomes bloom_level cell) = Z.to_nat (snd cell).
Proof. destruct cell as [oid c]. simpl. apply repeat_length. Qed.

Lemma expand_row_length outcomes bloom_level (row : dict Z Z) :
  Forall (fun c => 0 <= snd c) row ->
  Z.of_nat (List.length (flat_map (expand_cell outcomes bloom_level) row))
  = py_sum (dict_values row).
Proof.
  induction 1 as [|cell row Hc Hrow IH]; [reflexivity|].
  simpl. rewrite length_app, Nat2Z.inj_add, IH, expand_cell_length,
    py_sum_cons, Z2Nat.id by exact Hc. reflexivity.
Qed.

Lemma expand_bloom_slots_length (tos_matrix : TOSMatrix) outcomes :
  Forall (fun r => row_wf (snd r)) tos_matrix ->
  Z.of_nat (List.length (expand_bloom_slots tos_matrix outcomes))
  = matrix_total tos_matrix.
Proof.
  unfold matrix_total, expand_bloom_slots.
  induction 1 as [|[L row] M [_ Hrow] HM IH]; [reflexivity|].
  simpl. rewrite length_app, Nat2Z.inj_add, IH, py_sum_cons.
  now rewrite expand_row_length.
Qed.

Lemma expand_type_slots_length question_types_list :
  Forall (fun qt => 0 <= QuestionType.items qt) question_types_list ->
  Z.of_nat (List.length (expand_type_slots question_types_list))
  = distribution_total question_types_list.
Proof.
  unfold distribution_total, expand_type_slots.
  induction 1 as [|qt D Hq HD IH]; [reflexivity|].
  simpl. rewrite length_app, Nat2Z.inj_add, IH, py_sum_cons, repeat_length,
    Z2Nat.id by exact Hq. reflexivity.
Qed.

(** The expansions are empty exactly when no cell, or no entry, holds a
    positive count. *)
Lemma expand_bloom_slots_nil_iff (tos_matrix : TOSMatrix) outcomes :
  expand_bloom_slots tos_matrix outcomes = []
  <-> Forall (fun r => Forall (fun c => snd c <= 0) (snd r)) tos_matrix.
Proof.
  unfold expand_bloom_slots. rewrite flat_map_nil_iff, Forall_forall.
  split; intros H [L row] Hin; specialize (H (L, row) Hin); simpl in *.
  - rewrite flat_map_nil_iff in H. apply Forall_forall. intros [oid c] Hc.
    specialize (H (oid, c) Hc). simpl in *. apply repeat_nil_iff in H. lia.
  - apply flat_map_nil_iff. intros [oid c] Hc. rewrite Forall_forall in H.
    specialize (H (oid, c) Hc). simpl in *. apply repeat_nil_iff. lia.
Qed.

Lemma expand_type_slots_nil_iff question_types_list :
  expand_type_slots question_types_list = []
  <-> Forall (fun qt => QuestionType.items qt <= 0) question_types_list.
Proof.
  unfold expand_type_slots. rewrite flat_map_nil_iff, Forall_forall.
  split; intros H qt Hin; specialize (H qt Hin).
  - apply repeat_nil_iff in H. lia.
  - apply repeat_nil_iff. lia.
Qed.

Lemma slot_group_size_app slots1 slots2 bloom_level outcome_id :
  slot_group_size (slots1 ++ slots2) bloom_level outcome_id
  = slot_group_size slots1 bloom_level outcome_id
    + slot_group_size slots2 bloom_level outcome_id.
Proof.
  unfold slot_group_size. rewrite filter_app, length_app. lia.
Qed.

Lemma slot_group_size_repeat slot n bloom_level outcome_id :
  slot_group_size (repeat slot n) bloom_level outcome_id
  = if String.eqb (BloomSlot.bloom_level slot) bloom_level
       && (BloomSlot.outcome_id slot =? outcome_id)
    then Z.of_nat n else 0.
Proof.
  unfold slot_group_size. induction n as [|n IH]; simpl.
  - now destruct (_ && _).
  - destruct (_ && _) eqn:Hb; simpl List.length; lia.
Qed.

(** The group of a level and an outcome, within the slots of one row. *)
Lemma slot_group_size_row outcomes row_level (row : dict Z Z) bloom_level
    outcome_id :
  row_wf row ->
  slot_group_size (flat_map (expand_cell outcomes row_level) row)
    bloom_level outcome_id
  = if String.eqb row_level bloom_level
    then dict_get_default row outcome_id 0 else 0.
Proof.
  intros [Hnd Hpos]. unfold dict_wf in Hnd.
  assert (Hout : forall r : dict Z Z,
             ~ In outcome_id (dict_keys r) ->
             slot_group_size (flat_map (expand_cell outcomes row_level) r)
               bloom_level outcome_id = 0).
  { induction r as [|[oid c] r IHr]; simpl; intros Hn; [reflexivity|].
    rewrite slot_group_size_app, slot_group_size_repeat, IHr by tauto.
    simpl. destruct (Z.eqb_spec oid outcome_id) as [->|_]; [tauto|].
    now rewrite andb_false_r. }
  induction row as [|[oid c] row IH]; simpl.
  - now destruct (String.eqb _ _).
  - inversion Hnd as [|? ? Hfresh Hnd']; subst.
    inversion Hpos as [|? ? Hc Hpos']; subst. simpl in Hc.
    rewrite slot_group_size_app, slot_group_size_repeat. simpl.
    unfold dict_get_default. simpl.
    destruct (Z.eqb_spec oid outcome_id) as [->|Hne].
    + rewrite Hout by exact Hfresh. rewrite andb_true_r.
      destruct (String.eqb _ _); [rewrite Z2Nat.id by exact Hc|]; lia.
    + rewrite andb_false_r, IH by assumption. reflexivity.
Qed.

(** C7. For a TOS matrix (a dictionary of dictionaries with item counts that
    are not negative) the expansion has as many slots as the cells add up
    to, and the slots with a given level and outcome are as many as the cell
    of the matrix says, for every level and every outcome: a cell with
    [n > 0] gives a group of [n], and there is no group for a cell with 0 or
    for a pair that is not in the matrix. *)
Theorem expand_bloom_slots_round_trip :
  forall (tos_matrix : TOSMatrix) (outcomes : list Outcome),
    tos_matrix_wf tos_matrix ->
    Z.of_nat (List.length (expand_bloom_slots tos_matrix outcomes))
    = matrix_total tos_matrix
    /\ forall (bloom_level : string) (outcome_id : Z),
         slot_group_size (expand_bloom_slots tos_matrix outcomes) bloom_level
           outcome_id
         = matrix_cell tos_matrix bloom_level outcome_id.
Proof.
  intros M outcomes [Hnd Hrows].
  split; [now apply expand_bloom_slots_length|].
  intros L oid. unfold dict_wf in Hnd.
  assert (Hout : forall M' : TOSMatrix,
             Forall (fun r => row_wf (snd r)) M' ->
             ~ In L (dict_keys M') ->
             slot_group_size (expand_bloom_slots M' outcomes) L oid = 0).
  { induction M' as [|[L' row] M' IHM]; simpl; intros Hw Hn; [reflexivity|].
    inversion Hw as [|? ? Hrow Hw']; subst.
    rewrite slot_group_size_app, slot_group_size_row by exact Hrow.
    rewrite IHM by tauto.
    destruct (String.eqb_spec L' L) as [->|_]; [tauto|reflexivity]. }
  unfold matrix_cell.
  induction M as [|[L' row] M IH]; [reflexivity|].
  inversion Hnd as [|? ? Hfresh Hnd']; subst.
  inversion Hrows as [|? ? Hrow Hrows']; subst. simpl in Hrow.
  simpl. rewrite slot_group_size_app, slot_group_size_row by exact Hrow.
  destruct (String.eqb_spec L' L) as [->|Hne].
  - rewrite (Hout M) by assumption. lia.
  - rewrite IH by assumption. reflexivity.
Qed.

Lemma sample_matrix_wf : tos_matrix_wf sample_matrix.
Proof.
  split.
  - repeat constructor; simpl; intuition discriminate.
  - repeat constructor; simpl; intuition (discriminate || lia).
Qed.

Lemma expand_bloom_slots_round_trip_witness :
  tos_matrix_wf sample_matrix
  /\ Z.of_nat (List.length (expand_bloom_slots sample_matrix sample_outcomes))
     = 20
  /\ slot_group_size (expand_bloom_slots sample_matrix sample_outcomes)
       "Apply" 0 = 8.
Proof.
  pose proof (expand_bloom_slots_round_trip sample_outcomes sample_matrix_wf)
    as [Hlen Hgroup].
  split; [exact sample_matrix_wf|]. split.
  - exact Hlen.
  - exact (Hgroup "Apply" 0).
Defined.

(** A missing outcome id gets the placeholder text and is no error. *)
Lemma expand_bloom_slots_placeholder :
  expand_bloom_slots [("Analyze", [(7, 2)])] sample_outcomes
  = [ BloomSlot.make 7 "Outcome 7" "Analyze";
      BloomSlot.make 7 "Outcome 7" "Analyze" ].
Proof. reflexivity. Qed.

End Expand.

(** ** [allocate_items_largest_remainder] *)

Section Sorting.
Context {A : Type} (key : A -> Q).

Lemma insert_desc_permutation x l :
  Permutation (insert_desc key x l) (x :: l).
Proof.
  induction l as [|y l IH]; simpl; [reflexivity|].
  destruct (Qle_bool (key y) (key x)); [reflexivity|].
  rewrite IH. apply perm_swap.
Qed.

Lemma py_sorted_desc_permutation l :
  Permutation (py_sorted_desc key l) l.
Proof.
  induction l as [|x l IH]; simpl; [reflexivity|].
  rewrite insert_desc_permutation. now apply perm_skip.
Qed.





End Sorting.

Section DictSums.

Lemma dict_get_in_keys {K V} `{EqKey K} (d : dict K V) k :
  In k (dict_keys d) -> exists v, dict_get d k = Some v.
Proof.
  induction d as [|[k' v'] d IH]; simpl; [tauto|].
  intros Hin. destruct (key_eqb_spec k' k) as [->|Hne]; [now exists v'|].
  apply IH. destruct Hin; congruence.
Qed.

Lemma dict_set_sum (d : dict Z Z) k v v' :
  dict_get d k = Some v ->
  py_sum (dict_values (dict_set d k v')) = py_sum (dict_values d) - v + v'.
Proof.
  induction d as [|[k0 v0] d IH]; simpl; [discriminate|].
  destruct (Z.eqb_spec k0 k) as [->|Hne]; intros Hg.
  - inversion Hg; subst. simpl. rewrite !py_sum_cons. lia.
  - simpl. rewrite !py_sum_cons, IH by exact Hg. lia.
Qed.

End DictSums.

Section LargestRemainder.
Import TosService.

(** With pairwise distinct ids the comprehension lists the floors in input
    order. *)
Lemma floor_allocation_fold (raw : list (Z * Q)) :
  forall allocated : dict Z Z,
    NoDup (dict_keys allocated ++ map fst raw) ->
    fold_left (fun allocated '(oid, v) => dict_set allocated oid (Qfloor v))
      raw allocated
    = allocated ++ map (fun x => (fst x, Qfloor (snd x))) raw.
Proof.
  induction raw as [|[oid v] raw IH]; intros allocated Hnd; simpl.
  - now rewrite app_nil_r.
  - assert (Hfresh : ~ In oid (dict_keys allocated)).
    { intros Hin. apply NoDup_remove_2 in Hnd. apply Hnd.
      apply in_or_app. now left. }
    rewrite dict_set_fresh by exact Hfresh.
    rewrite IH.
    + now rewrite <- app_assoc.
    + unfold dict_keys in *. rewrite map_app, <- app_assoc. exact Hnd.
Qed.

Lemma floor_allocation_nodup (raw : list (Z * Q)) :
  NoDup (map fst raw) ->
  floor_allocation raw = map (fun x => (fst x, Qfloor (snd x))) raw.
Proof.
  intros Hnd. unfold floor_allocation.
  now rewrite floor_allocation_fold.
Qed.

(** The increments: every entry of [top] adds one to the cell of its id. *)
Lemma award_spec (top : list (Z * Q)) :
  forall allocated : dict Z Z,
    (forall x, In x top -> In (fst x) (dict_keys allocated)) ->
    exists cells,
      award allocated top = inr cells
      /\ dict_keys cells = dict_keys allocated
      /\ py_sum (dict_values cells)
         = py_sum (dict_values allocated) + Z.of_nat (List.length top)
      /\ forall k,
           dict_get cells k
           = option_map
               (fun c => c + Z.of_nat (count_occ Z.eq_dec (map fst top) k))
               (dict_get allocated k).
Proof.
  induction top as [|[oid v] top IH]; intros allocated Hin.
  - exists allocated. simpl. repeat split; try lia.
    intros k. destruct (dict_get allocated k); simpl; f_equal; lia.
  - assert (Hoid : In oid (dict_keys allocated))
      by (apply (Hin (oid, v)); now left).
    destruct (dict_get_in_keys _ _ Hoid) as [c Hc].
    cbn [award]. rewrite Hc.
    destruct (IH (dict_set allocated oid (c + 1))) as (cells & Ha & Hk & Hs & Hg).
    { intros x Hx. rewrite dict_keys_set_present by exact Hoid.
      apply Hin. now right. }
    exists cells. split; [exact Ha|].
    split; [now rewrite Hk, dict_keys_set_present|].
    split.
    { rewrite Hs. erewrite dict_set_sum by exact Hc. simpl List.length. lia. }
    intros k. rewrite Hg. cbn [map fst count_occ].
    destruct (Z.eq_dec oid k) as [->|Hne].
    + rewrite dict_get_set_eq, Hc. simpl. f_equal. lia.
    + rewrite dict_get_set_neq by exact Hne. reflexivity.
Qed.

Lemma count_occ_nodup_awarded (top : list (Z * Q)) (oid : Z) :
  NoDup (map fst top) ->
  Z.of_nat (count_occ Z.eq_dec (map fst top) oid)
  = if awarded top oid then 1 else 0.
Proof.
  unfold awarded. induction (map fst top) as [|k ks IH]; intros Hnd;
    [reflexivity|].
  inversion Hnd as [|? ? Hfresh Hnd']; subst. cbn [count_occ existsb].
  destruct (Z.eq_dec k oid) as [->|Hne].
  - rewrite Z.eqb_refl. simpl.
    apply (count_occ_not_In Z.eq_dec) in Hfresh. rewrite Hfresh. reflexivity.
  - destruct (Z.eqb_spec oid k) as [->|_]; [congruence|]. simpl. now apply IH.
Qed.

Lemma dict_get_map_floor (raw : list (Z * Q)) (x : Z * Q) :
  NoDup (map fst raw) -> In x raw ->
  dict_get (map (fun y => (fst y, Qfloor (snd y))) raw) (fst x)
  = Some (Qfloor (snd x)).
Proof.
  intros Hnd Hin. apply dict_get_in.
  - unfold dict_wf, dict_keys. rewrite map_map. exact Hnd.
  - apply (in_map (fun y => (fst y, Qfloor (snd y)))) in Hin. exact Hin.
Qed.

(** One level, from arbitrary raw shares: when the units that remain after
    the floors are between none and one for each entry, every id keeps a
    cell, the cells add up to the total, and the cell of an entry is its
    floor, plus one for the first [remaining] entries of the sorted list. *)
Lemma allocate_from_raw_spec (raw : list (Z * Q)) (total_bloom_items : Z) :
  NoDup (map fst raw) ->
  0 <= total_bloom_items - py_sum (floors raw) <= Z.of_nat (List.length raw) ->
  let remaining := total_bloom_items - py_sum (floors raw) in
  let top := firstn (Z.to_nat remaining) (py_sorted_desc remainder_key raw) in
  exists cells,
    allocate_from_raw raw total_bloom_items = inr cells
    /\ dict_keys cells = map fst raw
    /\ py_sum (dict_values cells) = total_bloom_items
    /\ forall x, In x raw ->
         dict_get cells (fst x)
         = Some (Qfloor (snd x) + if awarded top (fst x) then 1 else 0).
Proof.
  intros Hnd Hrem remaining top.
  unfold allocate_from_raw.
  rewrite (@floor_allocation_nodup raw Hnd).
  assert (Hvals : dict_values (map (fun x => (fst x, Qfloor (snd x))) raw)
                  = floors raw).
  { unfold dict_values, floors. now rewrite map_map. }
  assert (Hkeys : dict_keys (map (fun x => (fst x, Qfloor (snd x))) raw)
                  = map fst raw).
  { unfold dict_keys. now rewrite map_map. }
  rewrite Hvals. fold remaining.
  assert (Hslice : py_slice_to (py_sorted_desc remainder_key raw) remaining = top).
  { unfold py_slice_to. destruct (Z.ltb_spec remaining 0); [lia|reflexivity]. }
  rewrite Hslice.
  assert (Hperm := py_sorted_desc_permutation remainder_key raw).
  assert (Htop_in : forall x, In x top -> In x raw).
  { intros x Hx. apply (Permutation_in _ Hperm).
    unfold top in Hx. now apply In_firstn in Hx. }
  destruct (award_spec top (map (fun x => (fst x, Qfloor (snd x))) raw))
    as (cells & Ha & Hk & Hs & Hg).
  { intros x Hx. rewrite Hkeys. apply in_map. now apply Htop_in. }
  exists cells. split; [exact Ha|]. split; [now rewrite Hk|]. split.
  - rewrite Hs, Hvals. unfold top. rewrite length_firstn.
    rewrite (Permutation_length Hperm). subst remaining. lia.
  - intros x Hx. rewrite Hg, (@dict_get_map_floor raw x Hnd Hx). simpl.
    rewrite count_occ_nodup_awarded; [reflexivity|].
    unfold top. rewrite <- firstn_map. apply NoDup_firstn.
    apply (Permutation_NoDup (l := map fst raw)); [|exact Hnd].
    apply Permutation_map. now symmetry.
Qed.

End LargestRemainder.

Section Shares.
Import TosService.
Local Open Scope Q_scope.


Lemma Qsum_inject (zs : list Z) :
  inject_Z (py_sum zs) == Qsum (map inject_Z zs).
Proof.
  induction zs as [|z zs IH]; simpl; [reflexivity|].
  rewrite py_sum_cons, inject_Z_plus, IH. reflexivity.
Qed.

Lemma Qsum_floor_le (vs : list Q) :
  Qsum (map (fun v => inject_Z (Qfloor v)) vs) <= Qsum vs.
Proof.
  induction vs as [|v vs IH]; simpl; [apply Qle_refl|].
  apply Qplus_le_compat; [apply Qfloor_le|exact IH].
Qed.

Lemma Qsum_lt_floor (vs : list Q) :
  vs <> [] ->
  Qsum vs
  < Qsum (map (fun v => inject_Z (Qfloor v)) vs)
    + inject_Z (Z.of_nat (List.length vs)).
Proof.
  induction vs as [|v vs IH]; [congruence|]. intros _.
  assert (Hv : v < inject_Z (Qfloor v) + 1).
  { pose proof (Qlt_floor v) as H. rewrite inject_Z_plus in H. exact H. }
  destruct vs as [|v' vs'].
  - simpl. rewrite !Qplus_0_r. exact Hv.
  - specialize (IH ltac:(discriminate)).
    change (Qsum (v :: v' :: vs')) with (v + Qsum (v' :: vs')).
    change (Qsum (map (fun v0 => inject_Z (Qfloor v0)) (v :: v' :: vs')))
      with (inject_Z (Qfloor v)
            + Qsum (map (fun v0 => inject_Z (Qfloor v0)) (v' :: vs'))).
    replace (Z.of_nat (List.length (v :: v' :: vs')))
      with (1 + Z.of_nat (List.length (v' :: vs')))%Z
      by (simpl List.length; lia).
    rewrite inject_Z_plus.
    setoid_replace
      (inject_Z (Qfloor v)
       + Qsum (map (fun v0 => inject_Z (Qfloor v0)) (v' :: vs'))
       + (inject_Z 1 + inject_Z (Z.of_nat (List.length (v' :: vs')))))
      with ((inject_Z (Qfloor v) + 1)
            + (Qsum (map (fun v0 => inject_Z (Qfloor v0)) (v' :: vs'))
               + inject_Z (Z.of_nat (List.length (v' :: vs')))))
      by (change (inject_Z 1) with 1; ring).
    apply Qplus_lt_le_compat; [exact Hv|]. now apply Qlt_le_weak.
Qed.



(** The same bounds for raw shares that are only near the exact ones: it is
    enough that they add up to within one unit of the total, which leaves
    room for the rounding of each product. *)
Lemma remaining_bounds_near (raw : list (Z * Q)) (total_bloom_items : Z) :
  inject_Z total_bloom_items - 1 < Qsum (map snd raw) ->
  Qsum (map snd raw) < inject_Z total_bloom_items + 1 ->
  (0 <= total_bloom_items - py_sum (floors raw) <= Z.of_nat (List.length raw))%Z.
Proof.
  intros Hlo Hhi.
  assert (Hfl : inject_Z (py_sum (floors raw))
                == Qsum (map (fun v => inject_Z (Qfloor v)) (map snd raw))).
  { rewrite Qsum_inject. unfold floors. now rewrite !map_map. }
  pose proof (Qsum_floor_le (map snd raw)) as Hle. rewrite <- Hfl in Hle.
  assert (Hused : (py_sum (floors raw) < total_bloom_items + 1)%Z).
  { rewrite Zlt_Qlt, inject_Z_plus.
    apply Qle_lt_trans with (Qsum (map snd raw)); assumption. }
  split; [lia|].
  destruct raw as [|x raw'].
  - simpl in *. unfold py_sum in *. simpl in *.
    assert (H0 : (total_bloom_items - 1 < 0)%Z).
    { rewrite Zlt_Qlt. unfold Zminus. rewrite inject_Z_plus. exact Hlo. }
    lia.
  - assert (Hne : map snd (x :: raw') <> []) by discriminate.
    pose proof (@Qsum_lt_floor (map snd (x :: raw')) Hne) as Hlt.
    rewrite <- Hfl, length_map, <- inject_Z_plus in Hlt.
    assert (H1 : (total_bloom_items - 1
                  < py_sum (floors (x :: raw'))
                    + Z.of_nat (List.length (x :: raw')))%Z).
    { rewrite Zlt_Qlt. unfold Zminus at 1. rewrite inject_Z_plus.
      apply Qlt_trans with (Qsum (map snd (x :: raw'))); assumption. }
    lia.
Qed.




End Shares.

Section Allocation.
Import TosService.



(** One level from raw shares that add up to within one unit of the total,
    as rounded products do: the cells still add up to the total exactly. *)
Lemma allocate_from_raw_near (raw : list (Z * Q)) (total_bloom_items : Z) :
  NoDup (map fst raw) ->
  (inject_Z total_bloom_items - 1 < Qsum (map snd raw))%Q ->
  (Qsum (map snd raw) < inject_Z total_bloom_items + 1)%Q ->
  exists cells,
    allocate_from_raw raw total_bloom_items = inr cells
    /\ dict_keys cells = map fst raw
    /\ py_sum (dict_values cells) = total_bloom_items.
Proof.
  intros Hnd Hlo Hhi.
  destruct (@allocate_from_raw_spec raw total_bloom_items Hnd
              (@remaining_bounds_near raw total_bloom_items Hlo Hhi))
    as (cells & Ha & Hk & Hs & _).
  exists cells. auto.
Qed.




Lemma allocate_items_largest_remainder_scenario :
  allocate_items_largest_remainder two_outcomes
    [("Remember", 5); ("Understand", 5); ("Apply", 0)]
  = inr [ ("Remember", [(0, 4); (1, 1)]); ("Understand", [(0, 4); (1, 1)]);
          ("Apply", [(0, 0); (1, 0)]) ].
Proof. vm_compute. reflexivity. Qed.

(** Equal remainders: the extra units go to the outcomes that come first. *)
Lemma allocate_ties_follow_input_order :
  allocate_level
    [ {| o_id := 10; o_text := "a"; o_hours := 1; o_weight := 1 # 4 |};
      {| o_id := 20; o_text := "b"; o_hours := 1; o_weight := 1 # 4 |};
      {| o_id := 30; o_text := "c"; o_hours := 1; o_weight := 1 # 4 |};
      {| o_id := 40; o_text := "d"; o_hours := 1; o_weight := 1 # 4 |} ] 6
  = inr [(10, 2); (20, 2); (30, 1); (40, 1)].
Proof. vm_compute. reflexivity. Qed.

(** The ids have to be distinct: outcomes that share an id share one cell,
    and the level loses items. *)
Lemma allocate_shared_id_loses_items :
  allocate_level
    [ {| o_id := 0; o_text := "a"; o_hours := 1; o_weight := 1 # 3 |};
      {| o_id := 0; o_text := "b"; o_hours := 1; o_weight := 1 # 3 |};
      {| o_id := 0; o_text := "c"; o_hours := 1; o_weight := 1 # 3 |} ] 9
  = inr [(0, 6)].
Proof. vm_compute. reflexivity. Qed.

End Allocation.

(** ** The assignment preserves the totals *)

Section Integrity.
Import SlotAssignment.

(** The Bloom slots of a level are as many as its row adds up to. *)
Lemma level_size_row outcomes row_level (row : dict Z Z) bloom_level :
  Forall (fun c => 0 <= snd c) row ->
  Z.of_nat (List.length
    (filter (fun s => String.eqb (BloomSlot.bloom_level s) bloom_level)
       (flat_map (expand_cell outcomes row_level) row)))
  = if String.eqb row_level bloom_level then py_sum (dict_values row) else 0.
Proof.
  induction 1 as [|[oid c] row Hc Hrow IH]; simpl.
  - now destruct (String.eqb _ _).
  - rewrite filter_app, length_app, Nat2Z.inj_add, IH, filter_repeat. simpl.
    simpl in Hc.
    destruct (String.eqb row_level bloom_level).
    + rewrite repeat_length, py_sum_cons, Z2Nat.id by exact Hc. reflexivity.
    + reflexivity.
Qed.

Lemma level_size_matrix (tos_matrix : TOSMatrix) outcomes bloom_level row :
  tos_matrix_wf tos_matrix ->
  In (bloom_level, row) tos_matrix ->
  Z.of_nat (List.length
    (filter (fun s => String.eqb (BloomSlot.bloom_level s) bloom_level)
       (expand_bloom_slots tos_matrix outcomes)))
  = py_sum (dict_values row).
Proof.
  intros [Hnd Hrows] Hin. unfold dict_wf in Hnd.
  assert (Hout : forall M' : TOSMatrix,
             Forall (fun r => row_wf (snd r)) M' ->
             ~ In bloom_level (dict_keys M') ->
             Z.of_nat (List.length
               (filter (fun s => String.eqb (BloomSlot.bloom_level s) bloom_level)
                  (expand_bloom_slots M' outcomes))) = 0).
  { induction M' as [|[L' row'] M' IHM]; simpl; intros Hw Hn; [reflexivity|].
    inversion Hw as [|? ? [_ Hrow'] Hw']; subst.
    rewrite filter_app, length_app, Nat2Z.inj_add, level_size_row by exact Hrow'.
    rewrite IHM by tauto.
    destruct (String.eqb_spec L' bloom_level) as [->|_]; [tauto|reflexivity]. }
  induction tos_matrix as [|[L' row'] M IH]; [destruct Hin|].
  inversion Hnd as [|? ? Hfresh Hnd']; subst.
  inversion Hrows as [|? ? [_ Hrow'] Hrows']; subst.
  simpl. rewrite filter_app, length_app, Nat2Z.inj_add, level_size_row
    by exact Hrow'.
  destruct Hin as [Heq|Hin].
  - inversion Heq; subst. rewrite String.eqb_refl.
    rewrite (Hout M) by assumption. lia.
  - assert (Hne : L' <> bloom_level).
    { intros ->. apply Hfresh. apply (in_map fst) in Hin. exact Hin. }
    apply String.eqb_neq in Hne. rewrite Hne. simpl. now apply IH.
Qed.

(** The type slots of an entry, when no other entry has its label. *)
Lemma type_slots_of_entry question_types_list qt :
  NoDup (map QuestionType.type question_types_list) ->
  In qt question_types_list ->
  filter (fun ts => String.eqb (TypeSlot.question_type ts) (QuestionType.type qt))
    (expand_type_slots question_types_list)
  = repeat (TypeSlot.make (QuestionType.type qt) (QuestionType.points_per_item qt))
      (Z.to_nat (QuestionType.items qt)).
Proof.
  assert (Hout : forall D' : list QuestionType.t,
             ~ In (QuestionType.type qt) (map QuestionType.type D') ->
             filter (fun ts => String.eqb (TypeSlot.question_type ts)
                                 (QuestionType.type qt))
               (expand_type_slots D') = []).
  { induction D' as [|q D' IHD]; simpl; intros Hn; [reflexivity|].
    rewrite filter_app, filter_repeat, IHD by tauto. simpl.
    destruct (String.eqb_spec (QuestionType.type q) (QuestionType.type qt));
      [tauto|reflexivity]. }
  induction question_types_list as [|q D IH]; intros Hnd Hin; [destruct Hin|].
  inversion Hnd as [|? ? Hfresh Hnd']; subst.
  simpl. rewrite filter_app, filter_repeat. simpl.
  destruct Hin as [->|Hin].
  - rewrite String.eqb_refl, Hout by exact Hfresh. now rewrite app_nil_r.
  - assert (Hne : QuestionType.type q <> QuestionType.type qt).
    { intros Heq. apply Hfresh. rewrite Heq. now apply in_map. }
    apply String.eqb_neq in Hne. rewrite Hne. simpl. now apply IH.
Qed.

(** Adding up an int is exact. *)
Lemma accumulate_int (p : Z) (n : nat) (a : Z) :
  fold_left py_add (repeat (PyInt p) n) (PyInt a) = PyInt (a + Z.of_nat n * p).
Proof.
  revert a. induction n as [|n IH]; intros a.
  - simpl. f_equal. lia.
  - cbn [repeat fold_left py_add]. rewrite IH. f_equal. lia.
Qed.

Lemma points_exact_int (qt : QuestionType.t) (p : Z) :
  QuestionType.points_per_item qt = PyInt p ->
  0 <= QuestionType.items qt ->
  points_exact qt = true.
Proof.
  intros Hp Hi. unfold points_exact, accumulated_points. rewrite Hp.
  rewrite accumulate_int. simpl. rewrite Z2Nat.id by exact Hi.
  apply Z.eqb_refl.
Qed.

(** Halves add up exactly as well, as long as the sum stays small. *)
Lemma points_exact_half :
  points_exact (QuestionType.make "Identification" 9 (PyFloat 2.5) "qt-1") = true.
Proof. vm_compute. reflexivity. Qed.

(** Tenths do not: ten times 0.1 is 1.0, and 0.1 added up ten times is less. *)
Lemma points_exact_tenth :
  points_exact
    (QuestionType.make "MCQ" 10 (PyFloat 0x1.999999999999ap-4) "qt-1") = false.
Proof. vm_compute. reflexivity. Qed.

End Integrity.

Section IntegrityTheorem.
Import SlotAssignment.

Lemma filter_type_slot_of slots type :
  map type_slot_of
    (filter (fun s => String.eqb (AssignedSlot.question_type s) type) slots)
  = filter (fun ts => String.eqb (TypeSlot.question_type ts) type)
      (map type_slot_of slots).
Proof.
  induction slots as [|s slots IH]; simpl; [reflexivity|].
  destruct (String.eqb (AssignedSlot.question_type s) type); simpl;
    now rewrite IH.
Qed.

(** The verifier accepts every pairing of the Bloom slots of a matrix, in
    order, with a rearrangement of the type slots of a distribution, the
    objects being distinct. *)
Lemma verify_accepts_pairing (tos_matrix : TOSMatrix) outcomes
    question_types_list picked n0 :
  tos_matrix_wf tos_matrix ->
  NoDup (map QuestionType.type question_types_list) ->
  Forall (fun qt => 0 <= QuestionType.items qt) question_types_list ->
  Forall (fun qt => points_exact qt = true) question_types_list ->
  List.length picked = List.length (expand_bloom_slots tos_matrix outcomes) ->
  Permutation (expand_type_slots question_types_list) picked ->
  verify_assignment_integrity
    (fuse n0 (expand_bloom_slots tos_matrix outcomes) picked)
    tos_matrix question_types_list
  = (true, []).
Proof.
  intros Hwf Hnd Hpos Hexact Hlen Hperm.
  set (bloom_slots := expand_bloom_slots tos_matrix outcomes) in *.
  set (slots := fuse n0 bloom_slots picked).
  assert (Hb : map bloom_slot_of slots = bloom_slots)
    by (apply fuse_bloom; exact Hlen).
  assert (Ht : map type_slot_of slots = picked)
    by (apply fuse_types; exact Hlen).
  assert (Hi : map AssignedSlot.object_id slots
               = seq n0 (List.length bloom_slots))
    by (apply fuse_object_ids; exact Hlen).
  rewrite verify_unfold. cbv zeta.
  assert (E1 : flat_map (fun r : string * dict Z Z =>
                  if negb (py_sum (dict_values (snd r))
                           =? count_key AssignedSlot.bloom_level slots (fst r))
                  then [BloomCountMismatch (fst r) (py_sum (dict_values (snd r)))
                          (count_key AssignedSlot.bloom_level slots (fst r))]
                  else []) tos_matrix = []).
  { apply flat_map_nil_iff. intros [L row] Hin. simpl.
    assert (Hc : count_key AssignedSlot.bloom_level slots L
                 = py_sum (dict_values row)).
    { rewrite <- (@level_size_matrix tos_matrix outcomes L row Hwf Hin).
      fold bloom_slots. rewrite <- Hb. unfold count_key.
      now rewrite filter_map_length. }
    now rewrite Hc, Z.eqb_refl. }
  assert (Hfilter : forall qt, In qt question_types_list ->
             map type_slot_of
               (filter (fun s => String.eqb (AssignedSlot.question_type s)
                                   (QuestionType.type qt)) slots)
             = repeat (TypeSlot.make (QuestionType.type qt)
                         (QuestionType.points_per_item qt))
                 (Z.to_nat (QuestionType.items qt))).
  { intros qt Hin.
    rewrite filter_type_slot_of, Ht. apply Permutation_repeat.
    rewrite <- (@type_slots_of_entry question_types_list qt Hnd Hin).
    apply Permutation_filter. now symmetry. }
  assert (E2 : flat_map (fun qt =>
           (if negb (QuestionType.items qt
                     =? count_key AssignedSlot.question_type slots
                          (QuestionType.type qt))
            then [TypeCountMismatch (QuestionType.type qt)
                    (QuestionType.items qt)
                    (count_key AssignedSlot.question_type slots
                       (QuestionType.type qt))]
            else [])
           ++
           (if negb (py_eqb
                       (py_mul (PyInt (QuestionType.items qt))
                          (QuestionType.points_per_item qt))
                       (type_points slots (QuestionType.type qt)))
            then [TypePointsMismatch (QuestionType.type qt)
                    (py_mul (PyInt (QuestionType.items qt))
                       (QuestionType.points_per_item qt))
                    (type_points slots (QuestionType.type qt))]
            else [])) question_types_list = []).
  { apply flat_map_nil_iff. intros qt Hin.
    rewrite Forall_forall in Hpos, Hexact.
    specialize (Hfilter qt Hin).
    assert (Hc : count_key AssignedSlot.question_type slots (QuestionType.type qt)
                 = QuestionType.items qt).
    { unfold count_key.
      rewrite <- (length_map type_slot_of), Hfilter, repeat_length.
      apply Z2Nat.id. now apply Hpos. }
    assert (Hp : type_points slots (QuestionType.type qt)
                 = accumulated_points qt).
    { unfold type_points, accumulated_points. f_equal.
      replace AssignedSlot.points
        with (fun s => TypeSlot.points_per_item (type_slot_of s))
        by reflexivity.
      rewrite <- (map_map type_slot_of TypeSlot.points_per_item), Hfilter.
      now rewrite map_repeat. }
    rewrite Hc, Z.eqb_refl, Hp.
    specialize (Hexact qt Hin). unfold points_exact in Hexact.
    now rewrite Hexact. }
  assert (E3 : duplicate_errors slots = []).
  { unfold duplicate_errors. cbv zeta. rewrite Hi.
    rewrite nodup_fixed_point by apply seq_NoDup.
    rewrite length_seq. unfold slots. rewrite fuse_length by exact Hlen.
    now rewrite Nat.eqb_refl. }
  rewrite E1, E2, E3. reflexivity.
Qed.

(** C1, as the code has it. For a TOS matrix and a distribution that has an
    entry, with pairwise distinct labels, positive item counts and point
    values that add up exactly (every int does), and with the same total on
    both sides: the call without shuffle returns, and the verifier accepts
    its list with no error. The list pairs the Bloom slots, in expansion
    order, with a rearrangement of the type slots: none is left and none is
    used twice; every match is a preferred or a fallback match. *)
Theorem assign_preserves_totals :
  forall (tos_matrix : TOSMatrix) (outcomes : list Outcome)
         (question_types_list : list QuestionType.t) (rng : nat -> nat),
    tos_matrix_wf tos_matrix ->
    question_types_list <> [] ->
    NoDup (map QuestionType.type question_types_list) ->
    Forall (fun qt => 0 < QuestionType.items qt) question_types_list ->
    Forall (fun qt => points_exact qt = true) question_types_list ->
    matrix_total tos_matrix = distribution_total question_types_list ->
    exists assigned metadata,
      assign_question_types_to_bloom_slots tos_matrix outcomes
        question_types_list false rng = inr (assigned, metadata)
      /\ verify_assignment_integrity assigned tos_matrix question_types_list
         = (true, [])
      /\ map bloom_slot_of assigned = expand_bloom_slots tos_matrix outcomes
      /\ Permutation (map type_slot_of assigned)
           (expand_type_slots question_types_list)
      /\ total_slots metadata = matrix_total tos_matrix
      /\ md_preferred_matches metadata + md_fallback_matches metadata
         = total_slots metadata
      /\ all_types_used (integrity_check metadata) = true
      /\ valid (integrity_check metadata) = true.
Proof.
  intros M outcomes D rng Hwf HD Hnd Hpos Hexact Htotal.
  assert (Hpos' : Forall (fun qt => 0 <= QuestionType.items qt) D).
  { eapply Forall_impl; [|exact Hpos]. simpl. intros qt Hq. lia. }
  pose proof (@expand_bloom_slots_length M outcomes (proj2 Hwf)) as Hlb.
  pose proof (@expand_type_slots_length D Hpos') as Hlt.
  assert (Hlen : List.length (expand_bloom_slots M outcomes)
                 = List.length (expand_type_slots D)).
  { apply Nat2Z.inj. now rewrite Hlb, Hlt. }
  assert (Hgt : 0 < distribution_total D).
  { destruct D as [|q D']; [congruence|].
    unfold distribution_total. simpl map. rewrite py_sum_cons.
    inversion Hpos as [|? ? Hq Hrest]; subst.
    assert (Hge : 0 <= py_sum (map QuestionType.items D')).
    { clear -Hrest. induction Hrest as [|x l Hx _ IH]; [reflexivity|].
      simpl map. rewrite py_sum_cons. lia. }
    lia. }
  destruct (@assign_loop_balanced _ _ Hlen)
    as (st & picked & Hloop & Hpl & Hperm & Havail & Hassigned & Hcount).
  unfold assign_question_types_to_bloom_slots.
  rewrite <- Hlen, Z.eqb_refl. cbn [negb]. rewrite Hloop. cbn [Py.bind].
  assert (Hla : Z.of_nat (List.length (assigned st)) = matrix_total M).
  { rewrite Hassigned, fuse_length by exact Hpl. exact Hlb. }
  rewrite Hla. unfold py_truediv_int.
  destruct (Z.eqb_spec (matrix_total M) 0) as [Hz|_]; [lia|].
  cbn [Py.bind Py.ret].
  eexists _, _. split; [reflexivity|].
  split.
  { rewrite Hassigned. now apply verify_accepts_pairing. }
  split; [rewrite Hassigned; now apply fuse_bloom|].
  split; [rewrite Hassigned, fuse_types by exact Hpl; now symmetry|].
  cbn [total_slots md_preferred_matches md_fallback_matches integrity_check
       all_types_used valid].
  split; [reflexivity|]. split; [rewrite Hcount; exact Hlb|].
  split; [now rewrite Havail|].
  rewrite Hlb, Z.eqb_refl. reflexivity.
Qed.

Lemma sample_types_positive :
  Forall (fun qt => 0 < QuestionType.items qt) sample_types.
Proof. repeat constructor. Qed.

Lemma assign_preserves_totals_witness :
  tos_matrix_wf sample_matrix
  /\ sample_types <> []
  /\ NoDup (map QuestionType.type sample_types)
  /\ Forall (fun qt => 0 < QuestionType.items qt) sample_types
  /\ Forall (fun qt => points_exact qt = true) sample_types
  /\ matrix_total sample_matrix = distribution_total sample_types
  /\ exists assigned metadata,
       assign_question_types_to_bloom_slots sample_matrix sample_outcomes
         sample_types false no_draws = inr (assigned, metadata)
       /\ verify_assignment_integrity assigned sample_matrix sample_types
          = (true, []).
Proof.
  assert (H1 : sample_types <> []) by discriminate.
  assert (H2 : NoDup (map QuestionType.type sample_types))
    by (repeat constructor; simpl; intuition discriminate).
  assert (H3 : Forall (fun qt => points_exact qt = true) sample_types)
    by (repeat constructor).
  assert (H4 : matrix_total sample_matrix = distribution_total sample_types)
    by reflexivity.
  split; [exact sample_matrix_wf|]. split; [exact H1|]. split; [exact H2|].
  split; [exact sample_types_positive|]. split; [exact H3|].
  split; [exact H4|].
  destruct (@assign_preserves_totals sample_matrix sample_outcomes sample_types
              no_draws sample_matrix_wf H1 H2 sample_types_positive H3 H4)
    as (assigned & metadata & Hr & Hv & _).
  exists assigned, metadata. split; [exact Hr|exact Hv].
Defined.

(** Two inputs on which the property fails without the two provisos.
    The empty matrix with the empty distribution meets every condition of the
    sentence of the specification (no label twice, no count that is not
    positive, the totals agree), and the call raises. Ten items at 0.1 point
    each meet them as well: the call returns and the verifier rejects its
    list, 1.0 expected against 0.9999999999999999 accumulated. *)
Lemma assign_preserves_totals_fails :
  (tos_matrix_wf []
   /\ NoDup (map QuestionType.type [])
   /\ Forall (fun qt => 0 < QuestionType.items qt) []
   /\ matrix_total [] = distribution_total []
   /\ assign_question_types_to_bloom_slots [] sample_outcomes [] false no_draws
      = inl (Py.ZeroDivisionError "division by zero")
   /\ ~ exists assigned metadata,
          assign_question_types_to_bloom_slots [] sample_outcomes [] false
            no_draws = inr (assigned, metadata)
          /\ verify_assignment_integrity assigned [] [] = (true, []))
  /\ (tos_matrix_wf tenth_matrix
      /\ NoDup (map QuestionType.type tenth_types)
      /\ Forall (fun qt => 0 < QuestionType.items qt) tenth_types
      /\ matrix_total tenth_matrix = distribution_total tenth_types
      /\ (exists assigned metadata,
            assign_question_types_to_bloom_slots tenth_matrix sample_outcomes
              tenth_types false no_draws = inr (assigned, metadata)
            /\ verify_assignment_integrity assigned tenth_matrix tenth_types
               = (false,
                  [TypePointsMismatch "MCQ" (PyFloat 1)
                     (PyFloat 0x1.fffffffffffffp-1)]))
      /\ ~ exists assigned metadata,
             assign_question_types_to_bloom_slots tenth_matrix sample_outcomes
               tenth_types false no_draws = inr (assigned, metadata)
             /\ verify_assignment_integrity assigned tenth_matrix tenth_types
                = (true, [])).
Proof.
  split.
  - split; [split; constructor|]. split; [constructor|]. split; [constructor|].
    split; [reflexivity|]. split; [reflexivity|].
    intros (assigned & metadata & Hr & _). discriminate Hr.
  - split.
    { split; [repeat constructor; simpl; tauto|].
      repeat constructor; simpl; intuition (discriminate || lia). }
    split; [repeat constructor; simpl; tauto|].
    split; [repeat constructor|]. split; [reflexivity|]. split.
    + eexists _, _. split; [vm_compute; reflexivity|].
      vm_compute. reflexivity.
    + intros (assigned & metadata & Hr & Hv).
      vm_compute in Hr. injection Hr as <- <-.
      vm_compute in Hv. discriminate Hv.
Qed.

End IntegrityTheorem.

(** * Further properties *)

(** ** Expansion of the question types *)

Section MoreExpansion.
Import SlotAssignment.

(** Every type slot comes from an entry with a positive count and carries
    its label and its points. *)
Lemma expand_type_slots_origin question_types_list ts :
  In ts (expand_type_slots question_types_list) ->
  exists qt,
    In qt question_types_list
    /\ 0 < QuestionType.items qt
    /\ ts = TypeSlot.make (QuestionType.type qt)
              (QuestionType.points_per_item qt).
Proof.
  unfold expand_type_slots. rewrite in_flat_map.
  intros (qt & Hin & Hrep). exists qt. split; [exact Hin|].
  destruct (Z.to_nat (QuestionType.items qt)) as [|n] eqn:Hn;
    [destruct Hrep|].
  split; [lia|]. apply repeat_spec in Hrep. exact Hrep.
Qed.

(** X1. The type slots reproduce the distribution: as many slots as the item
    counts add up to; for each entry exactly [items] slots with its label,
    all with its points; and no slot that is not of an entry. *)
Theorem expand_type_slots_reproduces_distribution :
  forall question_types_list : list QuestionType.t,
    Forall (fun qt => 0 <= QuestionType.items qt) question_types_list ->
    NoDup (map QuestionType.type question_types_list) ->
    Z.of_nat (List.length (expand_type_slots question_types_list))
    = distribution_total question_types_list
    /\ (forall qt, In qt question_types_list ->
          filter (fun ts => String.eqb (TypeSlot.question_type ts)
                              (QuestionType.type qt))
            (expand_type_slots question_types_list)
          = repeat (TypeSlot.make (QuestionType.type qt)
                      (QuestionType.points_per_item qt))
              (Z.to_nat (QuestionType.items qt)))
    /\ (forall ts, In ts (expand_type_slots question_types_list) ->
          exists qt,
            In qt question_types_list
            /\ 0 < QuestionType.items qt
            /\ ts = TypeSlot.make (QuestionType.type qt)
                      (QuestionType.points_per_item qt)).
Proof.
  intros D Hpos Hnd. split; [now apply expand_type_slots_length|].
  split.
  - intros qt Hin. now apply type_slots_of_entry.
  - intros ts. apply expand_type_slots_origin.
Qed.

Lemma sample_types_nodup : NoDup (map QuestionType.type sample_types).
Proof. repeat constructor; simpl; intuition discriminate. Qed.

Lemma expand_type_slots_reproduces_distribution_witness :
  Forall (fun qt => 0 <= QuestionType.items qt) sample_types
  /\ NoDup (map QuestionType.type sample_types)
  /\ Z.of_nat (List.length (expand_type_slots sample_types)) = 20.
Proof.
  assert (Hpos : Forall (fun qt => 0 <= QuestionType.items qt) sample_types)
    by (repeat constructor; simpl; lia).
  split; [exact Hpos|]. split; [exact sample_types_nodup|].
  exact (proj1 (@expand_type_slots_reproduces_distribution sample_types Hpos
                  sample_types_nodup)).
Defined.

End MoreExpansion.

(** ** The assignment: when it returns and what it returns *)

Section MoreAssign.
Import SlotAssignment.

(** The counters only grow. *)
Lemma assign_step_counters st bloom_slot st' :
  assign_step st bloom_slot = inr st' ->
  preferred_matches st <= preferred_matches st'
  /\ fallback_matches st <= fallback_matches st'.
Proof.
  unfold assign_step.
  destruct (find_preferred _ _) as [[idx ts]|].
  - intros H. inversion H; subst. simpl. lia.
  - destruct (available_types st); [discriminate|].
    intros H. inversion H; subst. simpl. lia.
Qed.

Lemma assign_loop_counters bloom_slots :
  forall st st',
    assign_loop bloom_slots st = inr st' ->
    preferred_matches st <= preferred_matches st'
    /\ fallback_matches st <= fallback_matches st'.
Proof.
  induction bloom_slots as [|b bs IH]; intros st st'; simpl.
  - intros H. inversion H; subst. lia.
  - destruct (assign_step st b) as [e|st1] eqn:Hs; simpl; [discriminate|].
    intros Hl. apply assign_step_counters in Hs. apply IH in Hl. lia.
Qed.

(** What a returned result is made of. *)
Lemma assign_inr_inv (tos_matrix : TOSMatrix) outcomes question_types_list
    shuffle rng slots metadata :
  assign_question_types_to_bloom_slots tos_matrix outcomes
    question_types_list shuffle rng = inr (slots, metadata) ->
  exists picked,
    List.length picked = List.length (expand_bloom_slots tos_matrix outcomes)
    /\ Permutation (expand_type_slots question_types_list) picked
    /\ Permutation slots
         (fuse 0 (expand_bloom_slots tos_matrix outcomes) picked)
    /\ (shuffle = false ->
        slots = fuse 0 (expand_bloom_slots tos_matrix outcomes) picked)
    /\ List.length slots <> 0%nat
    /\ total_slots metadata = Z.of_nat (List.length slots)
    /\ md_preferred_matches metadata + md_fallback_matches metadata
       = Z.of_nat (List.length slots)
    /\ 0 <= md_preferred_matches metadata
    /\ 0 <= md_fallback_matches metadata
    /\ all_types_used (integrity_check metadata) = true
    /\ valid (integrity_check metadata) = true.
Proof.
  unfold assign_question_types_to_bloom_slots.
  destruct (Z.eqb_spec
              (Z.of_nat (List.length (expand_bloom_slots tos_matrix outcomes)))
              (Z.of_nat (List.length (expand_type_slots question_types_list))))
    as [Heq|Hne]; cbn [negb]; [|discriminate].
  assert (Hlen : List.length (expand_bloom_slots tos_matrix outcomes)
                 = List.length (expand_type_slots question_types_list))
    by lia.
  destruct (assign_loop_balanced _ _ Hlen)
    as (st & picked & Hloop & Hpl & Hperm & Havail & Hassigned & Hcount).
  pose proof (assign_loop_counters _ _ Hloop) as [Hpm Hfm]. simpl in Hpm, Hfm.
  rewrite Hloop. cbn [Py.bind].
  set (result := if shuffle then random_shuffle rng (assigned st)
                 else assigned st).
  assert (Hres : Permutation result (assigned st)).
  { subst result.
    destruct shuffle; [apply random_shuffle_permutation|reflexivity]. }
  assert (Hla : List.length result
                = List.length (expand_bloom_slots tos_matrix outcomes)).
  { rewrite (Permutation_length Hres), Hassigned. now apply fuse_length. }
  unfold py_truediv_int.
  destruct (Z.eqb_spec (Z.of_nat (List.length result)) 0) as [Hz|Hnz];
    cbn [Py.bind Py.ret Py.raise]; [discriminate|].
  intros Hr. injection Hr as <- <-.
  cbn [total_slots md_preferred_matches md_fallback_matches integrity_check
       all_types_used valid].
  exists picked.
  split; [exact Hpl|]. split; [exact Hperm|].
  split; [now rewrite <- Hassigned|].
  split; [intros ->; subst result; exact Hassigned|].
  split; [lia|]. split; [reflexivity|].
  split; [rewrite Hcount, Hla; reflexivity|].
  split; [exact Hpm|]. split; [exact Hfm|].
  split; [now rewrite Havail|].
  rewrite ?andb_true_l. apply Z.eqb_eq. lia.
Qed.

(** Two expansions of the same length other than 0 make the call return. *)
Lemma assign_balanced_returns (tos_matrix : TOSMatrix) outcomes
    question_types_list shuffle rng :
  List.length (expand_bloom_slots tos_matrix outcomes)
  = List.length (expand_type_slots question_types_list) ->
  List.length (expand_bloom_slots tos_matrix outcomes) <> 0%nat ->
  exists slots metadata,
    assign_question_types_to_bloom_slots tos_matrix outcomes
      question_types_list shuffle rng = inr (slots, metadata).
Proof.
  intros Hlen Hnz.
  unfold assign_question_types_to_bloom_slots.
  rewrite <- Hlen, Z.eqb_refl. cbn [negb].
  destruct (assign_loop_balanced _ _ Hlen)
    as (st & picked & Hloop & Hpl & _ & _ & Hassigned & _).
  rewrite Hloop. cbn [Py.bind].
  assert (Hla : List.length (if shuffle
                             then random_shuffle rng (assigned st)
                             else assigned st)
                = List.length (expand_bloom_slots tos_matrix outcomes)).
  { destruct shuffle; [rewrite random_shuffle_length|];
      rewrite Hassigned; now apply fuse_length. }
  rewrite Hla. unfold py_truediv_int.
  destruct (Z.eqb_spec
              (Z.of_nat (List.length (expand_bloom_slots tos_matrix outcomes)))
              0) as [Hz|_]; [lia|].
  cbn [Py.bind Py.ret]. eexists _, _. reflexivity.
Qed.

(** X2. The call returns exactly when the two expansions have the same length
    and that length is not 0. *)
Theorem assign_returns_iff :
  forall (tos_matrix : TOSMatrix) (outcomes : list Outcome)
         (question_types_list : list QuestionType.t)
         (shuffle : bool) (rng : nat -> nat),
    Py.returns (assign_question_types_to_bloom_slots tos_matrix outcomes
                  question_types_list shuffle rng) = true
    <-> List.length (expand_bloom_slots tos_matrix outcomes)
        = List.length (expand_type_slots question_types_list)
        /\ List.length (expand_bloom_slots tos_matrix outcomes) <> 0%nat.
Proof.
  intros M outcomes D shuffle rng. split.
  - destruct (assign_question_types_to_bloom_slots M outcomes D shuffle rng)
      as [e|[slots metadata]] eqn:Hr; [discriminate|]. intros _.
    destruct (assign_inr_inv _ _ _ _ _ Hr)
      as (picked & Hpl & Hperm & Hslots & _ & Hnz & _).
    assert (Hls : List.length slots
                  = List.length (expand_bloom_slots M outcomes))
      by (rewrite (Permutation_length Hslots); now apply fuse_length).
    split; [|congruence].
    rewrite (Permutation_length Hperm). congruence.
  - intros [Hlen Hnz].
    destruct (assign_balanced_returns M outcomes D shuffle rng Hlen Hnz)
      as (slots & metadata & ->). reflexivity.
Qed.

(** X3. Whatever the call returns pairs every Bloom slot with a type slot of its
    own: the Bloom sides of the list are the Bloom slots (in expansion order
    without the shuffle), the type sides are a rearrangement of the type
    slots, and the objects are distinct. The metadata counts the slots, the
    two kinds of match add up to that count, and the integrity flags hold. *)
Theorem assign_result_covers_both_axes :
  forall (tos_matrix : TOSMatrix) (outcomes : list Outcome)
         (question_types_list : list QuestionType.t)
         (shuffle : bool) (rng : nat -> nat)
         (slots : list AssignedSlot.t) (metadata : Metadata),
    assign_question_types_to_bloom_slots tos_matrix outcomes
      question_types_list shuffle rng = inr (slots, metadata) ->
    Permutation (map bloom_slot_of slots)
      (expand_bloom_slots tos_matrix outcomes)
    /\ (shuffle = false ->
        map bloom_slot_of slots = expand_bloom_slots tos_matrix outcomes)
    /\ Permutation (map type_slot_of slots)
         (expand_type_slots question_types_list)
    /\ NoDup (map AssignedSlot.object_id slots)
    /\ total_slots metadata = Z.of_nat (List.length slots)
    /\ Z.of_nat (List.length slots)
       = Z.of_nat (List.length (expand_bloom_slots tos_matrix outcomes))
    /\ Z.of_nat (List.length slots)
       = Z.of_nat (List.length (expand_type_slots question_types_list))
    /\ md_preferred_matches metadata + md_fallback_matches metadata
       = total_slots metadata
    /\ 0 <= md_preferred_matches metadata
    /\ 0 <= md_fallback_matches metadata
    /\ all_types_used (integrity_check metadata) = true
    /\ valid (integrity_check metadata) = true.
Proof.
  intros M outcomes D shuffle rng slots metadata Hr.
  destruct (assign_inr_inv _ _ _ _ _ Hr)
    as (picked & Hpl & Hperm & Hslots & Hplain & Hnz & Htotal & Hcount
        & Hpm & Hfm & Hused & Hvalid).
  assert (Hls : List.length slots
                = List.length (expand_bloom_slots M outcomes))
    by (rewrite (Permutation_length Hslots); now apply fuse_length).
  split.
  { rewrite (Permutation_map bloom_slot_of Hslots). now rewrite fuse_bloom. }
  split.
  { intros Hs. rewrite (Hplain Hs). now apply fuse_bloom. }
  split.
  { rewrite (Permutation_map type_slot_of Hslots), fuse_types by exact Hpl.
    now symmetry. }
  split.
  { apply (Permutation_NoDup
             (l := map AssignedSlot.object_id
                     (fuse 0 (expand_bloom_slots M outcomes) picked))).
    - apply Permutation_map. now symmetry.
    - rewrite fuse_object_ids by exact Hpl. apply seq_NoDup. }
  split; [exact Htotal|]. split; [now rewrite Hls|].
  split; [rewrite Hls, <- Hpl; now rewrite (Permutation_length Hperm)|].
  split; [now rewrite Htotal|].
  auto.
Qed.

Lemma assign_result_covers_both_axes_witness :
  exists slots metadata,
    assign_question_types_to_bloom_slots sample_matrix sample_outcomes
      sample_types true (fun k => (7 * k + 3)%nat) = inr (slots, metadata)
    /\ Permutation (map type_slot_of slots) (expand_type_slots sample_types)
    /\ NoDup (map AssignedSlot.object_id slots).
Proof.
  eexists _, _. split; [vm_compute; reflexivity|].
  match goal with
  | |- Permutation (map _ ?s) _ /\ _ =>
      pose proof (@assign_result_covers_both_axes sample_matrix
                    sample_outcomes sample_types true
                    (fun k => (7 * k + 3)%nat) s _
                    ltac:(vm_compute; reflexivity)) as H
  end.
  split; apply H.
Defined.

End MoreAssign.

(** ** The verifier: its verdict *)

Section MoreVerify.
Import SlotAssignment QuestionTypeService.

Lemma nodup_length_le (l : list nat) :
  (List.length (nodup Nat.eq_dec l) <= List.length l)%nat.
Proof.
  induction l as [|a l IH]; simpl; [lia|].
  destruct (in_dec Nat.eq_dec a l); simpl; lia.
Qed.

(** [len(set(l)) == len(l)] says that no element occurs twice. *)
Lemma nodup_length_eq_iff (l : list nat) :
  List.length (nodup Nat.eq_dec l) = List.length l <-> NoDup l.
Proof.
  split.
  - induction l as [|a l IH]; simpl; [constructor|].
    destruct (in_dec Nat.eq_dec a l) as [Hin|Hnin]; simpl; intros Hl.
    + pose proof (nodup_length_le l). lia.
    + constructor; [exact Hnin|]. apply IH. lia.
  - intros Hnd. now rewrite nodup_fixed_point.
Qed.

Lemma nodup_length_permutation (l l' : list nat) :
  Permutation l l' ->
  List.length (nodup Nat.eq_dec l) = List.length (nodup Nat.eq_dec l').
Proof.
  intros Hp. apply Permutation_length.
  apply NoDup_Permutation; try apply NoDup_nodup.
  intros x. rewrite !nodup_In. split; apply Permutation_in;
    [exact Hp|now symmetry].
Qed.

Lemma duplicate_errors_nil_iff slots :
  duplicate_errors slots = [] <-> NoDup (map AssignedSlot.object_id slots).
Proof.
  unfold duplicate_errors. cbv zeta.
  rewrite <- nodup_length_eq_iff, length_map.
  destruct (Nat.eqb_spec (List.length slots)
              (List.length (nodup Nat.eq_dec
                              (map AssignedSlot.object_id slots))))
    as [He|Hne]; simpl; split; intros H; congruence.
Qed.

Lemma count_key_permutation key slots slots' k :
  Permutation slots slots' -> count_key key slots k = count_key key slots' k.
Proof.
  intros Hp. unfold count_key. f_equal. apply Permutation_length.
  now apply Permutation_filter.
Qed.

(** Ints add up to the same int in any order. *)
Lemma fold_py_add_int (l : list pynum) :
  Forall (fun p => exists z, p = PyInt z) l ->
  forall a : Z, exists z, fold_left py_add l (PyInt a) = PyInt z.
Proof.
  induction 1 as [|p l [z ->] _ IH]; intros a; simpl; [now exists a|].
  apply IH.
Qed.

Lemma fold_py_add_int_permutation (l l' : list pynum) :
  Permutation l l' ->
  Forall (fun p => exists z, p = PyInt z) l ->
  forall a : Z, fold_left py_add l (PyInt a) = fold_left py_add l' (PyInt a).
Proof.
  induction 1 as [|x l l' Hp IH|x y l|l l' l'' Hp1 IH1 Hp2 IH2];
    intros Hint a.
  - reflexivity.
  - inversion Hint as [|? ? [z ->] Hl]; subst. simpl. now apply IH.
  - inversion Hint as [|? ? [zy ->] Hl]; subst.
    inversion Hl as [|? ? [zx ->] Hl']; subst.
    simpl. do 2 f_equal. lia.
  - rewrite IH1 by exact Hint. apply IH2.
    rewrite Forall_forall in *. intros p Hin. apply Hint.
    apply (Permutation_in p (Permutation_sym Hp1) Hin).
Qed.

Lemma type_points_permutation slots slots' type :
  Permutation slots slots' ->
  Forall (fun s => exists z, AssignedSlot.points s = PyInt z) slots ->
  type_points slots type = type_points slots' type.
Proof.
  intros Hp Hint. unfold type_points.
  apply fold_py_add_int_permutation.
  - apply Permutation_map. now apply Permutation_filter.
  - apply Forall_forall. intros p Hin. apply in_map_iff in Hin.
    destruct Hin as (s & <- & Hs). apply filter_In in Hs.
    rewrite Forall_forall in Hint. apply Hint. tauto.
Qed.

(** The verifier accepts every list that holds the Bloom slots of the
    matrix and the type slots of the distribution, each once, in distinct
    objects. *)
Lemma verify_accepts_rearranged (tos_matrix : TOSMatrix) outcomes
    question_types_list slots :
  tos_matrix_wf tos_matrix ->
  NoDup (map QuestionType.type question_types_list) ->
  Forall (fun qt => 0 <= QuestionType.items qt) question_types_list ->
  Forall (fun qt => points_exact qt = true) question_types_list ->
  Permutation (map bloom_slot_of slots)
    (expand_bloom_slots tos_matrix outcomes) ->
  Permutation (map type_slot_of slots)
    (expand_type_slots question_types_list) ->
  NoDup (map AssignedSlot.object_id slots) ->
  verify_assignment_integrity slots tos_matrix question_types_list
  = (true, []).
Proof.
  intros Hwf Hnd Hpos Hexact Hb Ht Hids.
  rewrite verify_unfold. cbv zeta.
  match goal with
  | |- (_, ?e1 ++ ?e2 ++ ?e3) = _ =>
      assert (E1 : e1 = []); [|assert (E2 : e2 = []);
        [|assert (E3 : e3 = []); [|rewrite E1, E2, E3; reflexivity]]]
  end.
  - apply flat_map_nil_iff. intros [L row] Hin. simpl.
    assert (Hc : count_key AssignedSlot.bloom_level slots L
                 = py_sum (dict_values row)).
    { rewrite <- (@level_size_matrix tos_matrix outcomes L row Hwf Hin).
      unfold count_key. f_equal.
      rewrite <- (filter_map_length bloom_slot_of
                    (fun s => String.eqb (BloomSlot.bloom_level s) L)).
      apply Permutation_length. now apply Permutation_filter. }
    now rewrite Hc, Z.eqb_refl.
  - apply flat_map_nil_iff. intros qt Hin.
    rewrite Forall_forall in Hpos, Hexact.
    assert (Hfilter :
             map type_slot_of
               (filter (fun s => String.eqb (AssignedSlot.question_type s)
                                   (QuestionType.type qt)) slots)
             = repeat (TypeSlot.make (QuestionType.type qt)
                         (QuestionType.points_per_item qt))
                 (Z.to_nat (QuestionType.items qt))).
    { rewrite filter_type_slot_of. apply Permutation_repeat.
      rewrite <- (@type_slots_of_entry question_types_list qt Hnd Hin).
      apply Permutation_filter. now symmetry. }
    assert (Hc : count_key AssignedSlot.question_type slots (QuestionType.type qt)
                 = QuestionType.items qt).
    { unfold count_key.
      rewrite <- (length_map type_slot_of), Hfilter, repeat_length.
      apply Z2Nat.id. now apply Hpos. }
    assert (Hp : type_points slots (QuestionType.type qt)
                 = accumulated_points qt).
    { unfold type_points, accumulated_points. f_equal.
      replace AssignedSlot.points
        with (fun s => TypeSlot.points_per_item (type_slot_of s))
        by reflexivity.
      rewrite <- (map_map type_slot_of TypeSlot.points_per_item), Hfilter.
      now rewrite map_repeat. }
    rewrite Hc, Z.eqb_refl, Hp.
    specialize (Hexact qt Hin). unfold points_exact in Hexact.
    now rewrite Hexact.
  - now apply duplicate_errors_nil_iff.
Qed.

(** What an accepted distribution is. *)
Lemma validate_accepts_inv question_types total_test_items :
  validate_question_type_distribution question_types total_test_items
  = (true, []) ->
  question_types <> []
  /\ distribution_total question_types = total_test_items
  /\ Forall (fun qt => 0 < QuestionType.items qt) question_types
  /\ NoDup (map QuestionType.type question_types).
Proof.
  intros Hv.
  assert (HD : question_types <> []).
  { intros ->. discriminate Hv. }
  rewrite (validate_nonempty total_test_items HD) in Hv. cbv zeta in Hv.
  injection Hv as _ Herr.
  apply app_eq_nil in Herr. destruct Herr as [H1 Herr].
  apply app_eq_nil in Herr. destruct Herr as [H2 H3].
  split; [exact HD|]. split; [|split].
  - destruct (Z.eqb_spec (distribution_total question_types) total_test_items);
      [assumption|discriminate H1].
  - apply Forall_forall. intros qt Hin.
    apply (proj1 (flat_map_nil_iff _ _) H2) in Hin.
    now apply positive_errors_nil_iff in Hin.
  - apply duplicates_nil_iff.
    destruct (filter _ (map QuestionType.type question_types));
      [reflexivity|discriminate H3].
Qed.

Lemma distribution_total_positive question_types :
  question_types <> [] ->
  Forall (fun qt => 0 < QuestionType.items qt) question_types ->
  0 < distribution_total question_types.
Proof.
  intros HD Hpos. destruct question_types as [|q D']; [congruence|].
  unfold distribution_total. simpl map. rewrite py_sum_cons.
  inversion Hpos as [|? ? Hq Hrest]; subst.
  assert (Hge : 0 <= py_sum (map QuestionType.items D')).
  { clear -Hrest. induction Hrest as [|x l Hx _ IH]; [reflexivity|].
    simpl map. rewrite py_sum_cons. lia. }
  lia.
Qed.

End MoreVerify.

Section VerifyVerdict.
Import SlotAssignment QuestionTypeService.


(** X5. With points that are ints the verifier does not look at the order of
    the list: a rearranged list gets the same flag and the same errors. *)
Theorem verify_assignment_integrity_any_order :
  forall (assigned_slots rearranged : list AssignedSlot.t)
         (tos_matrix : TOSMatrix) (question_types_list : list QuestionType.t),
    Permutation assigned_slots rearranged ->
    Forall (fun s => exists z, AssignedSlot.points s = PyInt z)
      assigned_slots ->
    verify_assignment_integrity rearranged tos_matrix question_types_list
    = verify_assignment_integrity assigned_slots tos_matrix
        question_types_list.
Proof.
  intros slots slots' M D Hp Hint.
  rewrite !verify_unfold. cbv zeta.
  assert (E1 : forall r : string * dict Z Z,
             (if negb (py_sum (dict_values (snd r))
                       =? count_key AssignedSlot.bloom_level slots' (fst r))
              then [BloomCountMismatch (fst r) (py_sum (dict_values (snd r)))
                      (count_key AssignedSlot.bloom_level slots' (fst r))]
              else [])
             = (if negb (py_sum (dict_values (snd r))
                       =? count_key AssignedSlot.bloom_level slots (fst r))
              then [BloomCountMismatch (fst r) (py_sum (dict_values (snd r)))
                      (count_key AssignedSlot.bloom_level slots (fst r))]
              else [])).
  { intros r.
    now rewrite (count_key_permutation AssignedSlot.bloom_level (fst r) Hp). }
  rewrite (flat_map_ext _ _ E1).
  assert (E2 : forall qt : QuestionType.t,
           (if negb (QuestionType.items qt
                     =? count_key AssignedSlot.question_type slots'
                          (QuestionType.type qt))
            then [TypeCountMismatch (QuestionType.type qt)
                    (QuestionType.items qt)
                    (count_key AssignedSlot.question_type slots'
                       (QuestionType.type qt))]
            else [])
           ++
           (if negb (py_eqb
                       (py_mul (PyInt (QuestionType.items qt))
                          (QuestionType.points_per_item qt))
                       (type_points slots' (QuestionType.type qt)))
            then [TypePointsMismatch (QuestionType.type qt)
                    (py_mul (PyInt (QuestionType.items qt))
                       (QuestionType.points_per_item qt))
                    (type_points slots' (QuestionType.type qt))]
            else [])
           = (if negb (QuestionType.items qt
                     =? count_key AssignedSlot.question_type slots
                          (QuestionType.type qt))
            then [TypeCountMismatch (QuestionType.type qt)
                    (QuestionType.items qt)
                    (count_key AssignedSlot.question_type slots
                       (QuestionType.type qt))]
            else [])
           ++
           (if negb (py_eqb
                       (py_mul (PyInt (QuestionType.items qt))
                          (QuestionType.points_per_item qt))
                       (type_points slots (QuestionType.type qt)))
            then [TypePointsMismatch (QuestionType.type qt)
                    (py_mul (PyInt (QuestionType.items qt))
                       (QuestionType.points_per_item qt))
                    (type_points slots (QuestionType.type qt))]
            else [])).
  { intros qt.
    rewrite (count_key_permutation AssignedSlot.question_type
               (QuestionType.type qt) Hp).
    now rewrite (type_points_permutation (QuestionType.type qt) Hp Hint). }
  rewrite (flat_map_ext _ _ E2).
  assert (E3 : duplicate_errors slots' = duplicate_errors slots).
  { unfold duplicate_errors. cbv zeta.
    rewrite (Permutation_length Hp).
    rewrite (nodup_length_permutation
               (Permutation_map AssignedSlot.object_id Hp)).
    reflexivity. }
  rewrite E3. reflexivity.
Qed.

Lemma verify_assignment_integrity_any_order_witness :
  let a := AssignedSlot.make 0 1 "LO1" "Remember" "MCQ" (PyInt 1) in
  let b := AssignedSlot.make 1 2 "LO2" "Apply" "Essay" (PyInt 10) in
  verify_assignment_integrity [b; a] sample_matrix sample_types
  = verify_assignment_integrity [a; b] sample_matrix sample_types.
Proof.
  intros a b.
  apply (@verify_assignment_integrity_any_order [a; b] [b; a] sample_matrix
           sample_types).
  - apply perm_swap.
  - constructor; [exists 1; reflexivity|].
    constructor; [exists 10; reflexivity|constructor].
Defined.

(** X6. From the validator to the verifier. A distribution that the validator
    accepts for the total of a TOS matrix, with point values that add up
    exactly (every int does): the assignment returns, with or without the
    shuffle and whatever the shuffle draws, and the verifier accepts its
    list with no error. *)
Theorem validated_assignment_passes_verification :
  forall (tos_matrix : TOSMatrix) (outcomes : list Outcome)
         (question_types_list : list QuestionType.t)
         (shuffle : bool) (rng : nat -> nat),
    tos_matrix_wf tos_matrix ->
    validate_question_type_distribution question_types_list
      (matrix_total tos_matrix) = (true, []) ->
    Forall (fun qt => points_exact qt = true) question_types_list ->
    exists slots metadata,
      assign_question_types_to_bloom_slots tos_matrix outcomes
        question_types_list shuffle rng = inr (slots, metadata)
      /\ verify_assignment_integrity slots tos_matrix question_types_list
         = (true, [])
      /\ total_slots metadata = matrix_total tos_matrix.
Proof.
  intros M outcomes D shuffle rng Hwf Hv Hexact.
  destruct (validate_accepts_inv _ _ Hv) as (HD & Htotal & Hpos & Hnd).
  assert (Hpos' : Forall (fun qt => 0 <= QuestionType.items qt) D).
  { eapply Forall_impl; [|exact Hpos]. simpl. intros qt Hq. lia. }
  pose proof (@expand_bloom_slots_length M outcomes (proj2 Hwf)) as Hlb.
  pose proof (@expand_type_slots_length D Hpos') as Hlt.
  pose proof (distribution_total_positive HD Hpos) as Hgt.
  assert (Hlen : List.length (expand_bloom_slots M outcomes)
                 = List.length (expand_type_slots D)).
  { apply Nat2Z.inj. now rewrite Hlb, Hlt. }
  assert (Hnz : List.length (expand_bloom_slots M outcomes) <> 0%nat) by lia.
  destruct (assign_balanced_returns M outcomes D shuffle rng Hlen Hnz)
    as (slots & metadata & Hr).
  exists slots, metadata. split; [exact Hr|].
  destruct (assign_inr_inv _ _ _ _ _ Hr)
    as (picked & Hpl & Hperm & Hslots & _ & _ & Hts & _).
  assert (Hls : List.length slots
                = List.length (expand_bloom_slots M outcomes))
    by (rewrite (Permutation_length Hslots); now apply fuse_length).
  split; [|rewrite Hts, Hls; exact Hlb].
  apply verify_accepts_rearranged with (outcomes := outcomes);
    try assumption.
  - rewrite (Permutation_map bloom_slot_of Hslots). now rewrite fuse_bloom.
  - rewrite (Permutation_map type_slot_of Hslots), fuse_types by exact Hpl.
    now symmetry.
  - apply (Permutation_NoDup
             (l := map AssignedSlot.object_id
                     (fuse 0 (expand_bloom_slots M outcomes) picked))).
    + apply Permutation_map. now symmetry.
    + rewrite fuse_object_ids by exact Hpl. apply seq_NoDup.
Qed.

Lemma validated_assignment_passes_verification_witness :
  tos_matrix_wf sample_matrix
  /\ validate_question_type_distribution sample_types
       (matrix_total sample_matrix) = (true, [])
  /\ exists slots metadata,
       assign_question_types_to_bloom_slots sample_matrix sample_outcomes
         sample_types true (fun k => (5 * k + 2)%nat) = inr (slots, metadata)
       /\ verify_assignment_integrity slots sample_matrix sample_types
          = (true, []).
Proof.
  assert (Hv : validate_question_type_distribution sample_types
                 (matrix_total sample_matrix) = (true, []))
    by (vm_compute; reflexivity).
  assert (Hx : Forall (fun qt => points_exact qt = true) sample_types)
    by (repeat constructor).
  split; [exact sample_matrix_wf|]. split; [exact Hv|].
  destruct (@validated_assignment_passes_verification sample_matrix
              sample_outcomes sample_types true (fun k => (5 * k + 2)%nat)
              sample_matrix_wf Hv Hx) as (slots & metadata & Hr & Hok & _).
  exists slots, metadata. split; [exact Hr|exact Hok].
Defined.

End VerifyVerdict.

(** ** One iteration of the assignment loop *)

Section MoreStep.
Import SlotAssignment.

Lemma find_type_first pref_type available :
  forall (i0 i : nat) (ts : TypeSlot.t),
    nth_error available i = Some ts ->
    TypeSlot.question_type ts = pref_type ->
    (forall j t, (j < i)%nat -> nth_error available j = Some t ->
                 TypeSlot.question_type t <> pref_type) ->
    find_type pref_type available i0 = Some ((i0 + i)%nat, ts).
Proof.
  induction available as [|x l IH]; intros i0 i ts Hn Ht Hfirst.
  - destruct i; discriminate Hn.
  - simpl. destruct i as [|i].
    + simpl in Hn. injection Hn as ->. apply String.eqb_eq in Ht.
      rewrite Ht, Nat.add_0_r. reflexivity.
    + assert (Hx : TypeSlot.question_type x <> pref_type)
        by (apply (Hfirst 0%nat x); [lia|reflexivity]).
      apply String.eqb_neq in Hx. rewrite Hx.
      rewrite (IH (S i0) i ts Hn Ht).
      * f_equal. f_equal. lia.
      * intros j t Hj Hnj. apply (Hfirst (S j) t); [lia|exact Hnj].
Qed.

Lemma find_type_absent pref_type available i0 :
  (forall t, In t available -> TypeSlot.question_type t <> pref_type) ->
  find_type pref_type available i0 = None.
Proof.
  revert i0. induction available as [|x l IH]; intros i0 Hall; simpl;
    [reflexivity|].
  assert (Hx : TypeSlot.question_type x <> pref_type)
    by (apply Hall; now left).
  apply String.eqb_neq in Hx. rewrite Hx. apply IH.
  intros t Hin. apply Hall. now right.
Qed.

Lemma find_preferred_absent preferred available :
  (forall p, In p preferred ->
     forall t, In t available -> TypeSlot.question_type t <> p) ->
  find_preferred preferred available = None.
Proof.
  induction preferred as [|p ps IH]; intros Hall; simpl; [reflexivity|].
  rewrite find_type_absent by (apply Hall; now left).
  apply IH. intros q Hq. apply Hall. now right.
Qed.

Lemma find_preferred_first before pref_type after available i ts :
  (forall p, In p before ->
     forall t, In t available -> TypeSlot.question_type t <> p) ->
  nth_error available i = Some ts ->
  TypeSlot.question_type ts = pref_type ->
  (forall j t, (j < i)%nat -> nth_error available j = Some t ->
               TypeSlot.question_type t <> pref_type) ->
  find_preferred (before ++ pref_type :: after) available = Some (i, ts).
Proof.
  intros Hbefore Hn Ht Hfirst.
  induction before as [|p ps IH]; simpl.
  - now rewrite (@find_type_first pref_type available 0%nat i ts Hn Ht Hfirst).
  - rewrite find_type_absent by (apply Hbefore; now left).
    apply IH. intros q Hq. apply Hbefore. now right.
Qed.

(** X7. The choice of one iteration. Let [preferred] be the list that
    [PREFERRED_TYPES] holds for the level of the Bloom slot (empty for a
    level that is no key). If a type of [preferred] is in the pool, the
    iteration takes, for the earliest such type of [preferred], the first
    slot of the pool with that type, and counts a preferred match. If none
    is, it takes the first slot of the pool and counts a fallback match. On
    an empty pool it raises the ValueError of the logic error. *)
Theorem assign_step_greedy_choice :
  forall (st : assign_state) (bloom_slot : BloomSlot.t),
    let preferred :=
      dict_get_default PREFERRED_TYPES (BloomSlot.bloom_level bloom_slot) [] in
    let pool := available_types st in
    let fused ts :=
      assigned st
      ++ [AssignedSlot.make (List.length (assigned st))
            (BloomSlot.outcome_id bloom_slot)
            (BloomSlot.outcome_text bloom_slot)
            (BloomSlot.bloom_level bloom_slot)
            (TypeSlot.question_type ts) (TypeSlot.points_per_item ts)] in
    (forall before pref_type after i ts,
        preferred = before ++ pref_type :: after ->
        (forall p, In p before ->
           forall t, In t pool -> TypeSlot.question_type t <> p) ->
        nth_error pool i = Some ts ->
        TypeSlot.question_type ts = pref_type ->
        (forall j t, (j < i)%nat -> nth_error pool j = Some t ->
                     TypeSlot.question_type t <> pref_type) ->
        assign_step st bloom_slot
        = inr {| available_types := list_pop pool i;
                 assigned := fused ts;
                 preferred_matches := preferred_matches st + 1;
                 fallback_matches := fallback_matches st |})
    /\ (forall ts rest,
          pool = ts :: rest ->
          (forall p, In p preferred ->
             forall t, In t pool -> TypeSlot.question_type t <> p) ->
          assign_step st bloom_slot
          = inr {| available_types := rest;
                   assigned := fused ts;
                   preferred_matches := preferred_matches st;
                   fallback_matches := fallback_matches st + 1 |})
    /\ (pool = [] ->
        assign_step st bloom_slot
        = inl (Py.ValueError
                 "No available question types to assign (logic error)")).
Proof.
  intros st bloom_slot preferred pool fused. subst preferred pool fused.
  split; [|split].
  - intros before pref_type after i ts Hpref Hbefore Hn Ht Hfirst.
    unfold assign_step. cbv zeta. rewrite Hpref.
    now rewrite (@find_preferred_first before pref_type after
                   (available_types st) i ts Hbefore Hn Ht Hfirst).
  - intros ts rest Hpool Hnone.
    unfold assign_step. cbv zeta.
    rewrite (@find_preferred_absent _ _ Hnone), Hpool. reflexivity.
  - intros Hpool. unfold assign_step. cbv zeta. rewrite Hpool.
    destruct (dict_get_default PREFERRED_TYPES _ []) as [|p ps];
      [reflexivity|].
    simpl. clear. induction ps as [|q qs IH]; [reflexivity|exact IH].
Qed.

End MoreStep.

(** ** More on dictionaries *)

Section DictKeys.
Context {K V : Type} `{EqKey K}.






End DictKeys.

Section KeysOnly.
Context {K V W : Type} `{EqKey K}.



End KeysOnly.

(** ** [get_assignment_summary] *)

Section AssignmentSummary.
Import SlotAssignment QuestionTypeService.

Lemma dict_set_set {V} (d : dict string V) k v v' :
  dict_set (dict_set d k v) k v' = dict_set d k v'.
Proof.
  induction d as [|[k0 v0] d IH]; simpl.
  - now rewrite String.eqb_refl.
  - destruct (String.eqb_spec k0 k) as [->|Hne]; simpl.
    + now rewrite String.eqb_refl.
    + apply String.eqb_neq in Hne. now rewrite Hne, IH.
Qed.

(** The three statements on an entry amount to one assignment. *)
Lemma summary_add_spec d key p :
  summary_add d key p = inr (dict_set d key (stats_bump (dict_get d key) p)).
Proof.
  unfold summary_add. destruct (dict_get d key) as [stats|] eqn:Hg.
  - rewrite Hg, dict_get_set_eq, dict_set_set. reflexivity.
  - rewrite dict_get_set_eq, dict_get_set_eq, !dict_set_set. reflexivity.
Qed.

Lemma summary_loop_spec slots :
  forall summary,
    summary_loop slots summary
    = inr (Summary.make
             (tally AssignedSlot.bloom_level slots (Summary.by_bloom summary))
             (tally AssignedSlot.question_type slots (Summary.by_type summary))
             (Summary.total_items summary)
             (fold_left py_add (map AssignedSlot.points slots)
                (Summary.total_points summary))).
Proof.
  induction slots as [|s slots IH]; intros summary.
  - now destruct summary.
  - cbn [summary_loop]. unfold summary_step.
    rewrite !summary_add_spec. cbn [Py.bind Py.ret].
    rewrite IH. reflexivity.
Qed.







Lemma get_assignment_summary_unfold slots :
  get_assignment_summary slots
  = inr (Summary.make (tally AssignedSlot.bloom_level slots [])
           (tally AssignedSlot.question_type slots [])
           (Z.of_nat (List.length slots)) (slot_points_total slots)).
Proof. unfold get_assignment_summary. now rewrite summary_loop_spec. Qed.




(** The points of the type slots of a distribution with int points. *)
Lemma expand_type_slots_points question_types_list :
  int_points question_types_list ->
  Forall (fun qt => 0 <= QuestionType.items qt) question_types_list ->
  forall a : Z,
    fold_left py_add
      (map TypeSlot.points_per_item (expand_type_slots question_types_list))
      (PyInt a)
    = fold_left py_add (map QuestionType.total_points question_types_list)
        (PyInt a).
Proof.
  unfold int_points.
  induction 1 as [|qt D [p Hp] _ IH]; intros Hpos a; [reflexivity|].
  inversion Hpos as [|? ? Hq Hpos']; subst.
  unfold expand_type_slots in *. cbn [flat_map map fold_left].
  rewrite map_app, fold_left_app, map_repeat. cbn [TypeSlot.points_per_item].
  unfold QuestionType.total_points. rewrite Hp, accumulate_int.
  cbn [py_mul py_add]. rewrite Z2Nat.id by exact Hq.
  rewrite IH by exact Hpos'. reflexivity.
Qed.

Lemma expand_type_slots_int question_types_list :
  int_points question_types_list ->
  Forall (fun p => exists z, p = PyInt z)
    (map TypeSlot.points_per_item (expand_type_slots question_types_list)).
Proof.
  intros Hint. apply Forall_forall. intros p Hin.
  apply in_map_iff in Hin. destruct Hin as (ts & <- & Hts).
  apply expand_type_slots_origin in Hts.
  destruct Hts as (qt & Hqt & _ & ->). simpl.
  unfold int_points in Hint. rewrite Forall_forall in Hint.
  exact (Hint qt Hqt).
Qed.

End AssignmentSummary.

Section SummaryOfAssignment.
Import SlotAssignment QuestionTypeService.



(** X10. The totals of the distribution and the totals of the summary. For a
    distribution with int points and no negative count, the pair that
    [compute_question_type_totals] returns is the pair of [total_items] and
    [total_points] in the summary of whatever the assignment returns for
    it. *)
Theorem summary_totals_are_question_type_totals :
  forall (tos_matrix : TOSMatrix) (outcomes : list Outcome)
         (question_types_list : list QuestionType.t)
         (shuffle : bool) (rng : nat -> nat)
         (slots : list AssignedSlot.t) (metadata : Metadata),
    int_points question_types_list ->
    Forall (fun qt => 0 <= QuestionType.items qt) question_types_list ->
    assign_question_types_to_bloom_slots tos_matrix outcomes
      question_types_list shuffle rng = inr (slots, metadata) ->
    exists summary,
      get_assignment_summary slots = inr summary
      /\ compute_question_type_totals question_types_list
         = (Summary.total_items summary, Summary.total_points summary)
      /\ compute_total_points question_types_list
         = Summary.total_points summary.
Proof.
  intros M outcomes D shuffle rng slots metadata Hint Hpos Hr.
  destruct (assign_inr_inv _ _ _ _ _ Hr)
    as (picked & Hpl & Hperm & Hslots & _).
  assert (Ht : Permutation (map type_slot_of slots) (expand_type_slots D)).
  { rewrite (Permutation_map type_slot_of Hslots), fuse_types by exact Hpl.
    now symmetry. }
  eexists. split; [apply get_assignment_summary_unfold|].
  cbn [Summary.total_items Summary.total_points].
  assert (Hitems : py_sum (map QuestionType.items D)
                   = Z.of_nat (List.length slots)).
  { rewrite <- (length_map type_slot_of), (Permutation_length Ht).
    symmetry. now apply expand_type_slots_length. }
  assert (Hpoints : py_sum_num (map QuestionType.total_points D)
                    = slot_points_total slots).
  { unfold py_sum_num, slot_points_total.
    rewrite <- (expand_type_slots_points Hint Hpos).
    replace AssignedSlot.points
      with (fun s => TypeSlot.points_per_item (type_slot_of s))
      by reflexivity.
    rewrite <- (map_map type_slot_of TypeSlot.points_per_item).
    apply fold_py_add_int_permutation.
    - apply Permutation_map. now symmetry.
    - now apply expand_type_slots_int. }
  unfold compute_question_type_totals, compute_total_points. cbv zeta.
  rewrite Hitems, Hpoints. split; reflexivity.
Qed.

Lemma summary_totals_are_question_type_totals_witness :
  exists slots metadata summary,
    assign_question_types_to_bloom_slots sample_matrix sample_outcomes
      sample_types true (fun k => (3 * k + 1)%nat) = inr (slots, metadata)
    /\ get_assignment_summary slots = inr summary
    /\ (Summary.total_items summary, Summary.total_points summary)
       = (20, PyInt 28).
Proof.
  eexists _, _.
  match goal with
  | |- exists summary, ?call = inr (?s, ?m) /\ _ =>
      assert (Hr : call = inr (s, m)) by (vm_compute; reflexivity)
  end.
  assert (Hint : int_points sample_types).
  { constructor; [exists 1; reflexivity|].
    constructor; [exists 2; reflexivity|constructor]. }
  assert (Hpos : Forall (fun qt => 0 <= QuestionType.items qt) sample_types)
    by (repeat constructor; simpl; lia).
  destruct (@summary_totals_are_question_type_totals _ _ _ _ _ _ _
              Hint Hpos Hr) as (summary & Hs & Ht & _).
  exists summary. split; [exact Hr|]. split; [exact Hs|].
  rewrite <- Ht. reflexivity.
Defined.

End SummaryOfAssignment.

(** ** [compute_bloom_item_totals] and [generate_tos] *)

Section GenerateTos.
Import TosService.

(** Up to 300 items and for the percentages 0..100, the count of a level is
    never negative and never above the exact share. *)
Lemma count_in_share_checked :
  forallb (fun t =>
    forallb (fun w => count_in_share (Z.of_nat t) (Z.of_nat w)) (seq 0 101))
    (seq 0 301) = true.
Proof. vm_compute. reflexivity. Qed.

Lemma level_count_bounds (total_items w : Z) :
  0 <= total_items <= 300 -> 0 <= w <= 100 ->
  exists c,
    level_count total_items w = inr c /\ 0 <= c /\ 100 * c <= total_items * w.
Proof.
  intros Ht Hw. pose proof count_in_share_checked as H.
  rewrite forallb_forall in H.
  assert (Hin : In (Z.to_nat total_items) (seq 0 301)) by (apply in_seq; lia).
  specialize (H _ Hin). rewrite forallb_forall in H.
  assert (Hin' : In (Z.to_nat w) (seq 0 101)) by (apply in_seq; lia).
  specialize (H _ Hin'). rewrite !Z2Nat.id in H by lia.
  unfold count_in_share in H.
  destruct (level_count total_items w) as [e|c]; [discriminate|].
  apply andb_true_iff in H. destruct H as [H0 H1].
  apply Z.leb_le in H0, H1. exists c. split; [reflexivity|]. split; [exact H0|].
  pose proof (Z.mul_div_le (total_items * w) 100 ltac:(lia)). lia.
Qed.

(** X11. The level totals for percentages in range and up to 300 items. The call
    returns the six levels in order; the five levels with a share of their
    own get a count that is not negative and not above the exact share
    [total_items * w / 100]; "Create" gets what is left, which is not
    negative and not below its own share when the percentages add up to
    100; the counts add up to [total_items]. The percentage of "Create" is
    not read. *)
Theorem compute_bloom_item_totals_in_range :
  forall (bloom_weights : dict string Z) (total_items : Z),
    weights_in_range bloom_weights ->
    0 <= total_items <= 300 ->
    exists bloom_items,
      compute_bloom_item_totals bloom_weights total_items = inr bloom_items
      /\ dict_keys bloom_items = BLOOM_LEVELS
      /\ py_sum (dict_values bloom_items) = total_items
      /\ Forall (fun c => 0 <= snd c) bloom_items
      /\ (forall bloom w c,
            In bloom (removelast BLOOM_LEVELS) ->
            dict_get bloom_weights bloom = Some w ->
            dict_get bloom_items bloom = Some c ->
            100 * c <= total_items * w)
      /\ (forall c,
            dict_get bloom_items "Create" = Some c ->
            total_items
            * (100 - py_sum (map (fun bloom =>
                                    dict_get_default bloom_weights bloom 0)
                               (removelast BLOOM_LEVELS)))
            <= 100 * c).
Proof.
  intros bw total [Hall Hsum] Ht.
  cbn [BLOOM_LEVELS removelast] in Hall, Hsum.
  repeat match goal with
  | H : Forall _ (_ :: _) |- _ =>
      let w := fresh "w" in
      let Hg := fresh "Hg" in
      let Hw := fresh "Hw" in
      let Hrest := fresh "Hrest" in
      inversion H as [|? ? (w & Hg & Hw) Hrest]; subst; clear H
  end.
  cbn [map] in Hsum. unfold dict_get_default in Hsum.
  rewrite Hg, Hg0, Hg1, Hg2, Hg3 in Hsum.
  unfold py_sum in Hsum. cbn [fold_left] in Hsum.
  destruct (level_count_bounds Ht Hw) as (c1 & L1 & P1 & B1).
  destruct (level_count_bounds Ht Hw0) as (c2 & L2 & P2 & B2).
  destruct (level_count_bounds Ht Hw1) as (c3 & L3 & P3 & B3).
  destruct (level_count_bounds Ht Hw2) as (c4 & L4 & P4 & B4).
  destruct (level_count_bounds Ht Hw3) as (c5 & L5 & P5 & B5).
  eexists. split.
  { exact (@compute_bloom_item_totals_unfold bw total w w0 w1 w2 w3
             c1 c2 c3 c4 c5 Hg Hg0 Hg1 Hg2 Hg3 L1 L2 L3 L4 L5). }
  split; [reflexivity|].
  split; [unfold py_sum; simpl; lia|].
  split.
  { repeat constructor; simpl; try assumption. nia. }
  split.
  { intros bloom wb c Hin Hgw Hgc. simpl in Hin.
    destruct Hin as [<-|[<-|[<-|[<-|[<-|[]]]]]]; simpl in Hgc;
      injection Hgc as <-; congruence || (rewrite Hgw in *;
      repeat match goal with
             | H : Some _ = Some _ |- _ => injection H as ->
             end; assumption). }
  intros c Hgc. simpl in Hgc. injection Hgc as <-.
  cbn [BLOOM_LEVELS removelast map]. unfold dict_get_default.
  rewrite Hg, Hg0, Hg1, Hg2, Hg3.
  unfold py_sum. cbn [fold_left]. nia.
Qed.

Lemma sixty_forty_in_range : weights_in_range sixty_forty.
Proof.
  split.
  - repeat constructor; eexists; (split; [reflexivity|lia]).
  - vm_compute. discriminate.
Qed.

Lemma compute_bloom_item_totals_in_range_witness :
  weights_in_range sixty_forty
  /\ exists bloom_items,
       compute_bloom_item_totals sixty_forty 25 = inr bloom_items
       /\ py_sum (dict_values bloom_items) = 25
       /\ Forall (fun c => 0 <= snd c) bloom_items.
Proof.
  split; [exact sixty_forty_in_range|].
  destruct (@compute_bloom_item_totals_in_range sixty_forty 25
              sixty_forty_in_range ltac:(lia))
    as (bloom_items & Hr & _ & Hs & Hp & _).
  exists bloom_items. split; [exact Hr|]. split; [exact Hs|exact Hp].
Defined.

End GenerateTos.

Section GenerateTosMatrix.
Import TosService SlotAssignment QuestionTypeService.












End GenerateTosMatrix.

Section GeneratePipeline.
Import TosService SlotAssignment QuestionTypeService.





End GeneratePipeline.

(** ** The outcome texts of the slots *)

Section OutcomeTexts.
Import SlotAssignment.

Lemma find_outcome_text_first before o after outcome_id :
  o_id o = outcome_id ->
  (forall o', In o' before -> o_id o' <> outcome_id) ->
  find_outcome_text (before ++ o :: after) outcome_id = Some (o_text o).
Proof.
  intros Ho Hbefore. induction before as [|b before IH]; simpl.
  - apply Z.eqb_eq in Ho. now rewrite Ho.
  - assert (Hb : o_id b <> outcome_id) by (apply Hbefore; now left).
    apply Z.eqb_neq in Hb. rewrite Hb. apply IH.
    intros o' Hin. apply Hbefore. now right.
Qed.

Lemma find_outcome_text_absent outcomes outcome_id :
  (forall o, In o outcomes -> o_id o <> outcome_id) ->
  find_outcome_text outcomes outcome_id = None.
Proof.
  induction outcomes as [|b outcomes IH]; intros Hall; simpl; [reflexivity|].
  assert (Hb : o_id b <> outcome_id) by (apply Hall; now left).
  apply Z.eqb_neq in Hb. rewrite Hb. apply IH.
  intros o Hin. apply Hall. now right.
Qed.

(** Every Bloom slot comes from a cell with a positive count. *)
Lemma expand_bloom_slots_origin (tos_matrix : TOSMatrix) outcomes s :
  In s (expand_bloom_slots tos_matrix outcomes) ->
  exists bloom_level row outcome_id item_count,
    In (bloom_level, row) tos_matrix
    /\ In (outcome_id, item_count) row
    /\ 0 < item_count
    /\ s = BloomSlot.make outcome_id (outcome_text_for outcomes outcome_id)
             bloom_level.
Proof.
  unfold expand_bloom_slots. rewrite in_flat_map.
  intros ([L row] & Hrow & Hs). rewrite in_flat_map in Hs.
  destruct Hs as ([oid c] & Hcell & Hs). unfold expand_cell in Hs.
  exists L, row, oid, c. split; [exact Hrow|]. split; [exact Hcell|].
  destruct (Z.to_nat c) as [|n] eqn:Hn; [destruct Hs|].
  split; [lia|]. apply repeat_spec in Hs. exact Hs.
Qed.

(** X15. What an assigned slot says about its outcome. Every slot that the
    assignment returns has the level and the outcome id of a cell of the
    matrix with a positive count. Its text is the text of the first outcome
    of the list with that id, and ["Outcome <id>"] when no outcome has the
    id; the call does not raise for such an id. *)
Theorem assigned_slot_outcome_text :
  forall (tos_matrix : TOSMatrix) (outcomes : list Outcome)
         (question_types_list : list QuestionType.t)
         (shuffle : bool) (rng : nat -> nat)
         (slots : list AssignedSlot.t) (metadata : Metadata)
         (slot : AssignedSlot.t),
    assign_question_types_to_bloom_slots tos_matrix outcomes
      question_types_list shuffle rng = inr (slots, metadata) ->
    In slot slots ->
    (exists row item_count,
        In (AssignedSlot.bloom_level slot, row) tos_matrix
        /\ In (AssignedSlot.outcome_id slot, item_count) row
        /\ 0 < item_count)
    /\ (forall before o after,
          outcomes = before ++ o :: after ->
          o_id o = AssignedSlot.outcome_id slot ->
          (forall o', In o' before ->
                      o_id o' <> AssignedSlot.outcome_id slot) ->
          AssignedSlot.outcome_text slot = o_text o)
    /\ ((forall o, In o outcomes -> o_id o <> AssignedSlot.outcome_id slot) ->
        AssignedSlot.outcome_text slot
        = String.append "Outcome " (str_of_Z (AssignedSlot.outcome_id slot))).
Proof.
  intros M outcomes D shuffle rng slots metadata slot Hr Hin.
  destruct (assign_inr_inv _ _ _ _ _ Hr)
    as (picked & Hpl & _ & Hslots & _).
  assert (Hb : In (bloom_slot_of slot) (expand_bloom_slots M outcomes)).
  { rewrite <- (fuse_bloom 0 (expand_bloom_slots M outcomes) picked Hpl).
    apply in_map. apply (Permutation_in slot Hslots Hin). }
  apply expand_bloom_slots_origin in Hb.
  destruct Hb as (L & row & oid & c & Hrow & Hcell & Hc & Hs).
  unfold bloom_slot_of in Hs. injection Hs as Hoid Htext HL.
  rewrite Hoid, Htext, HL. split; [now exists row, c|].
  unfold outcome_text_for. split.
  - intros before o after -> Ho Hbefore.
    now rewrite (@find_outcome_text_first before o after oid Ho Hbefore).
  - intros Hnone. now rewrite (@find_outcome_text_absent outcomes oid Hnone).
Qed.

Lemma assigned_slot_outcome_text_witness :
  exists slots metadata,
    assign_question_types_to_bloom_slots [("Analyze", [(7, 2)])]
      sample_outcomes [QuestionType.make "Essay" 2 (PyInt 5) "qt-1"]
      false no_draws = inr (slots, metadata)
    /\ forall slot, In slot slots ->
         AssignedSlot.outcome_text slot = "Outcome 7".
Proof.
  eexists _, _.
  match goal with
  | |- ?call = inr (?s, ?m) /\ _ =>
      assert (Hr : call = inr (s, m)) by (vm_compute; reflexivity)
  end.
  split; [exact Hr|]. intros slot Hin.
  destruct (@assigned_slot_outcome_text _ _ _ _ _ _ _ slot Hr Hin)
    as (_ & _ & Hnone).
  rewrite Hnone.
  - destruct Hin as [<-|[<-|[]]]; reflexivity.
  - intros o [<-|[]]. destruct Hin as [<-|[<-|[]]]; discriminate.
Defined.

End OutcomeTexts.

(** ** Labels that the preference table does not know *)

Section UnlistedLabels.
Import SlotAssignment.

Lemma preferred_are_listed bloom_level p :
  In p (dict_get_default PREFERRED_TYPES bloom_level []) -> In p listed_types.
Proof.
  unfold dict_get_default.
  destruct (dict_get PREFERRED_TYPES bloom_level) as [l|] eqn:Hg;
    [|intros []].
  intros Hin. apply dict_get_some_in in Hg.
  unfold listed_types. apply in_concat. exists l. split; [|exact Hin].
  apply (in_map snd) in Hg. exact Hg.
Qed.

(** On a pool without a listed type the loop pairs the Bloom slots with the
    type slots in order, each as a fallback. *)
Lemma assign_loop_unlisted bloom_slots :
  forall st,
    Forall (fun ts => ~ In (TypeSlot.question_type ts) listed_types)
      (available_types st) ->
    (List.length bloom_slots <= List.length (available_types st))%nat ->
    assign_loop bloom_slots st
    = inr {| available_types :=
               skipn (List.length bloom_slots) (available_types st);
             assigned :=
               assigned st
               ++ fuse (List.length (assigned st)) bloom_slots
                    (available_types st);
             preferred_matches := preferred_matches st;
             fallback_matches :=
               fallback_matches st + Z.of_nat (List.length bloom_slots) |}.
Proof.
  induction bloom_slots as [|b bs IH]; intros st Hun Hlen.
  - destruct st. simpl. rewrite app_nil_r, Z.add_0_r. reflexivity.
  - cbn [assign_loop]. unfold assign_step.
    rewrite find_preferred_absent.
    2:{ intros p Hp t Ht Heq. rewrite Forall_forall in Hun.
        apply (Hun t Ht). rewrite Heq. exact (preferred_are_listed _ _ Hp). }
    destruct (available_types st) as [|ts rest] eqn:Hpool;
      [simpl in Hlen; lia|].
    cbn [Py.bind Py.ret list_pop].
    rewrite IH; cbn [available_types assigned preferred_matches
                     fallback_matches].
    + rewrite length_app, <- app_assoc. cbn [List.length app skipn fuse].
      rewrite Nat.add_1_r. do 2 f_equal. lia.
    + now inversion Hun.
    + simpl in Hlen. lia.
Qed.

(** X16. A distribution whose labels are all unknown to the preference table
    (as "Multiple Choice (MCQ)" is) gets no preferred match. Whenever the
    two expansions have the same length other than 0, the call returns the
    Bloom slots paired with the type slots in the order of the distribution
    (shuffled if asked), and the metadata counts every match as a
    fallback. *)
Theorem unlisted_labels_are_paired_in_order :
  forall (tos_matrix : TOSMatrix) (outcomes : list Outcome)
         (question_types_list : list QuestionType.t)
         (shuffle : bool) (rng : nat -> nat),
    unlisted question_types_list ->
    List.length (expand_bloom_slots tos_matrix outcomes)
    = List.length (expand_type_slots question_types_list) ->
    List.length (expand_bloom_slots tos_matrix outcomes) <> 0%nat ->
    let paired :=
      fuse 0 (expand_bloom_slots tos_matrix outcomes)
        (expand_type_slots question_types_list) in
    exists metadata,
      assign_question_types_to_bloom_slots tos_matrix outcomes
        question_types_list shuffle rng
      = inr (if shuffle then random_shuffle rng paired else paired, metadata)
      /\ md_preferred_matches metadata = 0
      /\ md_fallback_matches metadata = total_slots metadata
      /\ total_slots metadata
         = Z.of_nat (List.length (expand_bloom_slots tos_matrix outcomes)).
Proof.
  intros M outcomes D shuffle rng Hun Hlen Hnz paired.
  assert (Hpool : Forall (fun ts => ~ In (TypeSlot.question_type ts)
                                         listed_types)
                    (expand_type_slots D)).
  { apply Forall_forall. intros ts Hts.
    apply expand_type_slots_origin in Hts.
    destruct Hts as (qt & Hqt & _ & ->). simpl.
    unfold unlisted in Hun. rewrite Forall_forall in Hun. now apply Hun. }
  unfold assign_question_types_to_bloom_slots.
  rewrite <- Hlen, Z.eqb_refl. cbn [negb].
  rewrite assign_loop_unlisted; cbn [available_types assigned]; try lia;
    [|exact Hpool].
  cbn [Py.bind assigned preferred_matches fallback_matches available_types
       app List.length].
  fold paired.
  assert (Hlp : List.length paired
                = List.length (expand_bloom_slots M outcomes))
    by (apply fuse_length; congruence).
  assert (Hla : List.length (if shuffle then random_shuffle rng paired
                             else paired)
                = List.length (expand_bloom_slots M outcomes)).
  { destruct shuffle; [rewrite random_shuffle_length|]; exact Hlp. }
  rewrite Hla. unfold py_truediv_int.
  destruct (Z.eqb_spec
              (Z.of_nat (List.length (expand_bloom_slots M outcomes))) 0)
    as [Hz|_]; [lia|].
  cbn [Py.bind Py.ret]. eexists. split; [reflexivity|].
  cbn [md_preferred_matches md_fallback_matches total_slots].
  split; [reflexivity|]. split; reflexivity.
Qed.

Lemma default_labels_unlisted : unlisted default_labels_20.
Proof.
  repeat constructor; unfold listed_types; simpl;
    intuition discriminate.
Qed.

Lemma unlisted_labels_are_paired_in_order_witness :
  unlisted default_labels_20
  /\ exists metadata,
       assign_question_types_to_bloom_slots sample_matrix sample_outcomes
         default_labels_20 false no_draws
       = inr (fuse 0 (expand_bloom_slots sample_matrix sample_outcomes)
                (expand_type_slots default_labels_20), metadata)
       /\ md_preferred_matches metadata = 0.
Proof.
  split; [exact default_labels_unlisted|].
  destruct (@unlisted_labels_are_paired_in_order sample_matrix
              sample_outcomes default_labels_20 false no_draws
              default_labels_unlisted ltac:(reflexivity)
              ltac:(simpl; discriminate))
    as (metadata & Hr & Hp & _).
  exists metadata. split; [exact Hr|exact Hp].
Defined.

End UnlistedLabels.

(** ** Point values in steps of a half *)

Section HalfPoints.
Import SlotAssignment.

Lemma half_points_exact_checked :
  forallb (fun n =>
    forallb (fun k => half_points_exact (Z.of_nat n) (Z.of_nat k))
      (seq 0 201))
    (seq 0 301) = true.
Proof. vm_compute. reflexivity. Qed.

(** X17. Point values in steps of a half, from 0 to 100, add up exactly for up
    to 300 items: the points of the slots of such an entry, added up one by
    one as the verifier and the summary do, compare equal to
    [total_points()]. *)
Theorem half_points_add_up_exactly :
  forall (qt : QuestionType.t) (k : Z),
    0 <= QuestionType.items qt <= 300 ->
    0 <= k <= 200 ->
    QuestionType.points_per_item qt = half_points k ->
    py_eqb (QuestionType.total_points qt) (accumulated_points qt) = true.
Proof.
  intros qt k Hn Hk Hp. pose proof half_points_exact_checked as H.
  rewrite forallb_forall in H.
  assert (Hin : In (Z.to_nat (QuestionType.items qt)) (seq 0 301))
    by (apply in_seq; lia).
  specialize (H _ Hin). rewrite forallb_forall in H.
  assert (Hin' : In (Z.to_nat k) (seq 0 201)) by (apply in_seq; lia).
  specialize (H _ Hin'). rewrite !Z2Nat.id in H by lia.
  unfold half_points_exact, points_exact, accumulated_points in H.
  unfold QuestionType.total_points, accumulated_points.
  cbn [QuestionType.items QuestionType.points_per_item] in H.
  rewrite Hp. exact H.
Qed.

Lemma half_points_add_up_exactly_witness :
  py_eqb
    (QuestionType.total_points
       (QuestionType.make "Essay" 7 (PyFloat 2.5) "qt-1"))
    (accumulated_points (QuestionType.make "Essay" 7 (PyFloat 2.5) "qt-1"))
  = true.
Proof.
  apply (@half_points_add_up_exactly
           (QuestionType.make "Essay" 7 (PyFloat 2.5) "qt-1") 5).
  - simpl. lia.
  - lia.
  - vm_compute. reflexivity.
Defined.

End HalfPoints.

(** ** Totals of the question types *)

Section QuestionTypeTotals.
Import QuestionTypeService.





End QuestionTypeTotals.

(** ** [generate_tos_from_assigned_slots] and [compute_tos_totals] *)

Section Nested.
Import TosService.
Context {V : Type}.
Implicit Types m : dict string (dict Z V).
















End Nested.

Section SameShape.
Import TosService.
Context {V W : Type}.
Implicit Types (m : dict string (dict Z V)) (n : dict string (dict Z W)).







End SameShape.

Section RegenerateLoops.
Import TosService.








End RegenerateLoops.

Section RegenerateTotals.
Import TosService.










End RegenerateTotals.

Section RegenerateTheorems.
Import TosService.

















End RegenerateTheorems.

(** ** The allocation and the exact shares *)

Section Quota.
Import TosService.









End Quota.
